(** * Invoice-app: totals, invoice numbering and PDF layout

    A shallow embedding of [src/lib/invoice-helpers.ts] and
    [src/lib/pdf-helpers.ts], together with the two React effects of the
    invoice pages that call [calculateInvoiceTotals].

    JavaScript numbers are IEEE 754 binary64 values; they are modelled by
    Rocq's primitive [float]s, whose operations are the same binary64
    operations.  JavaScript strings are modelled by [string] (a sequence of
    bytes; non-ASCII text is carried as its UTF-8 encoding). *)

From Stdlib Require Import ZArith QArith Qabs Qround List String Ascii Bool Lia.
From Stdlib Require Import Floats.
From Stdlib Require Import Sorted Permutation.
From ExtLib Require Import Structures.Monad Structures.MonadState.
From ExtLib Require Import Data.Monads.StateMonad.
Import ListNotations.
Import MonadNotation.

Open Scope string_scope.
Set Warnings "-inexact-float".

(* ================================================================= *)
(** ** The JavaScript built-ins the code relies on *)

Module JS.

(** [ToBoolean] on a number: [NaN], [+0] and [-0] are falsy. *)
Definition truthy (x : float) : bool :=
  negb (PrimFloat.is_nan x || PrimFloat.is_zero x).

(** [x || d] where [x] is a number. *)
Definition or_else (x d : float) : float :=
  if truthy x then x else d.

(** [ToBoolean] on a string: only the empty string is falsy. *)
Definition truthy_str (s : string) : bool :=
  match s with EmptyString => false | _ => true end.

(** [ToBoolean] on an optional string field ([undefined] is falsy). *)
Definition truthy_opt (o : option string) : bool :=
  match o with Some s => truthy_str s | None => false end.

(** The number nearest to an integer (round to nearest, ties to even). *)
Definition of_Z (z : Z) : float :=
  SF2Prim (binary_normalize prec emax z 0 false).

(** *** Decimal digits *)

Definition digit_char (d : Z) : ascii :=
  ascii_of_N (48 + Z.to_N (d mod 10)).

Fixpoint digits_aux (fuel : nat) (n : Z) (acc : string) : string :=
  match fuel with
  | O => acc
  | S fuel' =>
      let acc' := String (digit_char n) acc in
      if (n / 10 =? 0)%Z then acc' else digits_aux fuel' (n / 10) acc'
  end.

(** The decimal representation of a non-negative integer. *)
Definition decimal (n : Z) : string :=
  digits_aux (S (Z.to_nat (Z.log2 n))) n "".

Fixpoint repeat_char (c : ascii) (n : nat) : string :=
  match n with
  | O => ""
  | S n' => String c (repeat_char c n')
  end.

(** [s.padStart(maxLength, "0")] *)
Definition padStart0 (s : string) (maxLength : nat) : string :=
  repeat_char "0" (maxLength - String.length s) ++ s.

(** *** [Number::toString] (radix 10)

    The exact value of a finite number is [m * 2^e].  The digits are those
    of the shortest decimal [s * 10^(n-k)] (with [k] digits) that rounds to
    the number, the closest one when several exist. *)

Definition pow2 (e : Z) : Q := Qpower 2 e.
Definition pow10 (e : Z) : Q := Qpower 10 e.

Definition exact (m : positive) (e : Z) : Q := inject_Z (Zpos m) * pow2 e.

(** The reals that round to [m * 2^e]. *)
Definition rounds_to (m : positive) (e : Z) (v : Q) : bool :=
  let x := exact m e in
  let up := pow2 (e - 1) in
  let down :=
    if (Pos.eqb m (Pos.shiftl 1 52) && (emin <? e)%Z)%bool then pow2 (e - 2)
    else pow2 (e - 1) in
  if Z.even (Zpos m)
  then Qle_bool (x - down) v && Qle_bool v (x + up)
  else negb (Qle_bool v (x - down)) && negb (Qle_bool (x + up) v).

(** The least [n] with [x < 10^n], searched upwards from [n0].  A number of
    [b] bits lies between [2^(b-1)] and [2^b], so the search starts two
    below [b * log10 2]. *)
Fixpoint magnitude (fuel : nat) (x : Q) (n0 : Z) : Z :=
  match fuel with
  | O => n0
  | S fuel' =>
      if Qle_bool (pow10 n0) x then magnitude fuel' x (n0 + 1) else n0
  end.

Definition Qdist (a b : Q) : Q := Qabs (a - b).

(** Candidates with [k] digits and decimal exponent [n]. *)
Definition candidates (m : positive) (e : Z) (k n : Z) : list (Z * Z) :=
  let x := exact m e in
  let scale := pow10 (n - k) in
  let s0 := Qfloor (x / scale) in
  filter (fun sn : Z * Z =>
            let s := fst sn in
            ((10 ^ (k - 1) <=? s)%Z && (s <? 10 ^ k)%Z
             && rounds_to m e (inject_Z s * scale))%bool)
         [(s0, n); ((s0 + 1)%Z, n)].

Definition closer (m : positive) (e : Z) (k : Z) (a b : Z * Z) : Z * Z :=
  let x := exact m e in
  let va := inject_Z (fst a) * pow10 (snd a - k) in
  let vb := inject_Z (fst b) * pow10 (snd b - k) in
  match Qcompare (Qdist va x) (Qdist vb x) with
  | Lt => a
  | Gt => b
  | Eq => if Z.even (fst a) then a else b
  end.

Fixpoint shortest (fuel : nat) (m : positive) (e : Z) (n1 : Z) (k : Z)
  : Z * Z * Z :=
  match fuel with
  | O => (Zpos m, k, n1)
  | S fuel' =>
      match (candidates m e k (n1 - 1) ++ candidates m e k n1
             ++ candidates m e k (n1 + 1))%list with
      | [] => shortest fuel' m e n1 (k + 1)
      | c :: cs =>
          let '(s, n) := fold_left (closer m e k) cs c in (s, k, n)
      end
  end.

(** Step 5 of [Number::toString]: the integers [s], [k], [n]. *)
Definition shortest_digits (m : positive) (e : Z) : Z * Z * Z :=
  let x := exact m e in
  let bits := (Z.log2 (Zpos m) + 1 + e)%Z in
  let n1 := magnitude 8 x (bits * 30103 / 100000 - 2) in
  shortest 17 m e n1 1.

Definition take (n : Z) (s : string) : string := substring 0 (Z.to_nat n) s.
Definition drop (n : Z) (s : string) : string :=
  substring (Z.to_nat n) (String.length s - Z.to_nat n) s.

(** Steps 6 to 11 of [Number::toString]. *)
Definition render_digits (s k n : Z) : string :=
  let ds := decimal s in
  if ((-5 <=? n) && (n <=? 21))%Z%bool then
    if (k <=? n)%Z then ds ++ repeat_char "0" (Z.to_nat (n - k))
    else if (0 <? n)%Z then take n ds ++ "." ++ drop n ds
    else "0." ++ repeat_char "0" (Z.to_nat (- n)) ++ ds
  else
    let ex := (n - 1)%Z in
    let sign := if (ex <? 0)%Z then "-" else "+" in
    if (k =? 1)%Z then ds ++ "e" ++ sign ++ decimal (Z.abs ex)
    else take 1 ds ++ "." ++ drop 1 ds ++ "e" ++ sign ++ decimal (Z.abs ex).

Definition toString (x : float) : string :=
  match Prim2SF x with
  | S754_nan => "NaN"
  | S754_zero _ => "0"
  | S754_infinity s => if s then "-Infinity" else "Infinity"
  | S754_finite s m e =>
      let '(d, k, n) := shortest_digits m e in
      (if s then "-" else "") ++ render_digits d k n
  end.

(** *** [Number.prototype.toFixed]

    [fixed_point n f] places the decimal point [f] digits from the right of
    the digits of [n], padding with zeros so that one digit precedes it. *)
Definition fixed_point (n : Z) (f : nat) : string :=
  match f with
  | O => decimal n
  | S _ =>
      let m := padStart0 (decimal n) (f + 1) in
      let k := String.length m in
      substring 0 (k - f) m ++ "." ++ substring (k - f) f m
  end.

(** The number is finite and its magnitude is below [10^21]. *)
Definition below_1e21 (x : float) : bool :=
  match Prim2SF x with
  | S754_zero _ => true
  | S754_finite _ m e => negb (Qle_bool (pow10 21) (exact m e))
  | _ => false
  end.

(** [x.toFixed(f)], for [0 <= f <= 100]. *)
Definition toFixed (x : float) (f : nat) : string :=
  match Prim2SF x with
  | S754_zero _ => fixed_point 0 f
  | S754_finite s m e =>
      let sign := if s then "-" else "" in
      if Qle_bool (pow10 21) (exact m e)
      then sign ++ toString (PrimFloat.abs x)
      else sign ++ fixed_point (Qfloor (exact m e * pow10 (Z.of_nat f) + (1 # 2))) f
  | _ => toString x
  end.

(** *** Strings *)

(** [s.startsWith(p)] *)
Definition startsWith (s p : string) : bool := String.prefix p s.

(** [s.replace(pat, rep)] with a string pattern: the first occurrence only. *)
Definition replace (s pat rep : string) : string :=
  match String.index 0 pat s with
  | Some i =>
      substring 0 i s ++ rep
      ++ substring (i + String.length pat)
                   (String.length s - (i + String.length pat)) s
  | None => s
  end.

Definition is_digit (c : ascii) : bool :=
  let n := nat_of_ascii c in ((48 <=? n) && (n <=? 57))%nat%bool.

(** The white space that [String.prototype.trim] strips and that
    [parseInt] skips ([WhiteSpace] and [LineTerminator]): the ASCII
    characters 9 to 13 and 32, and the UTF-8 encodings of U+00A0, U+1680,
    U+2000 to U+200A, U+2028, U+2029, U+202F, U+205F, U+3000 and U+FEFF.
    [white_prefix s] is the rest of [s] after one such character. *)
Definition white_prefix (s : string) : option string :=
  match s with
  | EmptyString => None
  | String c rest =>
      let n := nat_of_ascii c in
      if ((9 <=? n) && (n <=? 13) || (n =? 32))%nat%bool then Some rest
      else
        match rest with
        | String d rest' =>
            let x := nat_of_ascii d in
            if ((n =? 194) && (x =? 160))%nat%bool then Some rest'
            else
              match rest' with
              | String e rest'' =>
                  let y := nat_of_ascii e in
                  if ((n =? 225) && (x =? 154) && (y =? 128)
                      || (n =? 226) && (x =? 128)
                         && ((128 <=? y) && (y <=? 138) || (y =? 168)
                             || (y =? 169) || (y =? 175))
                      || (n =? 226) && (x =? 129) && (y =? 159)
                      || (n =? 227) && (x =? 128) && (y =? 128)
                      || (n =? 239) && (x =? 187) && (y =? 191))%nat%bool
                  then Some rest''
                  else None
              | EmptyString => None
              end
        | EmptyString => None
        end
  end.

Fixpoint skip_spaces_aux (fuel : nat) (s : string) : string :=
  match fuel with
  | O => s
  | S fuel' =>
      match white_prefix s with
      | Some rest => skip_spaces_aux fuel' rest
      | None => s
      end
  end.

(** The string without its leading white space. *)
Definition skip_spaces (s : string) : string :=
  skip_spaces_aux (String.length s) s.

(** The value of the longest prefix of decimal digits, if there is one. *)
Fixpoint leading_digits (s : string) (acc : option Z) : option Z :=
  match s with
  | String c s' =>
      if is_digit c
      then leading_digits s'
             (Some (10 * match acc with Some a => a | None => 0 end
                    + (Z.of_nat (nat_of_ascii c) - 48))%Z)
      else acc
  | EmptyString => acc
  end.

(** [Number.parseInt(s, 10)]: leading white space is skipped, a sign is
    accepted, and the result is [NaN] when no digit follows. *)
Definition parseInt (s : string) : float :=
  let s := skip_spaces s in
  let '(neg, s) :=
    match s with
    | String "-" s' => (true, s')
    | String "+" s' => (false, s')
    | _ => (false, s)
    end in
  match leading_digits s None with
  | Some v => if neg then (- of_Z v)%float else of_Z v
  | None => nan
  end.

End JS.

(* ================================================================= *)
(** ** Errors

    An [await] that rejects and a call that throws are both modelled by
    [Throw]; [try ... catch] is a [match] on the result. *)

Inductive result (A : Type) : Type :=
  | Ok (a : A)
  | Throw (error : string).
Arguments Ok {A} a.
Arguments Throw {A} error.

Definition bind_result {A B : Type} (r : result A) (k : A -> result B)
  : result B :=
  match r with
  | Ok a => k a
  | Throw e => Throw e
  end.

#[global] Instance Monad_result : Monad result :=
  {| ret := @Ok; bind := @bind_result |}.

Open Scope monad_scope.

(* ================================================================= *)
(** ** The Firestore database, as far as the helpers read and write it *)

Module Firestore.

Inductive Collection := settingsCollection | invoicesCollection.

(** A document of the [settings] collection: the allocator reads its
    [nextInvoiceNumber] field, which may be missing. *)
Record SettingsData := { nextInvoiceNumber : option float }.

(** A document of the [invoices] collection: the allocator reads its
    [invoiceNumber] field, which the invoice form always writes. *)
Record InvoiceData := { invoiceNumber : string }.

Record Db := {
  settings : list SettingsData;
  invoices : list InvoiceData;
  (** the collections whose queries are rejected *)
  unreachable : Collection -> bool
}.

(** [getDocs(query(collection(db, "settings")))] *)
Definition getDocs_settings (db : Db) : result (list SettingsData) :=
  if unreachable db settingsCollection then Throw "unavailable"
  else Ok (settings db).

(** Insertion into a list ordered by [invoiceNumber], highest first. *)
Fixpoint insert_desc (d : InvoiceData) (l : list InvoiceData) : list InvoiceData :=
  match l with
  | [] => [d]
  | d' :: l' =>
      if String.leb (invoiceNumber d') (invoiceNumber d)
      then d :: l
      else d' :: insert_desc d l'
  end.

Definition orderBy_invoiceNumber_desc (l : list InvoiceData) : list InvoiceData :=
  fold_right insert_desc [] l.

(** [getDocs(query(collection(db, "invoices"),
               orderBy("invoiceNumber", "desc"), limit(1)))] *)
Definition getDocs_last_invoice (db : Db) : result (list InvoiceData) :=
  if unreachable db invoicesCollection then Throw "unavailable"
  else Ok (firstn 1 (orderBy_invoiceNumber_desc (invoices db))).

(** The highest invoice identifier in the collection, if any. *)
Definition highest (db : Db) : option string :=
  match orderBy_invoiceNumber_desc (invoices db) with
  | d :: _ => Some (invoiceNumber d)
  | [] => None
  end.

(** Every collection can be queried. *)
Definition reachable : Collection -> bool := fun _ => false.

(** [addDoc(collection(db, "invoices"), data)] *)
Definition addDoc_invoice (db : Db) (data : InvoiceData) : result Db :=
  if unreachable db invoicesCollection then Throw "unavailable"
  else Ok {| settings := settings db;
             invoices := (invoices db ++ [data])%list;
             unreachable := unreachable db |}.

End Firestore.

(* ================================================================= *)
(** ** [src/lib/invoice-helpers.ts] *)

Module Helpers.
Import Firestore.

Record InvoiceItem := {
  id : string;
  description : string;
  quantity : float;
  price : float;
  total : float
}.

Record Totals := {
  subtotal : float;
  tax : float;
  totalAmount : float
}.

(** [calculateInvoiceTotals(items, taxRate = 0)]; [None] is an omitted
    tax rate. *)
Definition calculateInvoiceTotals (items : list InvoiceItem)
    (taxRate : option float) : Totals :=
  let taxRate := match taxRate with Some r => r | None => 0%float end in
  let subtotal :=
    fold_left (fun sum item => (sum + JS.or_else (total item) 0)%float)
              items 0%float in
  let tax := (subtotal * (taxRate / 100))%float in
  let totalAmount := (subtotal + tax)%float in
  {| subtotal := subtotal; tax := tax; totalAmount := totalAmount |}.

(** [`INV-${n.toString().padStart(4, "0")}`] *)
Definition format_number (n : float) : string :=
  "INV-" ++ JS.padStart0 (JS.toString n) 4.

(** The stored counter [settings?.nextInvoiceNumber] of the first settings
    document, when it is truthy. *)
Definition stored_counter (settingsSnapshot : list SettingsData) : option float :=
  match settingsSnapshot with
  | settingsDoc :: _ =>
      match nextInvoiceNumber settingsDoc with
      | Some n => if JS.truthy n then Some n else None
      | None => None
      end
  | [] => None
  end.

(** The body of the [try] block of [getNextInvoiceNumber]. *)
Definition getNextInvoiceNumber_try (db : Db) : result string :=
  settingsSnapshot <- getDocs_settings db ;;
  match stored_counter settingsSnapshot with
  | Some n => Ok (format_number n)
  | None =>
      invoicesSnapshot <- getDocs_last_invoice db ;;
      match invoicesSnapshot with
      | lastInvoice :: _ =>
          let lastInvoiceNumber := invoiceNumber lastInvoice in
          if (JS.truthy_str lastInvoiceNumber
              && JS.startsWith lastInvoiceNumber "INV-")%bool then
            let numberPart := JS.parseInt (JS.replace lastInvoiceNumber "INV-" "") in
            if negb (PrimFloat.is_nan numberPart)
            then Ok (format_number (numberPart + 1)%float)
            else Ok "INV-0001"
          else Ok "INV-0001"
      | [] => Ok "INV-0001"
      end
  end.

Definition getNextInvoiceNumber (db : Db) : string :=
  match getNextInvoiceNumber_try db with
  | Ok number => number
  | Throw _ => "INV-0001"
  end.

End Helpers.

(* ================================================================= *)
(** ** The invoice pages ([NewInvoicePage], [EditInvoicePage]) *)

Module Pages.
Import Helpers.

(** The first step of the totals effect:
    [watchedItems.map((item) => ({ ...item, total: item.quantity * item.price }))] *)
Definition updateItem (item : InvoiceItem) : InvoiceItem :=
  {| id := id item;
     description := description item;
     quantity := quantity item;
     price := price item;
     total := (quantity item * price item)%float |}.

(** The effect that runs when the items or the tax rate change; it is the
    same in both pages.  It does nothing on an empty item list; otherwise
    it yields the totals written to the form. *)
Definition totalsEffect (watchedItems : list InvoiceItem)
    (watchedTaxRate : float) : option Totals :=
  match watchedItems with
  | [] => None
  | _ :: _ =>
      let updatedItems := map updateItem watchedItems in
      Some (calculateInvoiceTotals updatedItems (Some watchedTaxRate))
  end.

(** [NewInvoicePage.onSubmit]: without a signed-in user nothing is written;
    otherwise the invoice is added, and a failure of [addDoc] is caught. *)
Definition onSubmit (currentUser : bool) (data : Firestore.InvoiceData)
    (db : Firestore.Db) : Firestore.Db :=
  if currentUser then
    match Firestore.addDoc_invoice db data with
    | Ok db' => db'
    | Throw _ => db
    end
  else db.

End Pages.

(* ================================================================= *)
(** ** [src/lib/pdf-helpers.ts] *)

Module Pdf.

(** *** The jsPDF document

    The document is the sequence of calls made on it.  What jsPDF, the
    autoTable plug-in and the [Date] object compute on their own is given
    by the host. *)

Inductive Align := AlignLeft | AlignCenter | AlignRight.

Record TextOptions := {
  align : option Align;
  maxWidth : option float
}.

Inductive Cell :=
  | CellString (s : string)
  | CellNumber (n : float).

Record ColumnStyle := {
  cellWidth : option float;   (** [None] is ["auto"] *)
  column_halign : option Align
}.

Record TableOptions := {
  startY : float;
  head : list (list string);
  body : list (list Cell);
  margin_left : float;
  margin_right : float;
  styles_overflow : string;
  styles_font : string;
  styles_halign : Align;
  headStyles_fillColor : float * float * float;
  columnStyles : list ColumnStyle
}.

Inductive Call :=
  | addImage (imageData format : string) (x y w h : float)
  | setFontSize (size : float)
  | text (s : string) (x y : float) (options : TextOptions)
  | autoTable (options : TableOptions)
  | setFillColor (r g b : float)
  | rect (x y w h : float) (style : string)
  | save (filename : string).

Record Host := {
  (** [doc.internal.pageSize.getWidth()] and [getHeight()] *)
  pageSize_getWidth : float;
  pageSize_getHeight : float;
  (** whether [doc.addImage] throws on this image *)
  addImage_throws : string -> bool;
  (** the [finalY] that [autoTable] leaves in [doc.lastAutoTable], or the
      exception it throws *)
  autoTable_finalY : TableOptions -> result float;
  (** [doc.splitTextToSize(text, width)] *)
  splitTextToSize : string -> float -> list string;
  (** [d.toLocaleDateString(locale)] for a valid time value *)
  toLocaleDateString : string -> Z -> string;
  (** [d.toLocaleString(locale)] for a valid time value; [None] is the
      default locale *)
  toLocaleString : option string -> Z -> string
}.

(** *** The inputs *)

(** A [Date] object: its time value in milliseconds, [None] when it is
    [NaN] (an invalid date). *)
Definition JsDate := option Z.

(** What [formatDate] can be given. *)
Inductive DateArg :=
  (** [undefined], [null] or another falsy value *)
  | Absent
  (** a truthy value with a truthy [toDate] property (a Firestore
      [Timestamp]): what calling [date.toDate()] and then reading the date
      yields *)
  | WithToDate (toDate : result JsDate)
  (** any other truthy value: what [new Date(date)] yields; a string that
      does not parse yields an invalid date *)
  | Plain (newDate : result JsDate).

Record Invoice := {
  invoiceNumber : string;
  date : DateArg;
  dueDate : DateArg;
  clientName : string;
  clientAddress : option string;
  clientEmail : option string;
  items : list Helpers.InvoiceItem;
  subtotal : float;
  tax : float;
  taxRate : float;
  totalAmount : float;
  notes : option string
}.

Record Settings := {
  language : option string;
  logoUrl : option string;
  companyName : option string;
  address : option string;
  email : option string;
  phone : option string;
  website : option string;
  taxNumber : option string;
  currency : option string;
  termsAndConditions : option string
}.

(** [settings?.field] *)
Definition field (settings : option Settings)
    (f : Settings -> option string) : option string :=
  match settings with Some s => f s | None => None end.

(** [value || fallback] on an optional string *)
Definition or_default (value : option string) (fallback : string) : string :=
  match value with
  | Some v => if JS.truthy_str v then v else fallback
  | None => fallback
  end.

(** *** Currency *)

Definition getCurrencySymbol (currency : string) : string :=
  if (currency =? "SAR")%string then "ر.س"
  else if (currency =? "USD")%string then "$"
  else if (currency =? "EUR")%string then "€"
  else if (currency =? "GBP")%string then "£"
  else "$".

Definition formatCurrency (amount : float) (currency symbol : string) : string :=
  symbol ++ " " ++ JS.toFixed amount 2.

(** *** Dates *)

(** [d.toLocaleDateString(locale)] on a [Date] object *)
Definition Date_toLocaleDateString (host : Host) (d : JsDate) (locale : string)
  : string :=
  match d with
  | Some t => toLocaleDateString host locale t
  | None => "Invalid Date"
  end.

(** The local function [formatDate] of [generatePdf]. *)
Definition formatDate (host : Host) (isArabic : bool) (date : DateArg) : string :=
  match date with
  | Absent => "N/A"
  | WithToDate r | Plain r =>
      let attempt : result string :=
        d <- r ;;
        ret (Date_toLocaleDateString host d (if isArabic then "ar-SA" else "en-US")) in
      match attempt with
      | Ok s => s
      | Throw _ => "Invalid Date"
      end
  end.

(** *** The layout

    [generatePdf] runs in a state monad over the document under
    construction and the vertical cursor [yPos]. *)

Record DocState := {
  yPos : float;
  lastAutoTable : option float;   (** [doc.lastAutoTable?.finalY] *)
  calls : list Call
}.

Definition Doc := state DocState.

Definition call (c : Call) : Doc unit :=
  modify (fun st => {| yPos := yPos st;
                       lastAutoTable := lastAutoTable st;
                       calls := (calls st ++ [c])%list |}) ;;
  ret tt.

Definition setY (y : float) : Doc unit :=
  modify (fun st => {| yPos := y;
                       lastAutoTable := lastAutoTable st;
                       calls := calls st |}) ;;
  ret tt.

Definition getY : Doc float := gets yPos.

(** [yPos += d] *)
Definition advance (d : float) : Doc unit :=
  y <- getY ;; setY (y + d)%float.

Definition setLastAutoTable (finalY : float) : Doc unit :=
  modify (fun st => {| yPos := yPos st;
                       lastAutoTable := Some finalY;
                       calls := calls st |}) ;;
  ret tt.

(** [if (value) { ... }] on an optional string *)
Definition whenPresent (value : option string) (k : string -> Doc unit)
  : Doc unit :=
  match value with
  | Some v => if JS.truthy_str v then k v else ret tt
  | None => ret tt
  end.

Definition margin : float := 20.

Definition noOptions : TextOptions := {| align := None; maxWidth := None |}.
Definition aligned (a : Align) : TextOptions :=
  {| align := Some a; maxWidth := None |}.

(** One row of the table body, in the order of [tableColumns]:
    description, quantity, price, total. *)
Definition tableRow (currency currencySymbol : string)
    (item : Helpers.InvoiceItem) : list Cell :=
  [ CellString (Helpers.description item);
    CellNumber (Helpers.quantity item);
    CellString (formatCurrency (Helpers.price item) currency currencySymbol);
    CellString (formatCurrency
                  (JS.or_else (Helpers.total item)
                     (Helpers.quantity item * Helpers.price item)%float)
                  currency currencySymbol) ].

(** The locals of [generatePdf] that every block reads. *)
Section Layout.

Variables (host : Host) (invoice : Invoice) (settings : option Settings).

Definition pageWidth : float := pageSize_getWidth host.
Definition pageHeight : float := pageSize_getHeight host.

(** Set text direction based on language *)
Definition isArabic : bool :=
  match field settings language with
  | Some l => (l =? "ar")%string
  | None => false
  end.

Definition textAlign : Align := if isArabic then AlignRight else AlignLeft.

(** [isArabic ? pageWidth - margin : margin] *)
Definition bodyX : float :=
  if isArabic then (pageWidth - margin)%float else margin.

(** [isArabic ? margin : pageWidth - margin] and
    [{ align: isArabic ? "left" : "right" }] *)
Definition titleX : float :=
  if isArabic then margin else (pageWidth - margin)%float.
Definition titleAlign : Align := if isArabic then AlignLeft else AlignRight.

(** Add company logo if available, else the company name as header *)
Definition header : Doc unit :=
  match field settings logoUrl with
  | Some (String c url) =>
      if addImage_throws host (String c url) then ret tt
      else
        y <- getY ;;
        call (addImage (String c url) "JPEG" margin y 50 20) ;;
        advance 25
  | _ =>
      call (setFontSize 24) ;;
      y <- getY ;;
      call (text (or_default (field settings companyName) "Company Name")
                 margin y noOptions) ;;
      advance 15
  end.

(** Company details *)
Definition companyDetails : Doc unit :=
  call (setFontSize 10) ;;
  whenPresent (field settings address) (fun v =>
    y <- getY ;;
    call (text v bodyX y (aligned textAlign)) ;;
    advance 5) ;;
  whenPresent (field settings email) (fun v =>
    y <- getY ;;
    call (text ((if isArabic then "البريد الإلكتروني: " else "Email: ") ++ v)
               bodyX y (aligned textAlign)) ;;
    advance 5) ;;
  whenPresent (field settings phone) (fun v =>
    y <- getY ;;
    call (text ((if isArabic then "الهاتف: " else "Phone: ") ++ v)
               bodyX y (aligned textAlign)) ;;
    advance 5) ;;
  whenPresent (field settings website) (fun v =>
    y <- getY ;;
    call (text ((if isArabic then "الموقع الإلكتروني: " else "Website: ") ++ v)
               bodyX y (aligned textAlign)) ;;
    advance 5) ;;
  whenPresent (field settings taxNumber) (fun v =>
    y <- getY ;;
    call (text ((if isArabic then "الرقم الضريبي: " else "Tax Number: ") ++ v)
               bodyX y (aligned textAlign)) ;;
    advance 5) ;;
  advance 10.

(** Invoice details (right aligned) *)
Definition invoiceDetails : Doc unit :=
  call (setFontSize 16) ;;
  y <- getY ;;
  call (text (if isArabic then "فاتورة" else "INVOICE") titleX y
             (aligned titleAlign)) ;;
  advance 10 ;;
  call (setFontSize 10) ;;
  y <- getY ;;
  call (text ((if isArabic then "رقم الفاتورة: " else "Invoice Number: ")
              ++ invoiceNumber invoice)
             titleX y (aligned titleAlign)) ;;
  advance 5 ;;
  y <- getY ;;
  call (text ((if isArabic then "التاريخ: " else "Date: ")
              ++ formatDate host isArabic (date invoice))
             titleX y (aligned titleAlign)) ;;
  advance 5 ;;
  y <- getY ;;
  call (text ((if isArabic then "تاريخ الاستحقاق: " else "Due Date: ")
              ++ formatDate host isArabic (dueDate invoice))
             titleX y (aligned titleAlign)) ;;
  advance 15.

(** Client information *)
Definition clientInformation : Doc unit :=
  call (setFontSize 12) ;;
  y <- getY ;;
  call (text (if isArabic then "فاتورة إلى:" else "Bill To:") bodyX y
             (aligned textAlign)) ;;
  advance 6 ;;
  call (setFontSize 10) ;;
  y <- getY ;;
  call (text (clientName invoice) bodyX y (aligned textAlign)) ;;
  advance 5 ;;
  whenPresent (clientAddress invoice) (fun v =>
    y <- getY ;;
    call (text v bodyX y (aligned textAlign)) ;;
    advance 5) ;;
  whenPresent (clientEmail invoice) (fun v =>
    y <- getY ;;
    call (text ((if isArabic then "البريد الإلكتروني: " else "Email: ") ++ v)
               bodyX y (aligned textAlign)) ;;
    advance 5) ;;
  advance 10.

Definition tableColumns : list string :=
  [ if isArabic then "البند" else "Item";
    if isArabic then "الكمية" else "Quantity";
    if isArabic then "السعر" else "Price";
    if isArabic then "المجموع" else "Total" ].

(** Format currency based on settings *)
Definition currencyCode : string := or_default (field settings currency) "USD".
Definition currencySymbol : string := getCurrencySymbol currencyCode.

Definition tableOptions (y : float) : TableOptions :=
  {| startY := y;
     head := [tableColumns];
     body := map (tableRow currencyCode currencySymbol) (items invoice);
     margin_left := margin;
     margin_right := margin;
     styles_overflow := "linebreak";
     styles_font := "helvetica";
     styles_halign := if isArabic then AlignRight else AlignLeft;
     headStyles_fillColor := (75, 85, 99)%float;
     columnStyles :=
       [ {| cellWidth := None; column_halign := None |};
         {| cellWidth := Some 20%float; column_halign := Some AlignCenter |};
         {| cellWidth := Some 35%float; column_halign := Some AlignRight |};
         {| cellWidth := Some 35%float; column_halign := Some AlignRight |} ] |}.

(** Invoice items table, and the Y position after the table *)
Definition itemsTable : Doc unit :=
  y <- getY ;;
  match autoTable_finalY host (tableOptions y) with
  | Ok finalY =>
      call (autoTable (tableOptions y)) ;;
      setLastAutoTable finalY
  | Throw _ =>
      (* Fallback if autoTable fails *)
      advance 10 ;;
      y <- getY ;;
      call (text "Error generating table. Please check console for details."
                 margin y noOptions) ;;
      advance 20
  end ;;
  y <- getY ;;
  last <- gets lastAutoTable ;;
  setY (JS.or_else
          (match last with
           | Some finalY => finalY + 10
           | None => nan
           end)%float
          (y + 50)%float).

Definition summaryX : float :=
  if isArabic then margin else (pageWidth - margin - 70)%float.
Definition summaryWidth : float := 70.

(** [isArabic ? summaryX + summaryWidth - 5 : summaryX + 5], aligned
    [isArabic ? "right" : "left"] *)
Definition labelX : float :=
  if isArabic then (summaryX + summaryWidth - 5)%float else (summaryX + 5)%float.
Definition labelAlign : Align := if isArabic then AlignRight else AlignLeft.

(** [isArabic ? summaryX + 5 : summaryX + summaryWidth - 5], aligned
    [isArabic ? "left" : "right"] *)
Definition valueX : float :=
  if isArabic then (summaryX + 5)%float else (summaryX + summaryWidth - 5)%float.
Definition valueAlign : Align := if isArabic then AlignLeft else AlignRight.

(** Summary (right aligned) *)
Definition summary : Doc unit :=
  call (setFillColor 240 240 240) ;;
  y <- getY ;;
  call (rect summaryX y summaryWidth (15 * 3)%float "F") ;;
  call (text (if isArabic then "المجموع الفرعي:" else "Subtotal:")
             labelX (y + 10)%float (aligned labelAlign)) ;;
  call (text (formatCurrency (subtotal invoice) currencyCode currencySymbol)
             valueX (y + 10)%float (aligned valueAlign)) ;;
  call (text ((if isArabic then "الضريبة" else "Tax")
              ++ " (" ++ JS.toString (taxRate invoice) ++ "%):")
             labelX (y + 20)%float (aligned labelAlign)) ;;
  call (text (formatCurrency (tax invoice) currencyCode currencySymbol)
             valueX (y + 20)%float (aligned valueAlign)) ;;
  call (setFontSize 12) ;;
  call (text (if isArabic then "المجموع:" else "Total:")
             labelX (y + 30)%float (aligned labelAlign)) ;;
  call (text (formatCurrency (totalAmount invoice) currencyCode currencySymbol)
             valueX (y + 30)%float (aligned valueAlign)) ;;
  advance 45.

Definition wrapped : TextOptions :=
  {| align := Some textAlign; maxWidth := Some (pageWidth - margin * 2)%float |}.

(** Notes *)
Definition notesBlock : Doc unit :=
  whenPresent (notes invoice) (fun v =>
    call (setFontSize 10) ;;
    y <- getY ;;
    call (text (if isArabic then "ملاحظات:" else "Notes:") bodyX y
               (aligned textAlign)) ;;
    advance 5 ;;
    y <- getY ;;
    call (text v bodyX y wrapped) ;;
    (* Calculate how much space the notes take up *)
    let textLines := splitTextToSize host v (pageWidth - margin * 2)%float in
    advance (JS.of_Z (Z.of_nat (List.length textLines)) * 5 + 10)%float).

(** Terms and conditions *)
Definition termsBlock : Doc unit :=
  whenPresent (field settings termsAndConditions) (fun v =>
    call (setFontSize 10) ;;
    y <- getY ;;
    call (text (if isArabic then "الشروط والأحكام:" else "Terms and Conditions:")
               bodyX y (aligned textAlign)) ;;
    advance 5 ;;
    y <- getY ;;
    call (text v bodyX y wrapped)).

(** The text of the footer; [now] is the time read by [new Date()]. *)
Definition footerText (now : Z) : string :=
  if isArabic
  then "تم إنشاؤها في " ++ toLocaleString host (Some "ar-SA") now
  else "Generated on " ++ toLocaleString host None now.

(** Footer *)
Definition footer (now : Z) : Doc unit :=
  call (setFontSize 8) ;;
  call (text (footerText now) (pageWidth / 2)%float (pageHeight - 10)%float
             (aligned AlignCenter)).

(** Save the PDF with language indicator *)
Definition savePdf : Doc unit :=
  call (save ("Invoice-" ++ invoiceNumber invoice ++ "-"
              ++ (if isArabic then "AR" else "EN") ++ ".pdf")).

(** Everything that precedes the footer. *)
Definition layout : Doc unit :=
  header ;;
  companyDetails ;;
  invoiceDetails ;;
  clientInformation ;;
  itemsTable ;;
  summary ;;
  notesBlock ;;
  termsBlock.

Definition generatePdf (now : Z) : Doc unit :=
  layout ;;
  footer now ;;
  savePdf.

End Layout.

(** A new document; [let yPos = margin]. *)
Definition newDocument : DocState :=
  {| yPos := margin; lastAutoTable := None; calls := [] |}.

(** The drawing instructions of one invocation of [generatePdf]: the
    calls it makes on a new document, in order. *)
Definition drawing (host : Host) (now : Z) (invoice : Invoice)
    (settings : option Settings) : list Call :=
  calls (execState (generatePdf host invoice settings now) newDocument).

End Pdf.

(* ================================================================= *)
(** ** A host to run the layout on

    A browser in the UTC time zone that has the [en-US] locale only (every
    locale tag resolves to it), an A4 page in millimetres, a table whose
    rows are 8 mm high, and text that is never wrapped. *)

Module SampleHost.

Definition two_digits (n : Z) : string := JS.padStart0 (JS.decimal n) 2.

(** Year, month and day of a day number counted from 1970-01-01. *)
Definition civil (days : Z) : Z * Z * Z :=
  let z := (days + 719468)%Z in
  let era := (z / 146097)%Z in
  let doe := (z - era * 146097)%Z in
  let yoe := ((doe - doe / 1460 + doe / 36524 - doe / 146096) / 365)%Z in
  let doy := (doe - (365 * yoe + yoe / 4 - yoe / 100))%Z in
  let mp := ((5 * doy + 2) / 153)%Z in
  let d := (doy - (153 * mp + 2) / 5 + 1)%Z in
  let m := (if mp <? 10 then mp + 3 else mp - 9)%Z in
  let y := (yoe + era * 400 + (if m <=? 2 then 1 else 0))%Z in
  (y, m, d).

Definition dateString (t : Z) : string :=
  let '(y, m, d) := civil (t / 86400000) in
  JS.decimal m ++ "/" ++ JS.decimal d ++ "/" ++ JS.decimal y.

Definition timeString (t : Z) : string :=
  let secs := ((t mod 86400000) / 1000)%Z in
  let h := (secs / 3600)%Z in
  let h12 := (if h mod 12 =? 0 then 12 else h mod 12)%Z in
  JS.decimal h12 ++ ":" ++ two_digits ((secs / 60) mod 60) ++ ":"
  ++ two_digits (secs mod 60) ++ (if (h <? 12)%Z then " AM" else " PM").

Definition host : Pdf.Host :=
  {| Pdf.pageSize_getWidth := 210.0015555555555;
     Pdf.pageSize_getHeight := 297.0000833333333;
     Pdf.addImage_throws := fun _ => false;
     Pdf.autoTable_finalY := fun options =>
       Ok (Pdf.startY options
           + 8 * JS.of_Z (Z.of_nat (1 + List.length (Pdf.body options))))%float;
     Pdf.splitTextToSize := fun text _ => [text];
     Pdf.toLocaleDateString := fun _ t => dateString t;
     Pdf.toLocaleString := fun _ t => dateString t ++ ", " ++ timeString t |}.

(** The invoice of the end-to-end scenario: one item, quantity 2 at 50.00,
    tax rate 10. *)
Definition invoice : Pdf.Invoice :=
  {| Pdf.invoiceNumber := "INV-0001";
     Pdf.date := Pdf.Plain (Ok (Some 1762128000000%Z));
     Pdf.dueDate := Pdf.Absent;
     Pdf.clientName := "Client";
     Pdf.clientAddress := None;
     Pdf.clientEmail := None;
     Pdf.items :=
       [ {| Helpers.id := "1"; Helpers.description := "Design";
            Helpers.quantity := 2; Helpers.price := 50;
            Helpers.total := 100 |} ];
     Pdf.subtotal := 100;
     Pdf.tax := 10;
     Pdf.taxRate := 10;
     Pdf.totalAmount := 110;
     Pdf.notes := None |}.

(** Settings with a company name and an address, no logo. *)
Definition settings (language : string) : Pdf.Settings :=
  {| Pdf.language := Some language;
     Pdf.logoUrl := None;
     Pdf.companyName := Some "ACME";
     Pdf.address := Some "1 Main Street";
     Pdf.email := None;
     Pdf.phone := None;
     Pdf.website := None;
     Pdf.taxNumber := None;
     Pdf.currency := Some "USD";
     Pdf.termsAndConditions := None |}.

End SampleHost.

(* ================================================================= *)
(** ** The properties of the specification, in its own words *)

Module Spec.
Import Helpers.

(** The sum of [quantity[i] * price[i]] over all items. *)
Definition lineTotalSum (items : list InvoiceItem) : float :=
  fold_left (fun sum item => (sum + quantity item * price item)%float)
            items 0%float.

(** The same sum where a falsy product ([NaN], or a zero of either sign)
    counts as [0]. *)
Definition recomputedSum (items : list InvoiceItem) : float :=
  fold_left
    (fun sum item => (sum + JS.or_else (quantity item * price item) 0)%float)
    items 0%float.

(** [x === 0] *)
Definition isZero (x : float) : bool := (x =? 0)%float.

(** A non-negative tax rate: a number, not below zero, and finite. *)
Definition nonNegative (x : float) : bool :=
  ((0 <=? x) && (x <? infinity))%float.

(** A number that is a zero or finite, as a specification float. *)
Definition SF_finite (x : spec_float) : bool :=
  match x with
  | S754_zero _ | S754_finite _ _ _ => true
  | _ => false
  end.

(** The numeric suffix of an invoice identifier. *)
Definition suffix (identifier : string) : float :=
  JS.parseInt (JS.replace identifier "INV-" "").

Fixpoint all_digits (s : string) : bool :=
  match s with
  | EmptyString => true
  | String c s' => JS.is_digit c && all_digits s'
  end.

(** One or more digits (when [seen]: zero or more), a point, two digits. *)
Fixpoint digits_point_two (s : string) (seen : bool) : bool :=
  match s with
  | EmptyString => false
  | String c s' =>
      if JS.is_digit c then digits_point_two s' true
      else (Ascii.eqb c "." && seen
            && match s' with
               | String a (String b EmptyString) => JS.is_digit a && JS.is_digit b
               | _ => false
               end)%bool
  end.

(** An amount with exactly two decimal places, with an optional sign. *)
Definition twoDecimals (s : string) : bool :=
  match s with
  | String c s' =>
      if Ascii.eqb c "-" then digits_point_two s' false
      else digits_point_two s false
  | EmptyString => false
  end.

(** The marker of a date that is not available. *)
Definition notAvailable : string := "N/A".

(** The mirror image of a text instruction on a page of the given width:
    the anchor is reflected and the alignment inverted (a text without
    alignment is left-aligned). *)
Definition flip (a : Pdf.Align) : Pdf.Align :=
  match a with
  | Pdf.AlignLeft => Pdf.AlignRight
  | Pdf.AlignCenter => Pdf.AlignCenter
  | Pdf.AlignRight => Pdf.AlignLeft
  end.

Definition mirror (pageWidth : float) (c : Pdf.Call) : Pdf.Call :=
  match c with
  | Pdf.text s x y options =>
      Pdf.text s (pageWidth - x)%float y
        {| Pdf.align :=
             Some (flip match Pdf.align options with
                        | Some a => a
                        | None => Pdf.AlignLeft
                        end);
           Pdf.maxWidth := Pdf.maxWidth options |}
  | _ => c
  end.

End Spec.

(* ================================================================= *)
(** ** The other lookups of [src/lib/invoice-helpers.ts] *)

Module Lookups.
Import Firestore Helpers.

(** [getCompanySettings]: the data of the first settings document; [null]
    (here [None]) when there is none or when the query is rejected. *)
Definition getCompanySettings (db : Db) : option SettingsData :=
  let attempt : result (option SettingsData) :=
    settingsSnapshot <- getDocs_settings db ;;
    match settingsSnapshot with
    | settingsDoc :: _ => ret (Some settingsDoc)
    | [] => ret None
    end in
  match attempt with
  | Ok settings => settings
  | Throw _ => None
  end.

(** What [safelyConvertToDate] can be given. *)
Inductive TimestampArg :=
  (** [undefined], [null], [0], [""] or another falsy value *)
  | Falsy
  (** a truthy value whose [toDate] is a function (a Firestore
      [Timestamp]): what [timestamp.toDate()] yields *)
  | HasToDate (toDate : result Pdf.JsDate)
  (** any other truthy value: what [new Date(timestamp)] yields *)
  | Convertible (newDate : result Pdf.JsDate).

(** [safelyConvertToDate(timestamp)]; [now] is the time that [new Date()]
    reads. *)
Definition safelyConvertToDate (now : Z) (timestamp : TimestampArg)
  : Pdf.JsDate :=
  match timestamp with
  | Falsy => Some now
  | HasToDate toDate =>
      match toDate with
      | Ok date => date
      | Throw _ => Some now
      end
  | Convertible newDate =>
      match newDate with
      | Ok (Some time) => Some time
      | Ok None => Some now
      | Throw _ => Some now
      end
  end.

(** [emptyInvoiceItem()]; [uuid] is what [crypto.randomUUID()] returns. *)
Definition emptyInvoiceItem (uuid : string) : InvoiceItem :=
  {| id := uuid; description := ""; quantity := 1; price := 0; total := 0 |}.

(** An element of the stored [items] array that is neither [null] nor
    [undefined].  Each numeric field is given by its conversion
    [Number(item.field)]. *)
Record RawItem := {
  item_id : option string;
  item_description : option string;
  Number_quantity : float;
  Number_price : float;
  Number_total : float
}.

(** The callback of [data.items.map] in [getInvoiceById] (and in the
    loader of [EditInvoicePage]); [calls] counts the calls of
    [crypto.randomUUID] made so far. *)
Definition convertItem (randomUUID : nat -> string) (calls : nat)
    (item : RawItem) : InvoiceItem * nat :=
  let '(id, calls') :=
    match item_id item with
    | Some (String c s) => (String c s, calls)
    | _ => (randomUUID calls, S calls)
    end in
  ({| id := id;
      description := Pdf.or_default (item_description item) "";
      quantity := JS.or_else (Number_quantity item) 1;
      price := JS.or_else (Number_price item) 0;
      total := JS.or_else (Number_total item) 0 |}, calls').

Fixpoint convertItems (randomUUID : nat -> string) (calls : nat)
    (items : list RawItem) : list InvoiceItem :=
  match items with
  | [] => []
  | item :: rest =>
      let '(converted, calls') := convertItem randomUUID calls item in
      converted :: convertItems randomUUID calls' rest
  end.

(** The same over the array as it is stored: an element that is [null] or
    [undefined] ([None]) makes the callback throw when it reads [item.id];
    any other element is read field by field. *)
Fixpoint convertElements (randomUUID : nat -> string) (calls : nat)
    (items : list (option RawItem)) : result (list InvoiceItem) :=
  match items with
  | [] => Ok []
  | None :: _ => Throw "TypeError"
  | Some item :: rest =>
      let '(converted, calls') := convertItem randomUUID calls item in
      rest' <- convertElements randomUUID calls' rest ;;
      ret (converted :: rest')
  end.

(** How many of the elements have no truthy [id] of their own. *)
Definition missingIds (items : list RawItem) : nat :=
  List.length (filter (fun item => negb (JS.truthy_opt (item_id item))) items).

(** The line [line] is the conversion of the stored element [item], after
    [calls] calls of [crypto.randomUUID]. *)
Definition convertedFrom (randomUUID : nat -> string) (calls : nat)
    (item : RawItem) (line : InvoiceItem) : Prop :=
  id line = (if JS.truthy_opt (item_id item)
             then Pdf.or_default (item_id item) ""
             else randomUUID calls)
  /\ description line = Pdf.or_default (item_description item) ""
  /\ quantity line = JS.or_else (Number_quantity item) 1
  /\ price line = JS.or_else (Number_price item) 0
  /\ total line = JS.or_else (Number_total item) 0.

(** What the conversion guarantees of every item: a truthy quantity, a
    price and a total that are numbers, and a total that is not [-0]. *)
Definition converted (item : InvoiceItem) : Prop :=
  JS.truthy (quantity item) = true
  /\ PrimFloat.is_nan (price item) = false
  /\ PrimFloat.is_nan (total item) = false
  /\ JS.or_else (total item) 0 = total item.

(** [Array.isArray(data.items) ? data.items.map(...) : [emptyInvoiceItem()]];
    [None] is a value that is not an array. *)
Definition loadItems (randomUUID : nat -> string)
    (items : option (list RawItem)) : list InvoiceItem :=
  match items with
  | Some array => convertItems randomUUID 0%nat array
  | None => [emptyInvoiceItem (randomUUID 0%nat)]
  end.

(** The same over the stored value; the failure is the exception of the
    callback. *)
Definition loadStored (randomUUID : nat -> string)
    (items : option (list (option RawItem))) : result (list InvoiceItem) :=
  match items with
  | Some array => convertElements randomUUID 0%nat array
  | None => Ok [emptyInvoiceItem (randomUUID 0%nat)]
  end.

(** A document of the [invoices] collection as [getInvoiceById] reads it. *)
Record RawInvoice := {
  data_id : option string;   (** a field named [id] of the document itself *)
  data_date : TimestampArg;
  data_dueDate : TimestampArg;
  data_createdAt : TimestampArg;
  data_updatedAt : TimestampArg;
  data_items : option (list (option RawItem))
}.

Record LoadedInvoice := {
  loaded_id : string;
  loaded_date : Pdf.JsDate;
  loaded_dueDate : Pdf.JsDate;
  loaded_createdAt : Pdf.JsDate;
  loaded_updatedAt : Pdf.JsDate;
  loaded_items : list InvoiceItem
}.

(** The invoices by document identifier; [rejected] when [getDoc] throws. *)
Record InvoiceDocs := {
  documents : list (string * RawInvoice);
  rejected : bool
}.

Fixpoint lookup {A : Type} (id : string) (docs : list (string * A)) : option A :=
  match docs with
  | [] => None
  | (id', data) :: rest =>
      if (id' =? id)%string then Some data else lookup id rest
  end.

(** [getInvoiceById(id)]: [{ id: invoiceDoc.id, ...data, date: ..., ... }],
    so that a field [id] of the document overrides the identifier; the
    other fields that are copied unchanged are left out.  The four clock
    readings are those of the four [new Date()].  An exception of the
    conversion of the items is caught like a rejected lookup. *)
Definition getInvoiceById (randomUUID : nat -> string) (now : nat -> Z)
    (docs : InvoiceDocs) (id : string) : option LoadedInvoice :=
  if rejected docs then None
  else
    match lookup id (documents docs) with
    | Some data =>
        match loadStored randomUUID (data_items data) with
        | Ok items =>
            Some {| loaded_id :=
                      match data_id data with Some own => own | None => id end;
                    loaded_date :=
                      safelyConvertToDate (now 0%nat) (data_date data);
                    loaded_dueDate :=
                      safelyConvertToDate (now 1%nat) (data_dueDate data);
                    loaded_createdAt :=
                      safelyConvertToDate (now 2%nat) (data_createdAt data);
                    loaded_updatedAt :=
                      safelyConvertToDate (now 3%nat) (data_updatedAt data);
                    loaded_items := items |}
        | Throw _ => None
        end
    | None => None
    end.

End Lookups.

(* ================================================================= *)
(** ** Products ([src/lib/invoice-helpers.ts], the CRUD operations) *)

Module Products.

(** A [Product]; an optional field that is [None] is a missing key. *)
Record Product := {
  id : option string;
  name : string;
  description : string;
  price : float;
  sku : option string;
  createdAt : option Z;
  updatedAt : option Z
}.

(** [emptyProduct()] *)
Definition emptyProduct : Product :=
  {| id := None; name := ""; description := ""; price := 0;
     sku := Some ""; createdAt := None; updatedAt := None |}.

(** A [Partial<Product>]: the keys that are present. *)
Record Patch := {
  patch_id : option string;
  patch_name : option string;
  patch_description : option string;
  patch_price : option float;
  patch_sku : option string;
  patch_createdAt : option Z
}.

(** The [products] collection: documents by identifier, in the order of
    their creation; [offline] when every request is rejected. *)
Record Collection := {
  docs : list (string * Product);
  offline : bool
}.

(** [{ id: doc.id, ...doc.data(), createdAt: ..., updatedAt: ... }]: a
    stored [id] field overrides the document identifier, and a missing
    timestamp is replaced by the current time. *)
Definition read (now : Z) (docId : string) (data : Product) : Product :=
  {| id := Some (match id data with Some i => i | None => docId end);
     name := name data;
     description := description data;
     price := price data;
     sku := sku data;
     createdAt := Some (match createdAt data with Some t => t | None => now end);
     updatedAt := Some (match updatedAt data with Some t => t | None => now end) |}.

(** The order of [orderBy("name")]: by name, then by document identifier. *)
Definition name_leb (a b : string * Product) : bool :=
  match String.compare (name (snd a)) (name (snd b)) with
  | Lt => true
  | Eq => String.leb (fst a) (fst b)
  | Gt => false
  end.

Definition by_name_and_id (a b : string * Product) : Prop := name_leb a b = true.

Fixpoint insert_by_name (d : string * Product) (l : list (string * Product))
  : list (string * Product) :=
  match l with
  | [] => [d]
  | d' :: l' => if name_leb d d' then d :: l else d' :: insert_by_name d l'
  end.

Definition orderBy_name (l : list (string * Product)) : list (string * Product) :=
  fold_right insert_by_name [] l.

(** [getProducts()] *)
Definition getProducts (now : Z) (c : Collection) : list Product :=
  if offline c then []
  else map (fun d => read now (fst d) (snd d)) (orderBy_name (docs c)).

(** [getProductById(id)] *)
Definition getProductById (now : Z) (c : Collection) (docId : string)
  : option Product :=
  if offline c then None
  else option_map (read now docId) (Lookups.lookup docId (docs c)).


Definition or_keep {A : Type} (patch : option A) (old : A) : A :=
  match patch with Some v => v | None => old end.

(** The merge that [updateDoc] performs on one document. *)
Definition merge (now : Z) (patch : Patch) (data : Product) : Product :=
  {| id := match patch_id patch with Some i => Some i | None => id data end;
     name := or_keep (patch_name patch) (name data);
     description := or_keep (patch_description patch) (description data);
     price := or_keep (patch_price patch) (price data);
     sku := match patch_sku patch with Some k => Some k | None => sku data end;
     createdAt :=
       match patch_createdAt patch with Some t => Some t | None => createdAt data end;
     updatedAt := Some now |}.

Fixpoint update_doc (docId : string) (f : Product -> Product)
    (l : list (string * Product)) : list (string * Product) :=
  match l with
  | [] => []
  | (id', data) :: rest =>
      if (id' =? docId)%string then (id', f data) :: rest
      else (id', data) :: update_doc docId f rest
  end.

(** [updateProduct(id, product)]: [updateDoc] rejects a document that does
    not exist. *)
Definition updateProduct (now : Z) (c : Collection) (docId : string)
    (patch : Patch) : Collection * bool :=
  if offline c then (c, false)
  else
    match Lookups.lookup docId (docs c) with
    | Some _ =>
        ({| docs := update_doc docId (merge now patch) (docs c);
            offline := false |}, true)
    | None => (c, false)
    end.

(** [deleteProduct(id)]: [deleteDoc] succeeds whether the document exists
    or not. *)
Definition deleteProduct (c : Collection) (docId : string) : Collection * bool :=
  if offline c then (c, false)
  else
    ({| docs := filter (fun d => negb (fst d =? docId)%string) (docs c);
        offline := false |}, true).

End Products.

(* ================================================================= *)
(** ** The item list and the save of the invoice pages *)

Module InvoiceForm.
Import Helpers.

(** [addItem]: [append(emptyInvoiceItem())] *)
Definition addItem (uuid : string) (fields : list InvoiceItem) : list InvoiceItem :=
  (fields ++ [Lookups.emptyInvoiceItem uuid])%list.

(** [remove(index)] of the field array *)
Fixpoint remove (index : nat) (fields : list InvoiceItem) : list InvoiceItem :=
  match fields, index with
  | [], _ => []
  | _ :: rest, O => rest
  | item :: rest, S index' => item :: remove index' rest
  end.

(** [removeItem(index)]: the last remaining item is kept (a toast is
    shown instead). *)
Definition removeItem (index : nat) (fields : list InvoiceItem) : list InvoiceItem :=
  if (1 <? List.length fields)%nat then remove index fields else fields.

(** [update(index, value)] of the field array *)
Fixpoint update (index : nat) (value : InvoiceItem) (fields : list InvoiceItem)
  : list InvoiceItem :=
  match fields, index with
  | [], _ => []
  | _ :: rest, O => value :: rest
  | item :: rest, S index' => item :: update index' value rest
  end.

(** [handleAddProduct(index, product)].  [fields] is the array that
    [useFieldArray] returns: an entry holds, under [id], the key that the
    hook generated for it, and the values of the line at the last array
    operation.  [items] are the lines of the form, which [update] writes.
    Reading [fields[index].quantity] throws when there is no such field. *)
Definition handleAddProduct (index : nat) (product : Products.Product)
    (fields items : list InvoiceItem) : result (list InvoiceItem) :=
  match nth_error fields index with
  | Some field =>
      Ok (update index
            {| id := id field;
               description := Products.name product;
               quantity := quantity field;
               price := Products.price product;
               total := (Products.price product * quantity field)%float |}
            items)
  | None => Throw "TypeError"
  end.

(** [a !== b] on numbers *)
Definition strict_neq (a b : float) : bool := negb (a =? b)%float.

(** [updatedItems.some((item, index) => item.total !== watchedItems[index]?.total)],
    where [updatedItems] is [watchedItems.map(...)], so that both arrays
    have the same length. *)
Fixpoint some_total_differs (updatedItems watchedItems : list InvoiceItem) : bool :=
  match updatedItems, watchedItems with
  | u :: us, w :: ws =>
      strict_neq (total u) (total w) || some_total_differs us ws
  | _, _ => false
  end.

Definition itemsNeedUpdate (watchedItems : list InvoiceItem) : bool :=
  some_total_differs (map Pages.updateItem watchedItems) watchedItems.

(** The items of the form after one run of the totals effect. *)
Definition itemsAfterEffect (watchedItems : list InvoiceItem) : list InvoiceItem :=
  match watchedItems with
  | [] => watchedItems
  | _ :: _ =>
      if itemsNeedUpdate watchedItems then map Pages.updateItem watchedItems
      else watchedItems
  end.

(** *** [cleanDataForFirestore] *)

(** A field value: [undefined], [null], a string, or a value of another
    type (a number, an array, a [Timestamp]), which is left opaque. *)
Inductive Value :=
  | Undefined
  | Null
  | Str (s : string)
  | Other (tag : nat).

(** [value.trim() === ""]: the string consists of white space only. *)
Fixpoint blank_aux (fuel : nat) (s : string) : bool :=
  match s with
  | EmptyString => true
  | _ =>
      match fuel with
      | O => false
      | S fuel' =>
          match JS.white_prefix s with
          | Some rest => blank_aux fuel' rest
          | None => false
          end
      end
  end.

Definition blank (s : string) : bool := blank_aux (String.length s) s.

Definition optionalTextFields : list string :=
  ["clientAddress"; "clientEmail"; "notes"; "terms"].

Definition includes (keys : list string) (key : string) : bool :=
  existsb (String.eqb key) keys.

(** The entries of an object, in order; the keys are distinct. *)
Definition Object := list (string * Value).

(** The entry has a value other than [undefined]. *)
Definition defined (entry : string * Value) : bool :=
  match snd entry with Undefined => false | _ => true end.

(** The entry is an optional text field that holds white space only. *)
Definition blankOptional (entry : string * Value) : bool :=
  match snd entry with
  | Str s => blank s && includes optionalTextFields (fst entry)
  | _ => false
  end.

Fixpoint cleanDataForFirestore (data : Object) : Object :=
  match data with
  | [] => []
  | (key, value) :: rest =>
      match value with
      | Undefined => cleanDataForFirestore rest
      | Str s =>
          if (blank s && includes optionalTextFields key)%bool
          then (key, Null) :: cleanDataForFirestore rest
          else (key, value) :: cleanDataForFirestore rest
      | _ => (key, value) :: cleanDataForFirestore rest
      end
  end.

End InvoiceForm.

(* ================================================================= *)
(** ** The invoice list ([src/app/dashboard/invoices/page.tsx]) *)

Module InvoicesPage.

(** An invoice of the list, as far as the page reads it. *)
Record Invoice := {
  id : string;
  invoiceNumber : option string;
  clientName : option string;
  status : string
}.

Section Filter.

(** [String.prototype.toLowerCase] *)
Variable toLowerCase : string -> string.

(** [s.includes(query)] *)
Definition includes (s query : string) : bool :=
  match String.index 0 query s with
  | Some _ => true
  | None => false
  end.

(** [field?.toLowerCase().includes(query)] *)
Definition matches (field : option string) (query : string) : bool :=
  match field with
  | Some s => includes (toLowerCase s) query
  | None => false
  end.

(** The effect that filters the list by the search query and the status. *)
Definition filterInvoices (searchQuery statusFilter : string)
    (invoices : list Invoice) : list Invoice :=
  let result := invoices in
  let result :=
    if JS.truthy_str searchQuery then
      let query := toLowerCase searchQuery in
      filter (fun invoice =>
                matches (invoiceNumber invoice) query
                || matches (clientName invoice) query) result
    else result in
  if negb (statusFilter =? "all")%string
  then filter (fun invoice => (status invoice =? statusFilter)%string) result
  else result.

End Filter.

(** The state update of [handleDeleteInvoice], once [deleteDoc] succeeded. *)
Definition afterDelete (docId : string) (prevInvoices : list Invoice) : list Invoice :=
  filter (fun invoice => negb (id invoice =? docId)%string) prevInvoices.

(** The state update of [handleMarkAsPaid], once [updateDoc] succeeded. *)
Definition afterMarkAsPaid (docId : string) (prevInvoices : list Invoice)
  : list Invoice :=
  map (fun invoice =>
         if (id invoice =? docId)%string
         then {| id := id invoice;
                 invoiceNumber := invoiceNumber invoice;
                 clientName := clientName invoice;
                 status := "paid" |}
         else invoice) prevInvoices.

End InvoicesPage.

(* ================================================================= *)
(** ** Predicates on drawings *)

Module Drawings.
Import Pdf.

Definition isSave (c : Call) : bool :=
  match c with save _ => true | _ => false end.

Definition isAutoTable (c : Call) : bool :=
  match c with autoTable _ => true | _ => false end.

(** The vertical position of a line of text. *)
Definition textY (c : Call) : option float :=
  match c with text _ _ y _ => Some y | _ => None end.

(** The optional fields of the company block, in the order of the code. *)
Definition contactFields (settings : option Settings) : list (option string) :=
  [ field settings address; field settings email; field settings phone;
    field settings website; field settings taxNumber ].

(** How many of the fields are present (truthy). *)
Definition present (fields : list (option string)) : nat :=
  List.length (filter JS.truthy_opt fields).

(** [yPos += 5], [n] times. *)
Fixpoint advanced (n : nat) (y : float) : float :=
  match n with
  | O => y
  | S n' => advanced n' (y + 5)%float
  end.

(** The computation only appends calls, and each of them satisfies [P]. *)
Definition adds {A : Type} (P : Call -> Prop) (m : Doc A) : Prop :=
  forall st,
    exists added,
      calls (execState m st) = (calls st ++ added)%list /\ Forall P added.

(** The computation leaves [doc.lastAutoTable] as it is. *)
Definition keepsLastAutoTable {A : Type} (m : Doc A) : Prop :=
  forall st, lastAutoTable (execState m st) = lastAutoTable st.

(** The box of the summary, drawn at the height [y]. *)
Definition summaryBox (host : Host) (settings : option Settings) (y : float)
  : Call :=
  rect (summaryX host settings) y 70 45 "F".

(** The line that replaces a table that could not be built. *)
Definition tableError (y : float) : Call :=
  text "Error generating table. Please check console for details."
       margin y noOptions.

End Drawings.

(* ================================================================= *)
(** ** The sequence of invoice numbers *)

Module Numbering.
Import Firestore Helpers.

(** A database that holds one invoice and no settings. *)
Definition single (number : string) : Db :=
  {| settings := [];
     invoices := [ {| invoiceNumber := number |} ];
     unreachable := reachable |}.

(** The identifier with the number [n]: the prefix and the decimal
    digits of [n], padded with zeros to four. *)
Definition identifier (n : Z) : string :=
  "INV-" ++ JS.padStart0 (JS.decimal n) 4.

(** After the invoice [n], the allocator takes the branch that parses the
    number and proposes the identifier [n + 1]. *)
Definition continues (n : Z) : bool :=
  let lastInvoiceNumber := identifier n in
  let numberPart := JS.parseInt (JS.replace lastInvoiceNumber "INV-" "") in
  JS.truthy_str lastInvoiceNumber
  && JS.startsWith lastInvoiceNumber "INV-"
  && negb (PrimFloat.is_nan numberPart)
  && (format_number (numberPart + 1)%float =? identifier (n + 1))%string.

(** The numbers from 0 up to [bound], excluded. *)
Definition below (bound : Z) : list Z :=
  map Z.of_nat (seq 0 (Z.to_nat bound)).

End Numbering.

(* ================================================================= *)
(** ** The dashboard ([DashboardPage], [fetchDashboardData]) *)

Module Dashboard.

(** An invoice document, as far as the dashboard reads it. *)
Record Invoice := {
  status : option string;
  totalAmount : option float
}.

Record Stats := {
  totalInvoices : nat;
  paidInvoices : nat;
  pendingInvoices : nat;
  stats_totalAmount : float
}.

(** [inv.status === s] *)
Definition hasStatus (s : string) (inv : Invoice) : bool :=
  match status inv with
  | Some v => (v =? s)%string
  | None => false
  end.

(** [inv.totalAmount || 0] *)
Definition amount (inv : Invoice) : float :=
  match totalAmount inv with
  | Some a => JS.or_else a 0
  | None => 0%float
  end.

(** Calculate stats *)
Definition calculateStats (invoices : list Invoice) : Stats :=
  let total := List.length invoices in
  let paid := List.length (filter (hasStatus "paid") invoices) in
  let pending := List.length (filter (hasStatus "pending") invoices) in
  let totalAmount :=
    fold_left (fun sum inv => (sum + amount inv)%float) invoices 0%float in
  {| totalInvoices := total;
     paidInvoices := paid;
     pendingInvoices := pending;
     stats_totalAmount := totalAmount |}.

(** Set recent invoices *)
Definition recentInvoices (invoices : list Invoice) : list Invoice :=
  firstn 5 invoices.

(** The badge of an invoice on the recent list:
    [invoice.status === "paid" ? "Paid" : "Pending"] *)
Definition badge (inv : Invoice) : string :=
  if hasStatus "paid" inv then "Paid" else "Pending".

(** Neither paid nor pending: a draft, or a document without status. *)
Definition otherStatus (inv : Invoice) : bool :=
  negb (hasStatus "paid" inv) && negb (hasStatus "pending" inv).

End Dashboard.

(* ================================================================= *)
(** * Properties *)

(** ** Numbers *)

Lemma float_neq (x y : float) :
  PrimFloat.Leibniz.eqb x y = false -> x <> y.
Proof.
  intros H E. subst y.
  assert (R : PrimFloat.Leibniz.eqb x x = true)
    by (apply FloatAxioms.Leibniz.eqb_spec; reflexivity).
  congruence.
Qed.

(** *** Division by 100 does not overflow

    The quotient of a finite number by 100 is finite.  This follows the
    specification of binary64 division: the quotient of the mantissas is
    rounded by [binary_round_aux], which yields an infinity only when the
    exponent it reaches exceeds [emax - prec]. *)

Section Division.
Local Open Scope Z_scope.

Lemma digits2_pos_size (p : positive) : digits2_pos p = Pos.size p.
Proof. induction p; cbn; congruence. Qed.

Lemma Zdigits2_log2 (p : positive) :
  Zdigits2 (Zpos p) = Z.log2 (Zpos p) + 1.
Proof. destruct p; cbn; rewrite ?digits2_pos_size; lia. Qed.

Lemma Zdigits2_nonneg (m : Z) : 0 <= Zdigits2 m.
Proof. destruct m; cbn; lia. Qed.

Lemma Zdigits2_le (m k : Z) :
  0 <= m -> 0 <= k -> m < 2 ^ k -> Zdigits2 m <= k.
Proof.
  intros Hm Hk H. destruct m as [| p | p]; [cbn; lia | | lia].
  rewrite Zdigits2_log2. apply Z.log2_lt_pow2 in H; lia.
Qed.

Lemma Zdigits2_gt (m : Z) : 0 <= m -> m < 2 ^ Zdigits2 m.
Proof.
  intros Hm. destruct m as [| p | p]; [cbn; lia | | lia].
  rewrite Zdigits2_log2.
  apply (Z.log2_spec (Zpos p)). lia.
Qed.

Lemma shr_1_m (r : shr_record) :
  0 <= shr_m r -> shr_m (shr_1 r) = shr_m r / 2.
Proof.
  destruct r as [m rb sb]. cbn [shr_m]. intros Hm.
  destruct m as [| p | p]; [reflexivity | | lia].
  destruct p as [p | p |]; cbn [shr_1 shr_m].
  - apply Z.div_unique with (r := 1); lia.
  - apply Z.div_unique with (r := 0); lia.
  - reflexivity.
Qed.

Lemma iter_shr_1_m (p : positive) (r : shr_record) :
  0 <= shr_m r -> shr_m (iter_pos shr_1 p r) = shr_m r / 2 ^ Zpos p.
Proof.
  revert r. induction p as [p IH | p IH |]; intros r Hm; cbn [iter_pos].
  - assert (H1 : 0 <= shr_m (shr_1 r))
      by (rewrite shr_1_m by exact Hm; apply Z.div_pos; lia).
    assert (H2 : 0 <= shr_m (iter_pos shr_1 p (shr_1 r)))
      by (rewrite IH by exact H1; apply Z.div_pos; lia).
    rewrite (IH _ H2), (IH _ H1), shr_1_m by exact Hm.
    rewrite !Z.div_div by lia. f_equal.
    replace (Zpos p~1) with (1 + (Zpos p + Zpos p)) by lia.
    rewrite !Z.pow_add_r, Z.pow_1_r by lia. ring.
  - assert (H1 : 0 <= shr_m (iter_pos shr_1 p r))
      by (rewrite IH by exact Hm; apply Z.div_pos; lia).
    rewrite (IH _ H1), (IH _ Hm).
    rewrite !Z.div_div by lia. f_equal.
    replace (Zpos p~0) with (Zpos p + Zpos p) by lia.
    rewrite Z.pow_add_r by lia. ring.
  - rewrite shr_1_m by exact Hm. reflexivity.
Qed.

Lemma shr_m_of_loc (m : Z) (l : location) : shr_m (shr_record_of_loc m l) = m.
Proof. destruct l as [| []]; reflexivity. Qed.

(** Shifting by [n] drops [n] digits. *)
Lemma Zdigits2_shift (m : Z) (p : positive) :
  0 <= m ->
  Zdigits2 (m / 2 ^ Zpos p) + Zpos p <= Z.max (Zdigits2 m) (Zpos p).
Proof.
  intros Hm.
  pose proof (Zdigits2_gt m Hm) as Hd.
  pose proof (Zdigits2_nonneg m) as Hn.
  destruct (Z.le_gt_cases (Zpos p) (Zdigits2 m)) as [Hle | Hgt].
  - assert (Zdigits2 (m / 2 ^ Zpos p) <= Zdigits2 m - Zpos p); [| lia].
    apply Zdigits2_le; [apply Z.div_pos; lia | lia |].
    apply Z.div_lt_upper_bound; [lia |].
    rewrite <- Z.pow_add_r by lia.
    replace (Zpos p + (Zdigits2 m - Zpos p)) with (Zdigits2 m) by lia.
    exact Hd.
  - assert (m / 2 ^ Zpos p = 0) as ->; [| cbn; lia].
    apply Z.div_small. split; [exact Hm |].
    apply Z.lt_le_trans with (2 ^ Zdigits2 m); [exact Hd |].
    apply Z.pow_le_mono_r; lia.
Qed.

Lemma shr_fexp_bounds (m e : Z) (l : location) :
  0 <= m ->
  0 <= shr_m (fst (shr_fexp prec emax m e l))
  /\ snd (shr_fexp prec emax m e l)
     <= Z.max e (fexp prec emax (Zdigits2 m + e))
  /\ Zdigits2 (shr_m (fst (shr_fexp prec emax m e l)))
     + snd (shr_fexp prec emax m e l)
     <= Z.max (Zdigits2 m + e) (fexp prec emax (Zdigits2 m + e)).
Proof.
  intros Hm. unfold shr_fexp, shr.
  set (f := fexp prec emax (Zdigits2 m + e)).
  destruct (f - e) as [| p | p] eqn:E; cbn [fst snd];
    rewrite ?shr_m_of_loc; try lia.
  rewrite iter_shr_1_m by (rewrite shr_m_of_loc; exact Hm).
  rewrite shr_m_of_loc.
  pose proof (Zdigits2_shift m p Hm).
  split; [apply Z.div_pos; lia | lia].
Qed.

Lemma round_nearest_even_bounds (m : Z) (l : location) :
  m <= round_nearest_even m l <= m + 1.
Proof.
  destruct l as [| []]; cbn; try lia. destruct (Z.even m); lia.
Qed.

Lemma binary_round_aux_finite (sx : bool) (mx ex : Z) (lx : location) :
  0 <= mx -> ex <= 971 -> Zdigits2 mx + ex <= 1023 ->
  Spec.SF_finite (binary_round_aux prec emax sx mx ex lx) = true.
Proof.
  intros Hm He Hd. unfold binary_round_aux.
  pose proof (shr_fexp_bounds mx ex lx Hm) as (H1 & H2 & H3).
  destruct (shr_fexp prec emax mx ex lx) as [mrs' e']. cbn [fst snd] in *.
  set (m2 := round_nearest_even (shr_m mrs') (loc_of_shr_record mrs')).
  pose proof (round_nearest_even_bounds (shr_m mrs') (loc_of_shr_record mrs')) as Hr.
  fold m2 in Hr.
  assert (Hm2 : 0 <= m2) by lia.
  assert (Hd2 : Zdigits2 m2 <= Zdigits2 (shr_m mrs') + 1).
  { pose proof (Zdigits2_nonneg (shr_m mrs')).
    pose proof (Zdigits2_gt (shr_m mrs') H1).
    apply Zdigits2_le; [lia | lia |].
    rewrite Z.pow_add_r, Z.pow_1_r by lia. lia. }
  pose proof (shr_fexp_bounds m2 e' loc_Exact Hm2) as (K1 & K2 & K3).
  destruct (shr_fexp prec emax m2 e' loc_Exact) as [mrs'' e'']. cbn [fst snd] in *.
  unfold fexp, SpecFloat.emin, prec, emax in *.
  destruct (shr_m mrs'') as [| p | p]; [reflexivity | | lia].
  replace (e'' <=? 1024 - 53) with true by (symmetry; apply Z.leb_le; lia).
  reflexivity.
Qed.

(** The specification float of [100]. *)
Lemma Prim2SF_100 : Prim2SF 100 = S754_finite false 7036874417766400 (-46).
Proof. vm_compute. reflexivity. Qed.

Lemma SFdiv_100_finite (s : bool) (m : positive) (e : Z) :
  bounded prec emax m e = true ->
  Spec.SF_finite
    (SFdiv prec emax (S754_finite s m e)
       (S754_finite false 7036874417766400 (-46))) = true.
Proof.
  intros Hb. apply andb_true_iff in Hb as [Hc He].
  apply Z.eqb_eq in Hc. apply Z.leb_le in He.
  unfold SFdiv, SFdiv_core_binary.
  change (Zdigits2 (Zpos 7036874417766400)) with 53.
  change (Zdigits2 (Zpos m)) with (Zpos (digits2_pos m)).
  set (d1 := Zpos (digits2_pos m)) in *.
  set (e' := Z.min (fexp prec emax (d1 + e - (53 + -46))) (e - -46)).
  set (m' := match e - -46 - e' with
             | Z0 => Zpos m
             | Zpos _ => Z.shiftl (Zpos m) (e - -46 - e')
             | Zneg _ => 0
             end).
  assert (Hs : 0 <= e - -46 - e') by (unfold e'; lia).
  assert (Hm' : m' = Zpos m * 2 ^ (e - -46 - e')).
  { unfold m'. destruct (e - -46 - e') as [| p | p] eqn:E.
    - cbn. lia.
    - apply Z.shiftl_mul_pow2. lia.
    - lia. }
  clearbody m'.
  pose proof (Z_div_mod m' 7036874417766400 eq_refl) as Hq.
  destruct (Z.div_eucl m' 7036874417766400) as [q r]. destruct Hq as [Hq Hr].
  assert (Hd1 : Zpos m < 2 ^ d1) by (apply (Zdigits2_gt (Zpos m)); lia).
  assert (Hpow : 0 < 2 ^ (e - -46 - e')) by (apply Z.pow_pos_nonneg; lia).
  assert (Hq0 : 0 <= q) by nia.
  assert (Hq52 : q * 2 ^ 52 < 2 ^ (d1 + (e - -46 - e'))).
  { rewrite Z.pow_add_r by lia.
    change (2 ^ 52) with 4503599627370496. nia. }
  assert (Hdq : Zdigits2 q + e' <= Z.max (d1 + e - 6) e').
  { destruct (Z.le_gt_cases 52 (d1 + (e - -46 - e'))) as [Hle | Hgt].
    - assert (Zdigits2 q <= d1 + (e - -46 - e') - 52); [| lia].
      apply Zdigits2_le; [exact Hq0 | lia |].
      apply Z.mul_lt_mono_pos_r with (p := 2 ^ 52); [lia |].
      rewrite <- Z.pow_add_r by lia.
      replace (d1 + (e - -46 - e') - 52 + 52) with (d1 + (e - -46 - e')) by lia.
      exact Hq52.
    - assert (2 ^ (d1 + (e - -46 - e')) <= 2 ^ 52)
        by (apply Z.pow_le_mono_r; lia).
      assert (q = 0) as -> by (change (2 ^ 52) with 4503599627370496 in *; lia).
      cbn. lia. }
  unfold fexp, SpecFloat.emin, prec, emax in *.
  apply binary_round_aux_finite; [exact Hq0 | lia | lia].
Qed.

End Division.

Section FloatFacts.
Local Open Scope float_scope.

(** A non-negative tax rate is a zero or a finite number. *)
Lemma nonNegative_finite (x : float) :
  Spec.nonNegative x = true -> Spec.SF_finite (Prim2SF x) = true.
Proof.
  unfold Spec.nonNegative. intros H. apply andb_true_iff in H as [H0 Hi].
  rewrite leb_spec in H0. rewrite ltb_spec in Hi.
  change (Prim2SF 0) with (S754_zero false) in H0.
  change (Prim2SF infinity) with (S754_infinity false) in Hi.
  destruct (Prim2SF x) as [s | [] | | s m e]; try reflexivity; discriminate.
Qed.

Lemma div_100_finite (x : float) :
  Spec.SF_finite (Prim2SF x) = true -> Spec.SF_finite (Prim2SF (x / 100)) = true.
Proof.
  intros H. rewrite div_spec, Prim2SF_100. unfold SF64div.
  pose proof (Prim2SF_valid x) as Hv.
  destruct (Prim2SF x) as [s | s | | s m e]; try discriminate H.
  - reflexivity.
  - apply SFdiv_100_finite, Hv.
Qed.

(** [0 * y === 0] for a finite [y]. *)
Lemma zero_mul_finite (y : float) :
  Spec.SF_finite (Prim2SF y) = true ->
  exists s, Prim2SF (0 * y) = S754_zero s.
Proof.
  intros H. rewrite mul_spec. change (Prim2SF 0) with (S754_zero false).
  destruct (Prim2SF y) as [s | s | | s m e]; try discriminate H;
    eexists; reflexivity.
Qed.

Lemma isZero_of_zero (x : float) (s : bool) :
  Prim2SF x = S754_zero s -> Spec.isZero x = true.
Proof.
  intros H. unfold Spec.isZero. rewrite eqb_spec, H. reflexivity.
Qed.

(** [0 + z === 0] for a zero [z] of either sign. *)
Lemma zero_add_zero (z : float) (s : bool) :
  Prim2SF z = S754_zero s -> Prim2SF (0 + z) = S754_zero false.
Proof.
  intros H. rewrite add_spec, H. destruct s; reflexivity.
Qed.

End FloatFacts.

(** ** The Totals Calculator *)

Section TotalsProperties.
Import Helpers.

(** The reduction of [calculateInvoiceTotals] reads the [total] fields
    only. *)
Lemma subtotal_fold (items : list InvoiceItem) (acc : float) :
  fold_left (fun sum item => (sum + JS.or_else (total item) 0)%float) items acc
  = fold_left (fun sum t => (sum + JS.or_else t 0)%float) (map total items) acc.
Proof.
  revert acc. induction items as [| item items IH]; intros acc; cbn.
  - reflexivity.
  - apply IH.
Qed.

Lemma subtotal_updateItem (items : list InvoiceItem) (acc : float) :
  fold_left (fun sum item => (sum + JS.or_else (total item) 0)%float)
            (map Pages.updateItem items) acc
  = fold_left
      (fun sum item => (sum + JS.or_else (quantity item * price item) 0)%float)
      items acc.
Proof.
  revert acc. induction items as [| item items IH]; intros acc; cbn.
  - reflexivity.
  - apply IH.
Qed.

(** C1, as stated, fails: an item of quantity 2 and price 50 whose stored
    total is a stale 0 yields the subtotal 0, not 100. *)
Lemma stale_total_is_trusted :
  let stale := {| id := "1"; description := "Design";
                  quantity := 2; price := 50; total := 0 |} in
  subtotal (calculateInvoiceTotals [stale] (Some 10%float)) = 0%float
  /\ Spec.lineTotalSum [stale] = 100%float
  /\ subtotal (calculateInvoiceTotals [stale] (Some 10%float))
     <> Spec.lineTotalSum [stale].
Proof.
  cbv zeta. split; [| split].
  - vm_compute. reflexivity.
  - vm_compute. reflexivity.
  - apply float_neq. vm_compute. reflexivity.
Qed.

(** C1, amended: the pages replace every stored total by
    [quantity * price] before they call the calculator, so the subtotal
    of the recomputed items is the sum of [quantity[i] * price[i]] (a
    falsy product counting as 0), whatever the stored totals were. *)
Theorem subtotal_of_recomputed_items (items : list InvoiceItem)
    (taxRate : option float) :
  subtotal (calculateInvoiceTotals (map Pages.updateItem items) taxRate)
  = Spec.recomputedSum items.
Proof.
  unfold calculateInvoiceTotals, Spec.recomputedSum. cbn [subtotal].
  apply subtotal_updateItem.
Qed.

(** The totals effect of the pages writes that subtotal to the form. *)
Lemma totalsEffect_subtotal (item : InvoiceItem) (items : list InvoiceItem)
    (taxRate : float) :
  option_map subtotal (Pages.totalsEffect (item :: items) taxRate)
  = Some (Spec.recomputedSum (item :: items)).
Proof.
  unfold Pages.totalsEffect. cbn [option_map]. f_equal.
  unfold calculateInvoiceTotals, Spec.recomputedSum. cbn [subtotal].
  apply subtotal_updateItem.
Qed.

(** Where no product is [NaN] or [-0], that sum is the plain sum of the
    products. *)
Lemma recomputedSum_lineTotalSum (items : list InvoiceItem) :
  Forall (fun item =>
            JS.or_else (quantity item * price item) 0
            = (quantity item * price item)%float) items ->
  Spec.recomputedSum items = Spec.lineTotalSum items.
Proof.
  intros H. unfold Spec.recomputedSum, Spec.lineTotalSum.
  enough (G : forall acc,
             fold_left (fun sum item =>
                          (sum + JS.or_else (quantity item * price item) 0)%float)
                       items acc
             = fold_left (fun sum item => (sum + quantity item * price item)%float)
                         items acc) by apply G.
  induction H as [| item items Hi Hs IH]; intros acc; cbn.
  - reflexivity.
  - rewrite Hi. apply IH.
Qed.

(** C10: two item lists whose stored totals agree pairwise have the same
    subtotal, tax and total amount, whatever their other fields are. *)
Theorem totals_depend_on_stored_totals_only
    (items1 items2 : list InvoiceItem) (taxRate : option float) :
  map total items1 = map total items2 ->
  calculateInvoiceTotals items1 taxRate = calculateInvoiceTotals items2 taxRate.
Proof.
  intros H. unfold calculateInvoiceTotals.
  rewrite !subtotal_fold, H. reflexivity.
Qed.

Lemma totals_depend_on_stored_totals_only_witness :
  let a := [ {| id := "1"; description := "Design";
                quantity := 2; price := 50; total := 100 |};
             {| id := "2"; description := "Hosting";
                quantity := 1; price := 30; total := nan |} ] in
  let b := [ {| id := "x"; description := "Other";
                quantity := 7; price := 3; total := 100 |};
             {| id := "y"; description := "";
                quantity := 0; price := 9; total := nan |} ] in
  map total a = map total b
  /\ calculateInvoiceTotals a (Some 10%float)
     = calculateInvoiceTotals b (Some 10%float).
Proof.
  cbv zeta. split.
  - reflexivity.
  - apply totals_depend_on_stored_totals_only. reflexivity.
Defined.

(** C4: for every item list and every non-negative tax rate the tax is
    [subtotal * (taxRate / 100)] and the total amount is [subtotal + tax];
    for the empty list the subtotal and the total amount are [0] and the
    tax is a zero ([tax === 0]; it is [-0] when the rate is [-0]). *)
Theorem totals_formula (items : list InvoiceItem) (taxRate : float) :
  Spec.nonNegative taxRate = true ->
  (let r := calculateInvoiceTotals items (Some taxRate) in
   tax r = (subtotal r * (taxRate / 100))%float
   /\ totalAmount r = (subtotal r + tax r)%float)
  /\ (let r := calculateInvoiceTotals [] (Some taxRate) in
      subtotal r = 0%float
      /\ Spec.isZero (tax r) = true
      /\ totalAmount r = 0%float).
Proof.
  intros H. split; [split; reflexivity |].
  cbn -[PrimFloat.mul PrimFloat.add PrimFloat.div].
  destruct (zero_mul_finite (taxRate / 100)%float
              (div_100_finite _ (nonNegative_finite _ H))) as [s Hs].
  split; [reflexivity | split].
  - apply (isZero_of_zero _ s Hs).
  - apply Prim2SF_inj. rewrite (zero_add_zero _ s Hs). reflexivity.
Qed.

Lemma totals_formula_witness :
  let items := [ {| id := "1"; description := "Design";
                    quantity := 2; price := 50; total := 100 |} ] in
  Spec.nonNegative 10 = true
  /\ calculateInvoiceTotals items (Some 10%float)
     = {| subtotal := 100; tax := 10; totalAmount := 110 |}
  /\ tax (calculateInvoiceTotals items (Some 10%float))
     = (subtotal (calculateInvoiceTotals items (Some 10%float)) * (10 / 100))%float
  /\ Spec.isZero (tax (calculateInvoiceTotals [] (Some 10%float))) = true.
Proof.
  cbv zeta.
  assert (H : Spec.nonNegative 10 = true) by (vm_compute; reflexivity).
  split; [exact H |]. split; [vm_compute; reflexivity |].
  split.
  - apply (proj1 (totals_formula _ 10%float H)).
  - apply (proj2 (totals_formula [] 10%float H)).
Defined.

End TotalsProperties.

(** ** The Invoice Number Allocator *)

Section AllocatorProperties.
Import Firestore Helpers.

Lemma last_invoice_highest (db : Db) (number : string) :
  unreachable db invoicesCollection = false ->
  highest db = Some number ->
  exists d, getDocs_last_invoice db = Ok [d] /\ invoiceNumber d = number.
Proof.
  unfold getDocs_last_invoice, highest. intros -> H.
  destruct (orderBy_invoiceNumber_desc (invoices db)) as [| d l]; [discriminate |].
  exists d. split; [reflexivity | congruence].
Qed.

Lemma last_invoice_none (db : Db) :
  unreachable db invoicesCollection = false ->
  invoices db = [] ->
  getDocs_last_invoice db = Ok [].
Proof.
  unfold getDocs_last_invoice. intros -> ->. reflexivity.
Qed.

(** [String.leb] is transitive. *)
Lemma string_leb_trans (s1 s2 s3 : string) :
  String.leb s1 s2 = true -> String.leb s2 s3 = true ->
  String.leb s1 s3 = true.
Proof.
  unfold String.leb. revert s2 s3.
  induction s1 as [| c1 s1 IH]; intros [| c2 s2] [| c3 s3]; cbn;
    try congruence.
  unfold Ascii.compare.
  destruct (N.compare_spec (N_of_ascii c1) (N_of_ascii c2)) as [E12 | L12 | G12];
    destruct (N.compare_spec (N_of_ascii c2) (N_of_ascii c3)) as [E23 | L23 | G23];
    destruct (N.compare_spec (N_of_ascii c1) (N_of_ascii c3)) as [E13 | L13 | G13];
    try congruence; try lia.
  apply IH.
Qed.

(** The first document of the ordered query is a greatest one, in the
    order of the strings. *)
Lemma head_is_greatest (l : list InvoiceData) :
  match orderBy_invoiceNumber_desc l with
  | [] => l = []
  | h :: _ =>
      In h l
      /\ Forall (fun d => String.leb (invoiceNumber d) (invoiceNumber h) = true) l
  end.
Proof.
  unfold orderBy_invoiceNumber_desc.
  induction l as [| d l IH]; cbn [fold_right]; [reflexivity |].
  destruct (fold_right insert_desc [] l) as [| h t] eqn:E.
  - subst l. cbn. split; [left; reflexivity |].
    constructor; [| constructor].
    destruct (String.leb_total (invoiceNumber d) (invoiceNumber d)); assumption.
  - destruct IH as [I F]. cbn [insert_desc].
    destruct (String.leb (invoiceNumber h) (invoiceNumber d)) eqn:L.
    + split; [left; reflexivity |].
      constructor.
      * destruct (String.leb_total (invoiceNumber d) (invoiceNumber d));
          assumption.
      * apply (Forall_impl _ (P := fun x =>
                 String.leb (invoiceNumber x) (invoiceNumber h) = true));
          [| exact F].
        intros x Hx. apply (string_leb_trans _ _ _ Hx L).
    + split; [right; exact I |].
      constructor; [| exact F].
      destruct (String.leb_total (invoiceNumber d) (invoiceNumber h));
        congruence.
Qed.

Lemma highest_is_greatest (db : Db) (number : string) :
  highest db = Some number ->
  In number (map invoiceNumber (invoices db))
  /\ Forall (fun d => String.leb (invoiceNumber d) number = true) (invoices db).
Proof.
  unfold highest. pose proof (head_is_greatest (invoices db)) as H.
  destruct (orderBy_invoiceNumber_desc (invoices db)) as [| h t];
    [discriminate |].
  intros E. injection E as <-. destruct H as [I F].
  split; [apply in_map, I | exact F].
Qed.

(** What the allocator returns from the highest identifier. *)
Lemma scanned_number (db : Db) (number : string) :
  unreachable db settingsCollection = false ->
  unreachable db invoicesCollection = false ->
  stored_counter (settings db) = None ->
  highest db = Some number ->
  getNextInvoiceNumber db
  = if (JS.startsWith number "INV-"
        && negb (PrimFloat.is_nan (Spec.suffix number)))%bool
    then format_number (Spec.suffix number + 1)%float
    else "INV-0001".
Proof.
  intros Hs Hi Hc Hh.
  unfold getNextInvoiceNumber, getNextInvoiceNumber_try, getDocs_settings.
  rewrite Hs. cbn [bind Monad_result bind_result]. rewrite Hc.
  destruct (last_invoice_highest db _ Hi Hh) as (d & Hq & Hd).
  rewrite Hq. cbn [bind_result]. rewrite Hd. unfold Spec.suffix.
  assert (T : (JS.truthy_str number && JS.startsWith number "INV-")%bool
              = JS.startsWith number "INV-")
    by (destruct number; reflexivity).
  rewrite T.
  destruct (JS.startsWith number "INV-"); [| reflexivity].
  cbn [andb].
  destruct (negb (PrimFloat.is_nan (JS.parseInt (JS.replace number "INV-" ""))));
    reflexivity.
Qed.

(** C3: the three branches of the allocation policy, in priority order,
    for every database whose settings can be read.  A truthy stored
    counter is formatted ([INV-] and the number, padded with zeros to four
    digits).  Without one, the allocator takes the highest identifier of
    the collection, which is a greatest one in the order of the strings
    (the order of the query): when it starts with [INV-] and a number
    follows, the proposal is that number plus one, formatted; otherwise it
    is the baseline.  Without invoices it is the baseline.  The values of
    the specification follow: 1001 gives [INV-1001], and [INV-0042] gives
    [INV-0043]. *)
Theorem allocation_policy (db : Db) :
  unreachable db settingsCollection = false ->
  (forall n,
     stored_counter (settings db) = Some n ->
     getNextInvoiceNumber db = format_number n)
  /\ (unreachable db invoicesCollection = false ->
      stored_counter (settings db) = None ->
      forall number,
        highest db = Some number ->
        (In number (map invoiceNumber (invoices db))
         /\ Forall (fun d => String.leb (invoiceNumber d) number = true)
                   (invoices db))
        /\ getNextInvoiceNumber db
           = if (JS.startsWith number "INV-"
                 && negb (PrimFloat.is_nan (Spec.suffix number)))%bool
             then format_number (Spec.suffix number + 1)%float
             else "INV-0001")
  /\ (unreachable db invoicesCollection = false ->
      stored_counter (settings db) = None ->
      invoices db = [] ->
      getNextInvoiceNumber db = "INV-0001")
  /\ (stored_counter (settings db) = Some 1001%float ->
      getNextInvoiceNumber db = "INV-1001")
  /\ (unreachable db invoicesCollection = false ->
      stored_counter (settings db) = None ->
      highest db = Some "INV-0042" ->
      getNextInvoiceNumber db = "INV-0043").
Proof.
  intros Hs.
  assert (G : forall n,
             stored_counter (settings db) = Some n ->
             getNextInvoiceNumber db = format_number n).
  { intros n H.
    unfold getNextInvoiceNumber, getNextInvoiceNumber_try, getDocs_settings.
    rewrite Hs. cbn [bind Monad_result bind_result]. rewrite H. reflexivity. }
  split; [exact G |]. split; [| split; [| split]].
  - intros Hi Hc number Hh.
    split; [apply highest_is_greatest, Hh |].
    apply scanned_number; assumption.
  - intros Hi Hc He.
    unfold getNextInvoiceNumber, getNextInvoiceNumber_try, getDocs_settings.
    rewrite Hs. cbn [bind Monad_result bind_result]. rewrite Hc.
    rewrite (last_invoice_none db Hi He). reflexivity.
  - intros H. rewrite (G _ H). vm_compute. reflexivity.
  - intros Hi Hc Hh. rewrite (scanned_number db _ Hs Hi Hc Hh).
    vm_compute. reflexivity.
Qed.

Lemma allocation_policy_witness :
  let stored := {| settings := [ {| nextInvoiceNumber := Some 1001%float |} ];
                   invoices := [ {| invoiceNumber := "INV-0042" |} ];
                   unreachable := reachable |} in
  let scanned := {| settings := [ {| nextInvoiceNumber := None |} ];
                    invoices := [ {| invoiceNumber := "INV-0007" |};
                                  {| invoiceNumber := "INV-0042" |};
                                  {| invoiceNumber := "INV-0015" |} ];
                    unreachable := reachable |} in
  let fresh := {| settings := []; invoices := []; unreachable := reachable |} in
  getNextInvoiceNumber stored = "INV-1001"
  /\ getNextInvoiceNumber scanned = "INV-0043"
  /\ getNextInvoiceNumber fresh = "INV-0001".
Proof.
  cbv zeta. split; [| split].
  - refine (proj1 (proj2 (proj2 (proj2 (allocation_policy _ _)))) _);
      reflexivity.
  - refine (proj2 (proj2 (proj2 (proj2 (allocation_policy _ _)))) _ _ _);
      reflexivity.
  - refine (proj1 (proj2 (proj2 (allocation_policy _ _))) _ _ _); reflexivity.
Defined.

(** C7: when a lookup of the allocator is rejected, be it the settings
    query or the invoice query that follows a missing counter, the
    allocator returns the baseline identifier. *)
Theorem allocator_fails_soft (db : Db) :
  (unreachable db settingsCollection = true ->
   getNextInvoiceNumber db = "INV-0001")
  /\ (unreachable db settingsCollection = false ->
      stored_counter (settings db) = None ->
      unreachable db invoicesCollection = true ->
      getNextInvoiceNumber db = "INV-0001").
Proof.
  unfold getNextInvoiceNumber, getNextInvoiceNumber_try,
    getDocs_settings, getDocs_last_invoice.
  split.
  - intros H. rewrite H. reflexivity.
  - intros Hs Hc Hi. rewrite Hs. cbn [bind Monad_result bind_result].
    rewrite Hc, Hi. reflexivity.
Qed.

Lemma allocator_fails_soft_witness :
  let offline := {| settings := [ {| nextInvoiceNumber := Some 1001%float |} ];
                    invoices := [ {| invoiceNumber := "INV-0042" |} ];
                    unreachable := fun _ => true |} in
  let half := {| settings := [];
                 invoices := [ {| invoiceNumber := "INV-0042" |} ];
                 unreachable := fun c =>
                   match c with
                   | settingsCollection => false
                   | invoicesCollection => true
                   end |} in
  getNextInvoiceNumber offline = "INV-0001"
  /\ getNextInvoiceNumber half = "INV-0001".
Proof.
  cbv zeta. split.
  - refine (proj1 (allocator_fails_soft _) _); reflexivity.
  - refine (proj2 (allocator_fails_soft _) _ _ _); reflexivity.
Defined.

(** C2 fails on the code: the stored counter is read and never advanced.
    With the counter 1001 stored, the allocator proposes [INV-1001]; after
    the invoice with that number has been created, it proposes [INV-1001]
    again, so the second suffix is not greater than the first. *)
Theorem stored_counter_never_advances :
  let db := {| settings := [ {| nextInvoiceNumber := Some 1001%float |} ];
               invoices := [];
               unreachable := reachable |} in
  let first := getNextInvoiceNumber db in
  let db' := Pages.onSubmit true {| invoiceNumber := first |} db in
  let second := getNextInvoiceNumber db' in
  first = "INV-1001"
  /\ invoices db' = [ {| invoiceNumber := "INV-1001" |} ]
  /\ second = "INV-1001"
  /\ (Spec.suffix first <? Spec.suffix second)%float = false.
Proof.
  cbv zeta. repeat split; vm_compute; reflexivity.
Qed.

(** The same holds for every stored counter and every submitted invoice:
    [onSubmit] leaves the settings as they are, so the allocator proposes
    the stored number again. *)
Lemma stored_counter_is_proposed_again (db : Db) (n : float)
    (currentUser : bool) (data : InvoiceData) :
  unreachable db settingsCollection = false ->
  stored_counter (settings db) = Some n ->
  getNextInvoiceNumber db = format_number n
  /\ getNextInvoiceNumber (Pages.onSubmit currentUser data db) = format_number n.
Proof.
  intros Hs Hc.
  assert (G : forall db', unreachable db' settingsCollection = false ->
                          stored_counter (settings db') = Some n ->
                          getNextInvoiceNumber db' = format_number n).
  { intros db' Hs' Hc'.
    unfold getNextInvoiceNumber, getNextInvoiceNumber_try, getDocs_settings.
    rewrite Hs'. cbn [bind Monad_result bind_result]. rewrite Hc'. reflexivity. }
  split; [apply G; assumption |].
  apply G; unfold Pages.onSubmit, addDoc_invoice;
    destruct currentUser; try assumption;
    destruct (unreachable db invoicesCollection); assumption.
Qed.

(** Without a stored counter the same scenario does advance. *)
Lemma scanned_number_advances :
  let db := {| settings := [];
               invoices := [ {| invoiceNumber := "INV-0042" |} ];
               unreachable := reachable |} in
  let first := getNextInvoiceNumber db in
  let db' := Pages.onSubmit true {| invoiceNumber := first |} db in
  let second := getNextInvoiceNumber db' in
  first = "INV-0043" /\ second = "INV-0044"
  /\ (Spec.suffix first <? Spec.suffix second)%float = true.
Proof.
  cbv zeta. repeat split; vm_compute; reflexivity.
Qed.

End AllocatorProperties.

(** ** The date formatter *)

Section DateProperties.
Import Pdf.

(** C9, as stated, fails: a value that does not parse as a date is
    rendered as ["Invalid Date"], which is not the marker ["N/A"] of an
    absent date. *)
Lemma unparseable_date_has_another_marker :
  formatDate SampleHost.host false (Plain (Ok None)) = "Invalid Date"
  /\ formatDate SampleHost.host false Absent = Spec.notAvailable
  /\ formatDate SampleHost.host false (Plain (Ok None)) <> Spec.notAvailable.
Proof.
  repeat split. discriminate.
Qed.

(** C9, amended: an absent date is rendered as ["N/A"]; a date that is
    invalid, or whose conversion throws, is rendered as ["Invalid Date"];
    a valid date is rendered by the locale.  [formatDate] is a total
    function: no input makes it throw. *)
Theorem formatDate_markers (host : Host) (isArabic : bool) :
  formatDate host isArabic Absent = "N/A"
  /\ formatDate host isArabic (Plain (Ok None)) = "Invalid Date"
  /\ formatDate host isArabic (WithToDate (Ok None)) = "Invalid Date"
  /\ (forall e, formatDate host isArabic (Plain (Throw e)) = "Invalid Date")
  /\ (forall e, formatDate host isArabic (WithToDate (Throw e)) = "Invalid Date")
  /\ (forall t,
        formatDate host isArabic (Plain (Ok (Some t)))
        = toLocaleDateString host (if isArabic then "ar-SA" else "en-US") t)
  /\ (forall t,
        formatDate host isArabic (WithToDate (Ok (Some t)))
        = toLocaleDateString host (if isArabic then "ar-SA" else "en-US") t).
Proof.
  repeat split.
Qed.

End DateProperties.

(** ** The layout engine *)

Section LayoutProperties.
Import Pdf.

Lemma execState_bind {A B : Type} (m : Doc A) (k : A -> Doc B) (st : DocState) :
  execState (bind m k) st = execState (k (evalState m st)) (execState m st).
Proof.
  unfold execState, evalState. cbn. destruct (runState m st). reflexivity.
Qed.

(** The drawing is the layout followed by the footer and the save; the
    clock is read by the footer text only. *)
Lemma drawing_layout_footer (host : Host) (now : Z) (invoice : Invoice)
    (settings : option Settings) :
  drawing host now invoice settings
  = (calls (execState (layout host invoice settings) newDocument)
     ++ [ setFontSize 8;
          text (footerText host settings now)
               (pageWidth host / 2)%float (pageHeight host - 10)%float
               (aligned AlignCenter);
          save ("Invoice-" ++ invoiceNumber invoice ++ "-"
                ++ (if isArabic settings then "AR" else "EN") ++ ".pdf") ])%list.
Proof.
  unfold drawing, generatePdf.
  rewrite execState_bind.
  set (st := execState (layout host invoice settings) newDocument).
  cbn. rewrite <- !app_assoc. reflexivity.
Qed.

(** C5, as stated, fails: two invocations on the same invoice and settings,
    one second apart, differ in the footer. *)
Lemma drawing_depends_on_clock :
  let first := drawing SampleHost.host 1762128000000 SampleHost.invoice
                 (Some (SampleHost.settings "en")) in
  let second := drawing SampleHost.host 1762128001000 SampleHost.invoice
                  (Some (SampleHost.settings "en")) in
  nth_error first 25
  = Some (text "Generated on 11/3/2025, 12:00:00 AM"
               (pageWidth SampleHost.host / 2)%float
               (pageHeight SampleHost.host - 10)%float (aligned AlignCenter))
  /\ nth_error second 25
     = Some (text "Generated on 11/3/2025, 12:00:01 AM"
                  (pageWidth SampleHost.host / 2)%float
                  (pageHeight SampleHost.host - 10)%float (aligned AlignCenter))
  /\ first <> second.
Proof.
  cbv zeta. split; [| split].
  - vm_compute. reflexivity.
  - vm_compute. reflexivity.
  - intros H. apply (f_equal (fun l => nth_error l 25)) in H.
    vm_compute in H. discriminate H.
Qed.

(** C5, amended: two invocations on the same invoice, settings and host
    emit the same instructions except for the text of the footer, which
    carries the time of the invocation; when that text is the same, the
    two sequences are identical. *)
Theorem drawing_deterministic_up_to_footer (host : Host) (invoice : Invoice)
    (settings : option Settings) (t1 t2 : Z) :
  (exists before after x y options,
      drawing host t1 invoice settings
      = (before ++ text (footerText host settings t1) x y options :: after)%list
      /\ drawing host t2 invoice settings
         = (before ++ text (footerText host settings t2) x y options :: after)%list)
  /\ (footerText host settings t1 = footerText host settings t2 ->
      drawing host t1 invoice settings = drawing host t2 invoice settings).
Proof.
  split.
  - exists (calls (execState (layout host invoice settings) newDocument)
            ++ [setFontSize 8])%list.
    eexists. eexists. eexists. eexists.
    rewrite !drawing_layout_footer, <- !app_assoc. cbn [app].
    split; reflexivity.
  - intros H. rewrite !drawing_layout_footer, H. reflexivity.
Qed.

Lemma drawing_deterministic_up_to_footer_witness :
  footerText SampleHost.host (Some (SampleHost.settings "en")) 1762128000000
  = footerText SampleHost.host (Some (SampleHost.settings "en")) 1762128000500
  /\ drawing SampleHost.host 1762128000000 SampleHost.invoice
       (Some (SampleHost.settings "en"))
     = drawing SampleHost.host 1762128000500 SampleHost.invoice
         (Some (SampleHost.settings "en")).
Proof.
  split.
  - vm_compute. reflexivity.
  - apply (proj2 (drawing_deterministic_up_to_footer _ _ _ _ _)).
    vm_compute. reflexivity.
Defined.

(** The header block does not read the language: the logo and the company
    name are anchored at the left margin in both directions. *)
Lemma header_ignores_language (host : Host) (s1 s2 : Settings) :
  logoUrl s1 = logoUrl s2 ->
  companyName s1 = companyName s2 ->
  header host (Some s1) = header host (Some s2).
Proof.
  unfold header, field. intros -> ->. reflexivity.
Qed.

(** C6 fails on the code: in the right-to-left rendering the company name
    is drawn where the left-to-right rendering draws it, at the left
    margin and without alignment, whereas the address line below it is
    the mirror image of its left-to-right counterpart. *)
Theorem header_is_not_mirrored :
  let ltr := drawing SampleHost.host 1762128000000 SampleHost.invoice
               (Some (SampleHost.settings "en")) in
  let rtl := drawing SampleHost.host 1762128000000 SampleHost.invoice
               (Some (SampleHost.settings "ar")) in
  let width := pageWidth SampleHost.host in
  nth_error ltr 1 = Some (text "ACME" margin margin noOptions)
  /\ nth_error rtl 1 = Some (text "ACME" margin margin noOptions)
  /\ nth_error rtl 1 <> option_map (Spec.mirror width) (nth_error ltr 1)
  /\ nth_error ltr 3 = Some (text "1 Main Street" margin 35 (aligned AlignLeft))
  /\ nth_error rtl 3 = option_map (Spec.mirror width) (nth_error ltr 3).
Proof.
  cbv zeta. repeat split; try (vm_compute; reflexivity).
  intros H. vm_compute in H. discriminate H.
Qed.

End LayoutProperties.

(** ** The currency formatter *)

Section CurrencyProperties.
Import Pdf.

Lemma is_digit_digit_char (d : Z) : JS.is_digit (JS.digit_char d) = true.
Proof.
  unfold JS.digit_char.
  generalize (Z.mod_pos_bound d 10 eq_refl). generalize (d mod 10)%Z.
  intros r Hr.
  assert (C : (r = 0 \/ r = 1 \/ r = 2 \/ r = 3 \/ r = 4 \/ r = 5 \/ r = 6
               \/ r = 7 \/ r = 8 \/ r = 9)%Z) by lia.
  repeat (destruct C as [-> | C]; [reflexivity |]). subst r. reflexivity.
Qed.

Lemma all_digits_app (s1 s2 : string) :
  Spec.all_digits (s1 ++ s2) = (Spec.all_digits s1 && Spec.all_digits s2)%bool.
Proof.
  induction s1 as [| c s1 IH]; cbn.
  - reflexivity.
  - rewrite IH. apply andb_assoc.
Qed.

Lemma all_digits_digits_aux (fuel : nat) (n : Z) (acc : string) :
  Spec.all_digits acc = true -> Spec.all_digits (JS.digits_aux fuel n acc) = true.
Proof.
  revert n acc. induction fuel as [| fuel IH]; intros n acc H; cbn.
  - exact H.
  - assert (H' : Spec.all_digits (String (JS.digit_char n) acc) = true)
      by (cbn; rewrite is_digit_digit_char; exact H).
    destruct (n / 10 =? 0)%Z; [exact H' | apply IH, H'].
Qed.

Lemma all_digits_decimal (n : Z) : Spec.all_digits (JS.decimal n) = true.
Proof. apply all_digits_digits_aux. reflexivity. Qed.

Lemma all_digits_repeat_zero (k : nat) :
  Spec.all_digits (JS.repeat_char "0" k) = true.
Proof. induction k as [| k IH]; [reflexivity | exact IH]. Qed.

Lemma all_digits_padStart0 (s : string) (k : nat) :
  Spec.all_digits s = true -> Spec.all_digits (JS.padStart0 s k) = true.
Proof.
  intros H. unfold JS.padStart0.
  rewrite all_digits_app, all_digits_repeat_zero, H. reflexivity.
Qed.

Lemma length_app (s1 s2 : string) :
  String.length (s1 ++ s2) = (String.length s1 + String.length s2)%nat.
Proof. induction s1 as [| c s1 IH]; cbn; [reflexivity | now rewrite IH]. Qed.

Lemma length_repeat_char (c : ascii) (k : nat) :
  String.length (JS.repeat_char c k) = k.
Proof. induction k as [| k IH]; cbn; [reflexivity | now rewrite IH]. Qed.

Lemma length_padStart0 (s : string) (k : nat) :
  (k <= String.length (JS.padStart0 s k))%nat.
Proof.
  unfold JS.padStart0. rewrite length_app, length_repeat_char. lia.
Qed.

Lemma all_digits_substring (s : string) (n m : nat) :
  Spec.all_digits s = true -> Spec.all_digits (substring n m s) = true.
Proof.
  revert n m. induction s as [| c s IH]; intros n m H.
  - destruct n, m; reflexivity.
  - cbn in H. apply andb_true_iff in H as [Hc Hs].
    destruct n as [| n]; cbn.
    + destruct m as [| m]; cbn; [reflexivity |].
      rewrite Hc. apply IH, Hs.
    + apply IH, Hs.
Qed.

Lemma length_substring (s : string) (n m : nat) :
  (n + m <= String.length s)%nat -> String.length (substring n m s) = m.
Proof.
  revert n m. induction s as [| c s IH]; intros n m H; cbn in H.
  - assert (n = 0 /\ m = 0)%nat as [-> ->] by lia. reflexivity.
  - destruct n as [| n]; cbn.
    + destruct m as [| m]; cbn; [reflexivity |].
      f_equal. apply IH. cbn. lia.
    + apply IH. lia.
Qed.

Lemma digit_is_not_minus (c : ascii) :
  JS.is_digit c = true -> Ascii.eqb c "-" = false.
Proof.
  intros H. destruct (Ascii.eqb_spec c "-") as [-> |]; [discriminate H | reflexivity].
Qed.

(** Leading digits are consumed, and remembered. *)
Lemma digits_point_two_app (a rest : string) (seen : bool) :
  Spec.all_digits a = true ->
  Spec.digits_point_two (a ++ rest) seen
  = Spec.digits_point_two rest
      (seen || match a with EmptyString => false | _ => true end).
Proof.
  revert seen. induction a as [| c a IH]; intros seen H; cbn.
  - now rewrite orb_false_r.
  - cbn in H. apply andb_true_iff in H as [Hc Ha].
    rewrite Hc, (IH true Ha). cbn. now rewrite orb_true_r.
Qed.

(** The digits of [fixed_point n 2] have two decimal places. *)
Lemma fixed_point_two_decimals (n : Z) :
  exists a b,
    JS.fixed_point n 2 = a ++ "." ++ b
    /\ a <> "" /\ Spec.all_digits a = true
    /\ String.length b = 2%nat /\ Spec.all_digits b = true.
Proof.
  unfold JS.fixed_point.
  set (m := JS.padStart0 (JS.decimal n) (2 + 1)).
  assert (Hm : Spec.all_digits m = true)
    by apply all_digits_padStart0, all_digits_decimal.
  assert (Hl : (3 <= String.length m)%nat) by apply length_padStart0.
  exists (substring 0 (String.length m - 2) m),
         (substring (String.length m - 2) 2 m).
  split; [reflexivity |]. clearbody m. split; [| split; [| split]].
  - intros E. apply (f_equal String.length) in E.
    rewrite length_substring in E by lia.
    change (String.length "") with 0%nat in E. lia.
  - apply all_digits_substring, Hm.
  - apply length_substring. lia.
  - apply all_digits_substring, Hm.
Qed.

Lemma digits_point_two_shape (a b : string) :
  a <> "" -> Spec.all_digits a = true ->
  String.length b = 2%nat -> Spec.all_digits b = true ->
  Spec.digits_point_two (a ++ "." ++ b) false = true.
Proof.
  intros Ha Hda Hb Hdb.
  rewrite digits_point_two_app by exact Hda.
  destruct a as [| c a]; [congruence |]. cbn [orb].
  destruct b as [| x [| y [| z b]]]; try discriminate Hb.
  cbn in Hdb. rewrite andb_true_r in Hdb. cbn. exact Hdb.
Qed.

Lemma twoDecimals_fixed_point (n : Z) (negative : bool) :
  Spec.twoDecimals ((if negative then "-" else "") ++ JS.fixed_point n 2) = true.
Proof.
  destruct (fixed_point_two_decimals n) as (a & b & -> & Ha & Hda & Hb & Hdb).
  destruct negative; cbn [append].
  - cbn [Spec.twoDecimals]. change (Ascii.eqb "-" "-") with true. cbv iota.
    apply (digits_point_two_shape a b); assumption.
  - destruct a as [| c a]; [congruence |].
    cbn [append Spec.twoDecimals].
    cbn in Hda. apply andb_true_iff in Hda as [Hc Hda'].
    rewrite (digit_is_not_minus c Hc).
    apply (digits_point_two_shape (String c a) b); try assumption.
    cbn. now rewrite Hc, Hda'.
Qed.

(** A finite amount of magnitude below [10^21] is rendered with two
    decimal places. *)
Lemma toFixed_two_decimals (amount : float) :
  JS.below_1e21 amount = true -> Spec.twoDecimals (JS.toFixed amount 2) = true.
Proof.
  unfold JS.below_1e21, JS.toFixed.
  destruct (Prim2SF amount) as [s | s | | s m e]; try discriminate.
  - intros _. reflexivity.
  - intros H. apply negb_true_iff in H. rewrite H.
    apply twoDecimals_fixed_point.
Qed.

(** C8, as stated, fails: the finite amount [10^21] is rendered in
    exponential notation. *)
Lemma large_amount_is_not_fixed :
  PrimFloat.is_finite 1e21 = true
  /\ formatCurrency 1e21 "USD" (getCurrencySymbol "USD") = "$ 1e+21"
  /\ Spec.twoDecimals (JS.toFixed 1e21 2) = false.
Proof.
  repeat split; vm_compute; reflexivity.
Qed.

(** C8, amended: a finite amount of magnitude below [10^21] is rendered
    with exactly two decimal places after the symbol of its currency; a
    code outside the four known ones has the symbol [$]; [formatCurrency]
    is a total function. *)
Theorem formatCurrency_two_decimals (amount : float) (currency : string) :
  (JS.below_1e21 amount = true ->
   formatCurrency amount currency (getCurrencySymbol currency)
   = getCurrencySymbol currency ++ " " ++ JS.toFixed amount 2
   /\ Spec.twoDecimals (JS.toFixed amount 2) = true)
  /\ (currency <> "SAR" -> currency <> "USD" ->
      currency <> "EUR" -> currency <> "GBP" ->
      getCurrencySymbol currency = "$")
  /\ getCurrencySymbol "SAR" = "ر.س"
  /\ getCurrencySymbol "USD" = "$"
  /\ getCurrencySymbol "EUR" = "€"
  /\ getCurrencySymbol "GBP" = "£"
  /\ formatCurrency 1234.5 "USD" (getCurrencySymbol "USD") = "$ 1234.50".
Proof.
  split; [| split].
  - intros H. split; [reflexivity | apply toFixed_two_decimals, H].
  - intros H1 H2 H3 H4. unfold getCurrencySymbol.
    apply String.eqb_neq in H1, H2, H3, H4.
    now rewrite H1, H2, H3, H4.
  - repeat split; vm_compute; reflexivity.
Qed.

Lemma formatCurrency_two_decimals_witness :
  JS.below_1e21 1234.5 = true
  /\ formatCurrency 1234.5 "XYZ" (getCurrencySymbol "XYZ") = "$ 1234.50"
  /\ Spec.twoDecimals (JS.toFixed 1234.5 2) = true
  /\ getCurrencySymbol "XYZ" = "$".
Proof.
  split; [vm_compute; reflexivity |].
  destruct (formatCurrency_two_decimals 1234.5 "XYZ") as (H & S & _).
  split; [| split].
  - vm_compute. reflexivity.
  - apply H. vm_compute. reflexivity.
  - apply S; discriminate.
Defined.

End CurrencyProperties.

(* ================================================================= *)
(** * Further properties of the code *)

(** ** More on the allocator and the totals *)

Section AllocatorFormat.
Import Firestore Helpers.

Lemma format_number_shape (n : float) :
  exists suffix,
    format_number n = "INV-" ++ suffix /\ (4 <= String.length suffix)%nat.
Proof.
  exists (JS.padStart0 (JS.toString n) 4).
  split; [reflexivity | apply length_padStart0].
Qed.

(** Whatever the database holds and whether or not it can be reached,
    the identifier that [getNextInvoiceNumber] returns is the prefix [INV-]
    followed by at least four characters. *)
Theorem identifier_has_prefix_and_width (db : Db) :
  exists suffix,
    getNextInvoiceNumber db = "INV-" ++ suffix
    /\ (4 <= String.length suffix)%nat.
Proof.
  assert (B : exists suffix,
             "INV-0001" = "INV-" ++ suffix /\ (4 <= String.length suffix)%nat)
    by (exists "0001"; split; [reflexivity | cbn; lia]).
  unfold getNextInvoiceNumber, getNextInvoiceNumber_try.
  destruct (getDocs_settings db) as [settingsSnapshot | e];
    cbn [bind Monad_result bind_result]; [| exact B].
  destruct (stored_counter settingsSnapshot) as [n |];
    [apply format_number_shape |].
  destruct (getDocs_last_invoice db) as [invoicesSnapshot | e];
    cbn [bind_result]; [| exact B].
  destruct invoicesSnapshot as [| lastInvoice rest]; [exact B |].
  destruct (JS.truthy_str (invoiceNumber lastInvoice)
            && JS.startsWith (invoiceNumber lastInvoice) "INV-")%bool;
    [| exact B].
  destruct (negb (is_nan (JS.parseInt
              (JS.replace (invoiceNumber lastInvoice) "INV-" ""))));
    [apply format_number_shape | exact B].
Qed.

(** The allocator and [getCompanySettings] read the same document: when
    the settings that [getCompanySettings] returns hold a truthy
    [nextInvoiceNumber], the allocator proposes that number. *)
Theorem allocator_follows_company_settings (db : Db) (s : SettingsData)
    (n : float) :
  Lookups.getCompanySettings db = Some s ->
  nextInvoiceNumber s = Some n ->
  JS.truthy n = true ->
  getNextInvoiceNumber db = format_number n.
Proof.
  unfold Lookups.getCompanySettings, getNextInvoiceNumber,
    getNextInvoiceNumber_try.
  destruct (getDocs_settings db) as [settingsSnapshot | e]; cbn;
    [| discriminate].
  destruct settingsSnapshot as [| d rest]; cbn; [discriminate |].
  intros H Hn Ht. injection H as H. subst d.
  rewrite Hn, Ht. reflexivity.
Qed.

Lemma allocator_follows_company_settings_witness :
  let db := {| settings := [ {| nextInvoiceNumber := Some 7%float |} ];
               invoices := [ {| invoiceNumber := "INV-0042" |} ];
               unreachable := reachable |} in
  Lookups.getCompanySettings db = Some {| nextInvoiceNumber := Some 7%float |}
  /\ getNextInvoiceNumber db = "INV-0007".
Proof.
  cbv zeta. split; [reflexivity |].
  refine (allocator_follows_company_settings _ _ 7%float _ _ _); reflexivity.
Defined.

End AllocatorFormat.

Section TotalsWithoutTax.
Import Helpers.
Local Open Scope float_scope.

Lemma is_finite_SF (x : float) :
  PrimFloat.is_finite x = true -> Spec.SF_finite (Prim2SF x) = true.
Proof.
  unfold PrimFloat.is_finite, PrimFloat.is_nan, PrimFloat.is_infinity.
  rewrite !eqb_spec, abs_spec.
  change (Prim2SF infinity) with (S754_infinity false).
  destruct (Prim2SF x) as [s | s | | s m e]; try reflexivity.
  - destruct s; cbn; discriminate.
  - cbn. discriminate.
Qed.

(** [x * 0] is a zero of the sign of [x], and adding it gives [x] back. *)
Lemma add_mul_zero (x : float) :
  Spec.SF_finite (Prim2SF x) = true -> x + x * 0 = x.
Proof.
  intros H. apply Prim2SF_inj.
  rewrite add_spec, mul_spec. change (Prim2SF 0) with (S754_zero false).
  destruct (Prim2SF x) as [[] | s | | s m e]; try discriminate H; reflexivity.
Qed.

Lemma mul_zero_isZero (x : float) :
  Spec.SF_finite (Prim2SF x) = true -> Spec.isZero (x * 0) = true.
Proof.
  intros H. unfold Spec.isZero. rewrite eqb_spec, mul_spec.
  change (Prim2SF 0) with (S754_zero false).
  destruct (Prim2SF x) as [[] | s | | s m e]; try discriminate H; reflexivity.
Qed.

(** With the tax rate omitted, or zero, and a finite subtotal, the tax is
    a zero and the total amount is the subtotal. *)
Theorem no_tax_total_is_subtotal (items : list InvoiceItem)
    (taxRate : option float) :
  taxRate = None \/ taxRate = Some 0 ->
  PrimFloat.is_finite (subtotal (calculateInvoiceTotals items taxRate)) = true ->
  Spec.isZero (tax (calculateInvoiceTotals items taxRate)) = true
  /\ totalAmount (calculateInvoiceTotals items taxRate)
     = subtotal (calculateInvoiceTotals items taxRate).
Proof.
  intros Hr.
  assert (E : calculateInvoiceTotals items taxRate
              = calculateInvoiceTotals items (Some 0))
    by (destruct Hr as [-> | ->]; reflexivity).
  rewrite E. clear E Hr. unfold calculateInvoiceTotals. cbn [subtotal tax totalAmount].
  change (0 / 100) with 0.
  intros H. apply is_finite_SF in H.
  split; [apply mul_zero_isZero, H | apply add_mul_zero, H].
Qed.

Lemma no_tax_total_is_subtotal_witness :
  let items := [ {| id := "1"; description := "Design";
                    quantity := 2; price := 50; total := 100 |};
                 {| id := "2"; description := "Hosting";
                    quantity := 3; price := 0.1; total := 0.30000000000000004 |} ] in
  PrimFloat.is_finite (subtotal (calculateInvoiceTotals items None)) = true
  /\ totalAmount (calculateInvoiceTotals items None)
     = subtotal (calculateInvoiceTotals items None).
Proof.
  cbv zeta.
  match goal with |- ?F /\ _ => assert (H : F) by (vm_compute; reflexivity) end.
  split; [exact H |].
  apply (no_tax_total_is_subtotal _ None (or_introl eq_refl) H).
Defined.

End TotalsWithoutTax.

(** ** Dates and loaded invoices *)

Section LoadedInvoices.
Import Helpers Lookups.

(** [safelyConvertToDate] returns a valid date, unless the [toDate] of the
    value itself returns an invalid one: a falsy value, an unparseable one
    and a failing conversion all give the current time, and a value that
    converts to a valid date keeps its time. *)
Theorem safelyConvertToDate_valid (now : Z) (timestamp : TimestampArg) :
  timestamp <> HasToDate (Ok None) ->
  (exists time, safelyConvertToDate now timestamp = Some time)
  /\ (forall time,
        timestamp = Convertible (Ok (Some time))
        \/ timestamp = HasToDate (Ok (Some time)) ->
        safelyConvertToDate now timestamp = Some time)
  /\ (timestamp = Falsy \/ timestamp = Convertible (Ok None)
      \/ (exists e, timestamp = Convertible (Throw e))
      \/ (exists e, timestamp = HasToDate (Throw e)) ->
      safelyConvertToDate now timestamp = Some now).
Proof.
  intros H. split; [| split].
  - destruct timestamp as [| [[t |] | e] | [[t |] | e]]; cbn;
      try (eexists; reflexivity). exfalso. apply H. reflexivity.
  - intros time [-> | ->]; reflexivity.
  - intros [-> | [-> | [[e ->] | [e ->]]]]; reflexivity.
Qed.

Lemma safelyConvertToDate_valid_witness :
  Convertible (Ok None) <> HasToDate (Ok None)
  /\ safelyConvertToDate 1762128000000 (Convertible (Ok None))
     = Some 1762128000000%Z.
Proof.
  split; [discriminate |].
  apply (proj2 (proj2 (safelyConvertToDate_valid 1762128000000
                         (Convertible (Ok None)) ltac:(discriminate)))).
  right. left. reflexivity.
Defined.

Lemma or_else_idempotent (x d : float) :
  JS.truthy d = false -> JS.or_else (JS.or_else x d) d = JS.or_else x d.
Proof.
  intros Hd. unfold JS.or_else at 2 3.
  destruct (JS.truthy x) eqn:Hx; unfold JS.or_else.
  - now rewrite Hx.
  - now rewrite Hd.
Qed.

Lemma or_else_not_nan (x d : float) :
  PrimFloat.is_nan d = false -> PrimFloat.is_nan (JS.or_else x d) = false.
Proof.
  intros Hd. unfold JS.or_else. destruct (JS.truthy x) eqn:Hx; [| exact Hd].
  unfold JS.truthy in Hx. apply negb_true_iff, orb_false_iff in Hx. tauto.
Qed.

Lemma or_else_truthy (x d : float) :
  JS.truthy d = true -> JS.truthy (JS.or_else x d) = true.
Proof.
  intros Hd. unfold JS.or_else. destruct (JS.truthy x) eqn:Hx; assumption.
Qed.

Lemma convertItem_converted (randomUUID : nat -> string) (calls : nat)
    (item : RawItem) :
  converted (fst (convertItem randomUUID calls item)).
Proof.
  unfold convertItem.
  destruct (match item_id item with
            | Some (String c s) => (String c s, calls)
            | _ => (randomUUID calls, S calls)
            end) as [i k].
  unfold converted. cbn [fst quantity price total].
  repeat split.
  - apply or_else_truthy. reflexivity.
  - apply or_else_not_nan. reflexivity.
  - apply or_else_not_nan. reflexivity.
  - apply or_else_idempotent. reflexivity.
Qed.

Lemma convertItems_converted (randomUUID : nat -> string)
    (items : list RawItem) (calls : nat) :
  Forall converted (convertItems randomUUID calls items)
  /\ List.length (convertItems randomUUID calls items) = List.length items.
Proof.
  revert calls. induction items as [| item rest IH]; intros calls; cbn.
  - split; [constructor | reflexivity].
  - pose proof (convertItem_converted randomUUID calls item) as H.
    destruct (convertItem randomUUID calls item) as [c k]. cbn [fst] in H.
    destruct (IH k) as [IH1 IH2].
    split; [constructor; assumption | cbn; now rewrite IH2].
Qed.

Lemma loadItems_converted (randomUUID : nat -> string)
    (items : option (list RawItem)) :
  Forall converted (loadItems randomUUID items).
Proof.
  destruct items as [array |]; cbn [loadItems].
  - apply convertItems_converted.
  - constructor; [| constructor].
    unfold converted. cbn. repeat split.
Qed.

Lemma convertElements_null (randomUUID : nat -> string)
    (array : list (option RawItem)) (calls : nat) :
  In None array -> convertElements randomUUID calls array = Throw "TypeError".
Proof.
  revert calls. induction array as [| [item |] rest IH]; intros calls H.
  - destruct H.
  - destruct H as [H | H]; [discriminate H |].
    cbn [convertElements].
    destruct (convertItem randomUUID calls item) as [c k].
    rewrite (IH k H). reflexivity.
  - reflexivity.
Qed.

Lemma convertElements_objects (randomUUID : nat -> string)
    (objects : list RawItem) (calls : nat) :
  convertElements randomUUID calls (map Some objects)
  = Ok (convertItems randomUUID calls objects).
Proof.
  revert calls. induction objects as [| item rest IH]; intros calls;
    [reflexivity |].
  cbn [map convertElements convertItems].
  destruct (convertItem randomUUID calls item) as [c k].
  rewrite IH. reflexivity.
Qed.

(** An array holds a [null] or [undefined] element, or objects only. *)
Lemma null_or_objects (array : list (option RawItem)) :
  In None array \/ exists objects, array = map Some objects.
Proof.
  induction array as [| [item |] rest [IH | [objects IH]]].
  - right. exists []. reflexivity.
  - left. right. exact IH.
  - right. exists (item :: objects). cbn. now rewrite IH.
  - left. left. reflexivity.
  - left. left. reflexivity.
Qed.

Lemma convertItem_calls (randomUUID : nat -> string) (calls : nat)
    (item : RawItem) :
  snd (convertItem randomUUID calls item)
  = (calls + missingIds [item])%nat
  /\ convertedFrom randomUUID calls item (fst (convertItem randomUUID calls item)).
Proof.
  unfold convertItem, missingIds, convertedFrom, Pdf.or_default.
  destruct item as [[[| c s] |] d q p t]; cbn; split; try lia;
    repeat split.
Qed.

Lemma missingIds_app (l1 l2 : list RawItem) :
  missingIds (l1 ++ l2) = (missingIds l1 + missingIds l2)%nat.
Proof. unfold missingIds. now rewrite filter_app, List.length_app. Qed.

Lemma convertItems_nth (randomUUID : nat -> string) (objects : list RawItem)
    (calls k : nat) (item : RawItem) :
  nth_error objects k = Some item ->
  exists line,
    nth_error (convertItems randomUUID calls objects) k = Some line
    /\ convertedFrom randomUUID (calls + missingIds (firstn k objects)) item line.
Proof.
  revert calls k.
  induction objects as [| first rest IH]; intros calls k H;
    [destruct k; discriminate H |].
  cbn [convertItems].
  destruct (convertItem_calls randomUUID calls first) as [C F].
  destruct (convertItem randomUUID calls first) as [c calls'].
  cbn [fst snd] in C, F.
  destruct k as [| k].
  - injection H as <-. exists c. split; [reflexivity |].
    cbn [firstn]. unfold missingIds at 1. cbn [filter List.length].
    rewrite Nat.add_0_r. exact F.
  - cbn [nth_error] in H. destruct (IH calls' k H) as (line & N & G).
    exists line. split; [exact N |].
    cbn [firstn].
    change (first :: firstn k rest) with ([first] ++ firstn k rest)%list.
    rewrite missingIds_app, Nat.add_assoc, <- C. exact G.
Qed.

(** The items of a loaded invoice.  A stored value that is not an array
    gives the single empty item.  An array that holds [null] or
    [undefined] makes the conversion throw.  For an array of objects there
    is one line for each element, in order: it has the [id] of the
    element, or the next value of [crypto.randomUUID] when that is missing
    or empty, its description (or [""]), and its quantity, price and
    total converted to numbers, with 1, 0 and 0 in the place of [0] and
    [NaN]; so every line has a truthy quantity, and a price and a total
    that are not [NaN]. *)
Theorem loaded_items_are_converted (randomUUID : nat -> string)
    (items : option (list (option RawItem))) :
  match items with
  | None =>
      loadStored randomUUID items = Ok [emptyInvoiceItem (randomUUID 0%nat)]
  | Some array =>
      (In None array -> loadStored randomUUID items = Throw "TypeError")
      /\ (forall objects,
            array = map Some objects ->
            exists loaded,
              loadStored randomUUID items = Ok loaded
              /\ List.length loaded = List.length objects
              /\ Forall converted loaded
              /\ (forall k item,
                    nth_error objects k = Some item ->
                    exists line,
                      nth_error loaded k = Some line
                      /\ convertedFrom randomUUID
                           (missingIds (firstn k objects)) item line))
  end.
Proof.
  destruct items as [array |]; [| reflexivity].
  cbn [loadStored]. split.
  - apply convertElements_null.
  - intros objects ->. rewrite convertElements_objects.
    exists (convertItems randomUUID 0 objects).
    split; [reflexivity |].
    split; [apply convertItems_converted |].
    split; [apply convertItems_converted |].
    intros k item H. apply (convertItems_nth randomUUID objects 0 k item H).
Qed.

Lemma loaded_items_are_converted_witness :
  let bare := {| item_id := None; item_description := None;
                 Number_quantity := nan; Number_price := nan;
                 Number_total := nan |} in
  let full := {| item_id := Some "i1"; item_description := Some "Design";
                 Number_quantity := 2; Number_price := 50;
                 Number_total := 100 |} in
  let randomUUID := fun k : nat => "uuid-" ++ JS.decimal (Z.of_nat k) in
  loadStored randomUUID (Some [Some bare; None; Some full]) = Throw "TypeError"
  /\ loadStored randomUUID (Some [Some bare; Some full; Some bare])
     = Ok [ {| id := "uuid-0"; description := ""; quantity := 1; price := 0;
               total := 0 |};
            {| id := "i1"; description := "Design"; quantity := 2; price := 50;
               total := 100 |};
            {| id := "uuid-1"; description := ""; quantity := 1; price := 0;
               total := 0 |} ].
Proof.
  cbv zeta. split; [| vm_compute; reflexivity].
  refine (proj1 (loaded_items_are_converted _ (Some _)) _).
  right. left. reflexivity.
Defined.

(** The stored value loads exactly when it holds no [null] or [undefined]
    element, and then as its objects do. *)
Lemma loadStored_Ok (randomUUID : nat -> string)
    (items : option (list (option RawItem))) (loaded : list InvoiceItem) :
  loadStored randomUUID items = Ok loaded ->
  Forall converted loaded
  /\ exists objects,
       items = option_map (map Some) objects
       /\ loaded = loadItems randomUUID objects.
Proof.
  destruct items as [array |]; cbn [loadStored]; intros H.
  - destruct (null_or_objects array) as [N | [objects ->]].
    + rewrite (convertElements_null randomUUID array 0 N) in H. discriminate H.
    + rewrite convertElements_objects in H. injection H as <-.
      split; [apply convertItems_converted |].
      exists (Some objects). split; reflexivity.
  - injection H as <-.
    split; [apply (loadItems_converted randomUUID None) |].
    exists None. split; reflexivity.
Qed.

Lemma plain_sum_of_converted (items : list InvoiceItem) (acc : float) :
  Forall converted items ->
  fold_left (fun sum item => (sum + JS.or_else (total item) 0)%float) items acc
  = fold_left (fun sum item => (sum + total item)%float) items acc.
Proof.
  intros H. revert acc.
  induction H as [| item items (_ & _ & _ & Hi) Hs IH]; intros acc; cbn.
  - reflexivity.
  - rewrite Hi. apply IH.
Qed.

(** For the items of a loaded invoice the [|| 0] of the calculator never
    applies: the subtotal is the plain sum of the stored totals. *)
Theorem loaded_subtotal_is_plain_sum (randomUUID : nat -> string)
    (items : option (list RawItem)) (taxRate : option float) :
  subtotal (calculateInvoiceTotals (loadItems randomUUID items) taxRate)
  = fold_left (fun sum item => (sum + total item)%float)
              (loadItems randomUUID items) 0%float.
Proof.
  unfold calculateInvoiceTotals. cbn [subtotal].
  apply plain_sum_of_converted, loadItems_converted.
Qed.

(** [getInvoiceById] returns [null] exactly when the lookup is rejected,
    no document has the identifier, or the [items] array of the document
    holds [null] or [undefined] (the conversion throws, and the exception
    is caught).  Otherwise the invoice carries the identifier (unless the
    document has an [id] field of its own), its four dates are those of
    [safelyConvertToDate], and its items are the loaded ones. *)
Theorem getInvoiceById_found (randomUUID : nat -> string) (now : nat -> Z)
    (docs : InvoiceDocs) (id : string) :
  (getInvoiceById randomUUID now docs id = None <->
   rejected docs = true
   \/ lookup id (documents docs) = None
   \/ exists data array,
        lookup id (documents docs) = Some data
        /\ data_items data = Some array /\ In None array)
  /\ (forall invoice,
        getInvoiceById randomUUID now docs id = Some invoice ->
        exists data,
          lookup id (documents docs) = Some data
          /\ loaded_id invoice
             = match data_id data with Some own => own | None => id end
          /\ loaded_date invoice
             = safelyConvertToDate (now 0%nat) (data_date data)
          /\ loaded_dueDate invoice
             = safelyConvertToDate (now 1%nat) (data_dueDate data)
          /\ loaded_createdAt invoice
             = safelyConvertToDate (now 2%nat) (data_createdAt data)
          /\ loaded_updatedAt invoice
             = safelyConvertToDate (now 3%nat) (data_updatedAt data)
          /\ loadStored randomUUID (data_items data)
             = Ok (loaded_items invoice)
          /\ Forall converted (loaded_items invoice)).
Proof.
  unfold getInvoiceById. destruct (rejected docs).
  - split; [split; [auto | reflexivity] | discriminate].
  - destruct (lookup id (documents docs)) as [data |].
    + destruct (loadStored randomUUID (data_items data)) as [loaded | e] eqn:L.
      * split.
        -- split; [discriminate |].
           intros [H | [H | (data' & array & H & I & N)]];
             try discriminate H.
           injection H as <-. rewrite I in L. cbn [loadStored] in L.
           rewrite (convertElements_null randomUUID array 0 N) in L.
           discriminate L.
        -- intros invoice H. injection H as <-. cbn.
           exists data. repeat split;
             [exact L | apply (loadStored_Ok randomUUID _ _ L)].
      * split; [| discriminate].
        split; [| reflexivity]. intros _. right. right.
        destruct (data_items data) as [array |] eqn:I; [| discriminate L].
        exists data, array. split; [reflexivity | split; [exact I |]].
        destruct (null_or_objects array) as [N | [objects ->]]; [exact N |].
        cbn [loadStored] in L. rewrite convertElements_objects in L.
        discriminate L.
    + split; [split; [auto | reflexivity] | discriminate].
Qed.

Lemma getInvoiceById_found_witness :
  let data := {| data_id := None; data_date := Falsy; data_dueDate := Falsy;
                 data_createdAt := Falsy; data_updatedAt := Falsy;
                 data_items := Some [None] |} in
  let docs := {| documents := [("a1", data)]; rejected := false |} in
  lookup "a1" (documents docs) = Some data
  /\ getInvoiceById (fun _ => "uuid") (fun _ => 0%Z) docs "a1" = None.
Proof.
  cbv zeta. split; [reflexivity |].
  apply (proj1 (getInvoiceById_found _ _ _ _)).
  right. right. eexists. eexists.
  split; [reflexivity | split; [reflexivity | left; reflexivity]].
Defined.

(** A date that went through [safelyConvertToDate], as in the loader of
    [EditInvoicePage], and its print on the PDF: a stored value that
    converts to a valid date is printed as the locale renders its time; a
    falsy value, an unparseable one and a failing conversion are printed
    as the locale renders the current time; a stored value whose [toDate]
    returns an invalid date is printed as ["Invalid Date"].  The marker
    ["N/A"] is not reached. *)
Theorem converted_date_is_printed (host : Pdf.Host) (isArabic : bool)
    (now : Z) (timestamp : TimestampArg) :
  Pdf.formatDate host isArabic
    (Pdf.Plain (Ok (safelyConvertToDate now timestamp)))
  = match timestamp with
    | Convertible (Ok (Some time)) | HasToDate (Ok (Some time)) =>
        Pdf.toLocaleDateString host (if isArabic then "ar-SA" else "en-US") time
    | HasToDate (Ok None) => "Invalid Date"
    | Falsy | Convertible (Ok None) | Convertible (Throw _)
    | HasToDate (Throw _) =>
        Pdf.toLocaleDateString host (if isArabic then "ar-SA" else "en-US") now
    end.
Proof.
  destruct timestamp as [| [[time |] | e] | [[time |] | e]]; reflexivity.
Qed.

Lemma converted_date_is_printed_witness :
  Pdf.formatDate SampleHost.host false
    (Pdf.Plain (Ok (safelyConvertToDate 0
                      (Convertible (Ok (Some 1762128000000%Z))))))
  = "11/3/2025"
  /\ Pdf.formatDate SampleHost.host false
       (Pdf.Plain (Ok (safelyConvertToDate 1762128000000 Falsy)))
     = "11/3/2025".
Proof.
  split; rewrite converted_date_is_printed; vm_compute; reflexivity.
Defined.

End LoadedInvoices.

(** ** Products *)

Section ProductProperties.
Import Products.


Lemma lookup_filter_other {A : Type} (id docId : string)
    (l : list (string * A)) :
  Lookups.lookup id (filter (fun d => negb (fst d =? docId)%string) l)
  = if (id =? docId)%string then None else Lookups.lookup id l.
Proof.
  induction l as [| [id' x] l IH]; cbn.
  - now destruct (id =? docId)%string.
  - destruct (String.eqb_spec id' docId) as [-> | Hne]; cbn.
    + rewrite IH. rewrite (String.eqb_sym docId id).
      now destruct (id =? docId)%string.
    + destruct (String.eqb_spec id' id) as [-> | Hne'].
      * apply String.eqb_neq in Hne. now rewrite Hne.
      * exact IH.
Qed.

Lemma lookup_update_doc (id docId : string) (f : Product -> Product)
    (l : list (string * Product)) :
  Lookups.lookup id (update_doc docId f l)
  = if (id =? docId)%string then option_map f (Lookups.lookup id l)
    else Lookups.lookup id l.
Proof.
  induction l as [| [id' x] l IH]; cbn.
  - now destruct (id =? docId)%string.
  - destruct (String.eqb_spec id' docId) as [-> | Hne]; cbn.
    + rewrite (String.eqb_sym docId id).
      now destruct (id =? docId)%string.
    + destruct (String.eqb_spec id' id) as [-> | Hne'].
      * apply String.eqb_neq in Hne. now rewrite Hne.
      * exact IH.
Qed.



(** Delete, then read: after [deleteProduct] reported success the product
    is not found any more and every other document reads as before;
    deleting an identifier that does not exist succeeds as well. *)
Theorem deleted_product_is_gone (now : Z) (c : Collection) (docId : string) :
  offline c = false ->
  snd (deleteProduct c docId) = true
  /\ getProductById now (fst (deleteProduct c docId)) docId = None
  /\ (forall other,
        other <> docId ->
        getProductById now (fst (deleteProduct c docId)) other
        = getProductById now c other).
Proof.
  intros Hoff. unfold deleteProduct, getProductById.
  rewrite Hoff. cbn [fst snd docs offline].
  split; [reflexivity | split].
  - rewrite lookup_filter_other, String.eqb_refl. reflexivity.
  - intros other Hne. rewrite lookup_filter_other.
    apply String.eqb_neq in Hne. now rewrite Hne.
Qed.

Lemma deleted_product_is_gone_witness :
  let c := {| docs := [("a1", emptyProduct)]; offline := false |} in
  offline c = false
  /\ getProductById 9 (fst (deleteProduct c "a1")) "a1" = None
  /\ snd (deleteProduct c "zz") = true.
Proof.
  cbv zeta. split; [reflexivity |]. split.
  - refine (proj1 (proj2 (deleted_product_is_gone 9 _ "a1" _))). reflexivity.
  - refine (proj1 (deleted_product_is_gone 9 _ "zz" _)). reflexivity.
Defined.

(** Update, then read: an existing product is read back with the keys of
    the patch replaced, [updatedAt] at the time of the update and every
    other field kept, and the other documents read as before; updating an
    identifier that does not exist fails and changes nothing. *)
Theorem updated_product_is_read_back (now now' : Z) (c : Collection)
    (docId : string) (patch : Patch) :
  offline c = false ->
  (forall old,
     Lookups.lookup docId (docs c) = Some old ->
     snd (updateProduct now c docId patch) = true
     /\ getProductById now' (fst (updateProduct now c docId patch)) docId
        = Some (read now' docId (merge now patch old))
     /\ (forall other,
           other <> docId ->
           getProductById now' (fst (updateProduct now c docId patch)) other
           = getProductById now' c other))
  /\ (Lookups.lookup docId (docs c) = None ->
      updateProduct now c docId patch = (c, false)).
Proof.
  intros Hoff. unfold updateProduct, getProductById. rewrite Hoff. split.
  - intros old Hold. rewrite Hold. cbn [fst snd docs offline].
    split; [reflexivity | split].
    + rewrite lookup_update_doc, String.eqb_refl, Hold. reflexivity.
    + intros other Hne. rewrite lookup_update_doc.
      apply String.eqb_neq in Hne. now rewrite Hne.
  - intros H. rewrite H. reflexivity.
Qed.

Lemma updated_product_is_read_back_witness :
  let c := {| docs := [("a1", emptyProduct)]; offline := false |} in
  let patch := {| patch_id := None; patch_name := Some "Hosting";
                  patch_description := None; patch_price := Some 30%float;
                  patch_sku := None; patch_createdAt := None |} in
  offline c = false
  /\ Lookups.lookup "a1" (docs c) = Some emptyProduct
  /\ getProductById 9 (fst (updateProduct 7 c "a1" patch)) "a1"
     = Some {| id := Some "a1"; name := "Hosting"; description := "";
               price := 30; sku := Some "";
               createdAt := Some 9%Z; updatedAt := Some 7%Z |}.
Proof.
  cbv zeta. split; [reflexivity | split; [reflexivity |]].
  refine (proj1 (proj2 (proj1 (updated_product_is_read_back 7 9 _ "a1" _ _)
                          emptyProduct _))); reflexivity.
Defined.

(** The order of [orderBy("name")] is total. *)
Lemma name_leb_total (a b : string * Product) :
  name_leb a b = false -> name_leb b a = true.
Proof.
  unfold name_leb. rewrite (String.compare_antisym (name (snd a))).
  destruct (String.compare (name (snd b)) (name (snd a))); cbn;
    try discriminate; try reflexivity.
  intros H. destruct (String.leb_total (fst a) (fst b)) as [E | E];
    [congruence | exact E].
Qed.

Lemma insert_by_name_perm (d : string * Product) (l : list (string * Product)) :
  Permutation (d :: l) (insert_by_name d l).
Proof.
  induction l as [| d' l IH]; cbn.
  - apply Permutation_refl.
  - destruct (name_leb d d'); [apply Permutation_refl |].
    eapply perm_trans; [apply perm_swap | apply perm_skip, IH].
Qed.

Lemma orderBy_name_perm (l : list (string * Product)) :
  Permutation l (orderBy_name l).
Proof.
  induction l as [| d l IH]; cbn.
  - apply perm_nil.
  - eapply perm_trans; [apply perm_skip, IH | apply insert_by_name_perm].
Qed.

Lemma insert_by_name_hd (d x : string * Product) (l : list (string * Product)) :
  HdRel by_name_and_id x l -> by_name_and_id x d ->
  HdRel by_name_and_id x (insert_by_name d l).
Proof.
  intros H Hx. destruct l as [| d' l]; cbn.
  - constructor. exact Hx.
  - destruct (name_leb d d'); constructor; [exact Hx |].
    inversion H; assumption.
Qed.

Lemma insert_by_name_sorted (d : string * Product) (l : list (string * Product)) :
  Sorted by_name_and_id l -> Sorted by_name_and_id (insert_by_name d l).
Proof.
  induction 1 as [| d' l Hs IH Hd]; cbn.
  - repeat constructor.
  - destruct (name_leb d d') eqn:E.
    + constructor; [constructor; assumption | constructor; exact E].
    + constructor; [exact IH |].
      apply insert_by_name_hd; [exact Hd | apply name_leb_total, E].
Qed.

Lemma orderBy_name_sorted (l : list (string * Product)) :
  Sorted by_name_and_id (orderBy_name l).
Proof.
  induction l as [| d l IH]; cbn; [constructor | apply insert_by_name_sorted, IH].
Qed.

Lemma name_leb_names (a b : string * Product) :
  name_leb a b = true -> String.leb (name (snd a)) (name (snd b)) = true.
Proof.
  unfold name_leb, String.leb.
  destruct (String.compare (name (snd a)) (name (snd b)));
    [reflexivity | reflexivity | discriminate].
Qed.

Lemma sorted_map_read (now : Z) (l : list (string * Product)) :
  Sorted by_name_and_id l ->
  Sorted (fun p q => String.leb (name p) (name q) = true)
         (map (fun d => read now (fst d) (snd d)) l).
Proof.
  induction 1 as [| d l Hs IH Hd]; cbn; constructor; [exact IH |].
  destruct Hd as [| d' l' Hdd']; cbn; constructor.
  apply (name_leb_names d d' Hdd').
Qed.

End ProductProperties.

Section ProductLists.
Import Products.

(** [getProducts] returns every stored product once, as [getProductById]
    reads it, in the order of the names. *)
Theorem getProducts_sorted_permutation (now : Z) (c : Collection) :
  offline c = false ->
  Sorted (fun p q => String.leb (name p) (name q) = true) (getProducts now c)
  /\ Permutation (map (fun d => read now (fst d) (snd d)) (docs c))
                 (getProducts now c).
Proof.
  intros Hoff. unfold getProducts. rewrite Hoff. split.
  - apply sorted_map_read, orderBy_name_sorted.
  - apply Permutation_map, orderBy_name_perm.
Qed.

Lemma getProducts_sorted_permutation_witness :
  let p (n : string) :=
    {| id := None; name := n; description := ""; price := 1;
       sku := None; createdAt := Some 1%Z; updatedAt := Some 2%Z |} in
  let c := {| docs := [("k1", p "Hosting"); ("k2", p "Design"); ("k3", p "Audit")];
              offline := false |} in
  offline c = false
  /\ map name (getProducts 9 c) = ["Audit"; "Design"; "Hosting"]
  /\ Sorted (fun p q => String.leb (name p) (name q) = true) (getProducts 9 c).
Proof.
  cbv zeta. split; [reflexivity | split; [reflexivity |]].
  refine (proj1 (getProducts_sorted_permutation 9 _ _)). reflexivity.
Defined.

End ProductLists.

(** ** The item list of the invoice form *)

Section FormProperties.
Import Helpers InvoiceForm.

Lemma length_remove (index : nat) (fields : list InvoiceItem) :
  (index < List.length fields)%nat ->
  S (List.length (remove index fields)) = List.length fields.
Proof.
  revert index. induction fields as [| item rest IH]; intros index H; cbn in *.
  - lia.
  - destruct index as [| index]; cbn; [reflexivity |].
    f_equal. apply IH. lia.
Qed.

Lemma remove_out_of_range (index : nat) (fields : list InvoiceItem) :
  (List.length fields <= index)%nat -> remove index fields = fields.
Proof.
  revert index. induction fields as [| item rest IH]; intros index H; cbn in *.
  - destruct index; reflexivity.
  - destruct index as [| index]; [lia |]. cbn. f_equal. apply IH. lia.
Qed.

(** [removeItem] never empties the invoice: a form with items keeps at
    least one, whatever the index; it removes exactly one item when there
    are at least two and the index is in range, and nothing otherwise. *)
Theorem removeItem_keeps_an_item (index : nat) (fields : list InvoiceItem) :
  fields <> [] ->
  removeItem index fields <> []
  /\ ((1 < List.length fields)%nat /\ (index < List.length fields)%nat ->
      S (List.length (removeItem index fields)) = List.length fields)
  /\ ((List.length fields <= 1)%nat \/ (List.length fields <= index)%nat ->
      removeItem index fields = fields).
Proof.
  intros Hne. unfold removeItem.
  destruct (Nat.ltb_spec 1 (List.length fields)) as [Hlt | Hle].
  - split; [| split].
    + destruct (Nat.lt_ge_cases index (List.length fields)) as [Hi | Hi].
      * pose proof (length_remove index fields Hi) as L.
        intros E. rewrite E in L. cbn in L. lia.
      * rewrite remove_out_of_range by exact Hi. exact Hne.
    + intros [_ Hi]. apply length_remove, Hi.
    + intros [H | H]; [lia | apply remove_out_of_range, H].
  - split; [exact Hne | split; [lia | reflexivity]].
Qed.

Lemma removeItem_keeps_an_item_witness :
  let item := Lookups.emptyInvoiceItem "u1" in
  [item] <> []
  /\ removeItem 0 [item] = [item]
  /\ List.length (removeItem 1 [item; item; item]) = 2%nat.
Proof.
  cbv zeta. split; [discriminate |]. split.
  - refine (proj2 (proj2 (removeItem_keeps_an_item 0 _ _)) _);
      [discriminate | left; cbn; lia].
  - apply eq_add_S.
    refine (proj1 (proj2 (removeItem_keeps_an_item 1 _ _)) _);
      [discriminate | cbn; lia].
Defined.

Lemma SFmul_comm (x y : spec_float) : SFmul prec emax x y = SFmul prec emax y x.
Proof.
  destruct x as [sx | sx | | sx mx ex], y as [sy | sy | | sy my ey]; cbn;
    rewrite ?(xorb_comm sx sy), ?(Pos.mul_comm mx my), ?(Z.add_comm ex ey);
    reflexivity.
Qed.

(** Multiplication of numbers is commutative. *)
Lemma mul_comm (x y : float) : (x * y = y * x)%float.
Proof.
  apply Prim2SF_inj. rewrite !mul_spec. apply SFmul_comm.
Qed.

Lemma nth_error_update_same (index : nat) (value : InvoiceItem)
    (fields : list InvoiceItem) :
  (index < List.length fields)%nat ->
  nth_error (update index value fields) index = Some value.
Proof.
  revert index. induction fields as [| item rest IH]; intros index H; cbn in *.
  - lia.
  - destruct index as [| index]; cbn; [reflexivity | apply IH; lia].
Qed.

Lemma nth_error_update_other (index j : nat) (value : InvoiceItem)
    (fields : list InvoiceItem) :
  j <> index ->
  nth_error (update index value fields) j = nth_error fields j.
Proof.
  revert index j. induction fields as [| item rest IH]; intros index j H; cbn.
  - destruct index; reflexivity.
  - destruct index as [| index], j as [| j]; cbn; try reflexivity;
      [congruence | apply IH; congruence].
Qed.

Lemma length_update (index : nat) (value : InvoiceItem)
    (fields : list InvoiceItem) :
  List.length (update index value fields) = List.length fields.
Proof.
  revert index. induction fields as [| item rest IH]; intros index; cbn.
  - destruct index; reflexivity.
  - destruct index; cbn; [reflexivity | now rewrite IH].
Qed.

(** Picking a product for a line.  The line is written from the entry
    of the field array, not from the line of the form: it leaves with the
    key that [useFieldArray] generated as its [id] and with the quantity
    of the entry, and takes the name and the price of the product.  Its
    total is the one the totals effect computes ([quantity * price]), so
    the effect leaves the line as it is.  The other lines of the form are
    untouched.  An index without an entry makes the handler throw. *)
Theorem picked_product_line_is_up_to_date (index : nat)
    (product : Products.Product) (fields items : list InvoiceItem) :
  (forall field,
     nth_error fields index = Some field ->
     exists items',
       handleAddProduct index product fields items = Ok items'
       /\ List.length items' = List.length items
       /\ (forall j, j <> index -> nth_error items' j = nth_error items j)
       /\ ((index < List.length items)%nat ->
           exists picked,
             nth_error items' index = Some picked
             /\ id picked = id field
             /\ quantity picked = quantity field
             /\ description picked = Products.name product
             /\ price picked = Products.price product
             /\ total picked = (Products.price product * quantity field)%float
             /\ Pages.updateItem picked = picked))
  /\ (nth_error fields index = None ->
      handleAddProduct index product fields items = Throw "TypeError").
Proof.
  unfold handleAddProduct. split.
  - intros field H. rewrite H.
    eexists. split; [reflexivity |].
    split; [apply length_update |].
    split; [intros j Hj; apply nth_error_update_other, Hj |].
    intros Hi. eexists.
    split; [apply nth_error_update_same, Hi |].
    cbn [id quantity description price total].
    repeat split.
    unfold Pages.updateItem. cbn [id quantity description price total].
    now rewrite (mul_comm (quantity field)).
  - intros H. rewrite H. reflexivity.
Qed.

Lemma SFcompare_refl (x : spec_float) :
  x <> S754_nan -> SFcompare x x = Some Eq.
Proof.
  destruct x as [s | s | | s m e]; cbn; intros H.
  - reflexivity.
  - destruct s; reflexivity.
  - congruence.
  - rewrite Z.compare_refl.
    assert (C : Pos.compare_cont Eq m m = Eq) by apply Pos.compare_refl.
    rewrite C. destruct s; reflexivity.
Qed.

Lemma eqb_left_not_nan (x y : float) :
  (x =? y)%float = true -> PrimFloat.is_nan x = false.
Proof.
  unfold PrimFloat.is_nan. rewrite !eqb_spec. unfold SFeqb.
  intros H.
  rewrite SFcompare_refl; [reflexivity |].
  intros E. rewrite E in H. cbn in H. discriminate H.
Qed.

Lemma some_total_differs_map (items : list InvoiceItem) :
  some_total_differs (map Pages.updateItem items) items
  = existsb (fun item => strict_neq (quantity item * price item) (total item))
            items.
Proof.
  induction items as [| item rest IH]; cbn; [reflexivity | now rewrite IH].
Qed.

Lemma itemsNeedUpdate_updated (items : list InvoiceItem) :
  itemsNeedUpdate (map Pages.updateItem items)
  = existsb (fun item => PrimFloat.is_nan (quantity item * price item)) items.
Proof.
  unfold itemsNeedUpdate. rewrite some_total_differs_map.
  induction items as [| item rest IH]; cbn; [reflexivity |].
  now rewrite IH.
Qed.

(** The totals effect settles unless a product is [NaN]: after one run,
    a further run finds a line total to update exactly when some
    [quantity * price] is [NaN] (which [!==] never finds equal to
    itself); then every run updates the items again. *)
Theorem totals_effect_settles (watchedItems : list InvoiceItem) :
  itemsNeedUpdate (itemsAfterEffect watchedItems)
  = existsb (fun item => PrimFloat.is_nan (quantity item * price item))
            watchedItems.
Proof.
  unfold itemsAfterEffect.
  destruct watchedItems as [| item rest] eqn:E; [reflexivity |].
  rewrite <- E. clear E item rest.
  destruct (itemsNeedUpdate watchedItems) eqn:N.
  - apply itemsNeedUpdate_updated.
  - rewrite N. symmetry.
    unfold itemsNeedUpdate in N. rewrite some_total_differs_map in N.
    induction watchedItems as [| item rest IH]; cbn in *; [reflexivity |].
    apply orb_false_iff in N as [N1 N2].
    rewrite (IH N2), orb_false_r.
    unfold strict_neq in N1. apply negb_false_iff in N1.
    apply (eqb_left_not_nan _ _ N1).
Qed.

End FormProperties.

Section FormWitnesses.
Import Helpers InvoiceForm.

Lemma picked_product_line_is_up_to_date_witness :
  let entry := {| id := "rhf-key-0"; description := ""; quantity := 3;
                  price := 0; total := 0 |} in
  let line := {| id := "u1"; description := "Design"; quantity := 5;
                 price := 2; total := 10 |} in
  let product := {| Products.id := Some "p1"; Products.name := "Hosting";
                    Products.description := "per month"; Products.price := 0.1;
                    Products.sku := None; Products.createdAt := None;
                    Products.updatedAt := None |} in
  handleAddProduct 0 product [entry] [line]
  = Ok [ {| id := "rhf-key-0"; description := "Hosting"; quantity := 3;
            price := 0.1; total := 0.30000000000000004 |} ]
  /\ exists items' picked,
       handleAddProduct 0 product [entry] [line] = Ok items'
       /\ nth_error items' 0 = Some picked
       /\ id picked = "rhf-key-0"
       /\ Pages.updateItem picked = picked.
Proof.
  cbv zeta. split; [vm_compute; reflexivity |].
  destruct (proj1 (picked_product_line_is_up_to_date 0
                     {| Products.id := Some "p1"; Products.name := "Hosting";
                        Products.description := "per month";
                        Products.price := 0.1;
                        Products.sku := None; Products.createdAt := None;
                        Products.updatedAt := None |}
                     [ {| id := "rhf-key-0"; description := ""; quantity := 3;
                          price := 0; total := 0 |} ]
                     [ {| id := "u1"; description := "Design"; quantity := 5;
                          price := 2; total := 10 |} ]) _ eq_refl)
    as (items' & H1 & _ & _ & H2).
  destruct (H2 (Nat.lt_0_succ 0)) as (picked & P1 & P2 & _ & _ & _ & _ & P3).
  exists items', picked. repeat split; assumption.
Defined.

End FormWitnesses.

Section CleanData.
Import InvoiceForm.

Lemma blankOptional_defined (e : string * Value) :
  blankOptional e = true -> defined e = true.
Proof. destruct e as [key []]; cbn; congruence. Qed.

(** What [cleanDataForFirestore] returns can be written to Firestore: no
    value is [undefined]; the keys are those of the defined entries, in
    their order; no optional text field is left blank (it is [null]
    instead); every other defined entry is kept as it is. *)
Theorem cleaned_data_is_compatible (data : Object) :
  Forall (fun e => defined e = true) (cleanDataForFirestore data)
  /\ map fst (cleanDataForFirestore data) = map fst (filter defined data)
  /\ Forall (fun e => blankOptional e = false) (cleanDataForFirestore data)
  /\ (forall e,
        In e data -> defined e = true -> blankOptional e = false ->
        In e (cleanDataForFirestore data))
  /\ (forall e,
        In e data -> blankOptional e = true ->
        In (fst e, Null) (cleanDataForFirestore data)).
Proof.
  induction data as [| [key value] rest (IH1 & IH2 & IH3 & IH4 & IH5)].
  - cbn. repeat split; try constructor; intros e [].
  - destruct value as [| | s | tag]; cbn [cleanDataForFirestore].
    + (* undefined *)
      cbn [filter defined snd]. repeat split; try assumption.
      * intros e [<- | H] D B; [discriminate D | apply IH4; assumption].
      * intros e [<- | H] B; [discriminate B | apply IH5; assumption].
    + (* null *)
      cbn [filter defined snd map fst]. repeat split.
      * constructor; [reflexivity | assumption].
      * f_equal. exact IH2.
      * constructor; [reflexivity | assumption].
      * intros e [<- | H] D B; [left; reflexivity | right; apply IH4; assumption].
      * intros e [<- | H] B; [discriminate B | right; apply IH5; assumption].
    + (* a string *)
      destruct (blank s && includes optionalTextFields key)%bool eqn:C;
        cbn [filter defined snd map fst]; repeat split.
      * constructor; [reflexivity | assumption].
      * f_equal. exact IH2.
      * constructor; [reflexivity | assumption].
      * intros e [<- | H] D B;
          [unfold blankOptional in B; cbn [snd fst] in B; congruence
          | right; apply IH4; assumption].
      * intros e [<- | H] B; [left; reflexivity | right; apply IH5; assumption].
      * constructor; [reflexivity | assumption].
      * f_equal. exact IH2.
      * constructor; [exact C | assumption].
      * intros e [<- | H] D B; [left; reflexivity | right; apply IH4; assumption].
      * intros e [<- | H] B;
          [unfold blankOptional in B; cbn [snd fst] in B; congruence
          | right; apply IH5; assumption].
    + (* another value *)
      cbn [filter defined snd map fst]. repeat split.
      * constructor; [reflexivity | assumption].
      * f_equal. exact IH2.
      * constructor; [reflexivity | assumption].
      * intros e [<- | H] D B; [left; reflexivity | right; apply IH4; assumption].
      * intros e [<- | H] B; [discriminate B | right; apply IH5; assumption].
Qed.

Lemma cleaned_data_is_compatible_witness :
  let data := [ ("clientName", Str "Bob"); ("notes", Str "  ");
                ("terms", Undefined); ("clientName2", Str " ");
                ("taxRate", Other 0) ] in
  In ("notes", Str "  ") data
  /\ blankOptional ("notes", Str "  ") = true
  /\ In ("notes", Null) (cleanDataForFirestore data)
  /\ cleanDataForFirestore data
     = [ ("clientName", Str "Bob"); ("notes", Null);
         ("clientName2", Str " "); ("taxRate", Other 0) ].
Proof.
  cbv zeta.
  assert (H1 : In ("notes", Str "  ")
                 [ ("clientName", Str "Bob"); ("notes", Str "  ");
                   ("terms", Undefined); ("clientName2", Str " ");
                   ("taxRate", Other 0) ])
    by (right; left; reflexivity).
  split; [exact H1 |]. split; [reflexivity |]. split; [| reflexivity].
  apply (proj2 (proj2 (proj2 (proj2 (cleaned_data_is_compatible _))))
           ("notes", Str "  ") H1 eq_refl).
Defined.

(** Cleaning is idempotent: cleaned data is not changed by cleaning it
    again. *)
Theorem cleanDataForFirestore_idempotent (data : Object) :
  cleanDataForFirestore (cleanDataForFirestore data) = cleanDataForFirestore data.
Proof.
  induction data as [| [key value] rest IH]; [reflexivity |].
  destruct value as [| | s | tag]; cbn [cleanDataForFirestore].
  - exact IH.
  - now rewrite IH.
  - destruct (blank s && includes optionalTextFields key)%bool eqn:C;
      cbn [cleanDataForFirestore]; rewrite ?C, IH; reflexivity.
  - now rewrite IH.
Qed.

End CleanData.

(** ** The invoice list *)

Section InvoiceListProperties.
Import InvoicesPage.

(** The filtered list holds exactly the invoices that pass both filters:
    when a search is typed, the number or the client name contains the
    lower-cased query; when a status is chosen, the invoice has it.
    An invoice without number and client name matches no search. *)
Theorem filterInvoices_sound_complete (toLowerCase : string -> string)
    (searchQuery statusFilter : string) (invoices : list Invoice)
    (invoice : Invoice) :
  In invoice (filterInvoices toLowerCase searchQuery statusFilter invoices)
  <-> In invoice invoices
      /\ (searchQuery <> "" ->
          matches toLowerCase (invoiceNumber invoice) (toLowerCase searchQuery)
          || matches toLowerCase (clientName invoice) (toLowerCase searchQuery)
          = true)
      /\ (statusFilter <> "all" -> status invoice = statusFilter).
Proof.
  unfold filterInvoices.
  assert (T : JS.truthy_str searchQuery = true <-> searchQuery <> "")
    by (destruct searchQuery; cbn; split; congruence).
  destruct (String.eqb_spec statusFilter "all") as [Ha | Ha]; cbn [negb];
    rewrite ?filter_In;
    destruct (JS.truthy_str searchQuery) eqn:Q; rewrite ?filter_In.
  - split.
    + intros [H M]. split; [exact H | split; [intros _; exact M | congruence]].
    + intros (H & M & _). split; [exact H | apply M, T; reflexivity].
  - split.
    + intros H. split; [exact H | split; [| congruence]].
      intros N. apply T in N. discriminate N.
    + tauto.
  - split.
    + intros [[H M] S]. apply String.eqb_eq in S. tauto.
    + intros (H & M & S). split; [split; [exact H | apply M, T; reflexivity] |].
      apply String.eqb_eq, S, Ha.
  - split.
    + intros [H S]. apply String.eqb_eq in S.
      split; [exact H | split; [| tauto]].
      intros N. apply T in N. discriminate N.
    + intros (H & _ & S). split; [exact H | apply String.eqb_eq, S, Ha].
Qed.

(** Marking an invoice as paid changes the status of the invoices with
    that identifier to ["paid"] and nothing else: the list keeps its
    length and order, numbers and client names, and the invoices with
    another identifier are unchanged. *)
Theorem afterMarkAsPaid_changes_status_only (docId : string)
    (prevInvoices : list Invoice) :
  map id (afterMarkAsPaid docId prevInvoices) = map id prevInvoices
  /\ map invoiceNumber (afterMarkAsPaid docId prevInvoices)
     = map invoiceNumber prevInvoices
  /\ map clientName (afterMarkAsPaid docId prevInvoices)
     = map clientName prevInvoices
  /\ map status (afterMarkAsPaid docId prevInvoices)
     = map (fun invoice =>
              if (id invoice =? docId)%string then "paid" else status invoice)
           prevInvoices
  /\ afterMarkAsPaid docId (afterMarkAsPaid docId prevInvoices)
     = afterMarkAsPaid docId prevInvoices.
Proof.
  unfold afterMarkAsPaid.
  induction prevInvoices as [| invoice rest (I1 & I2 & I3 & I4 & I5)]; cbn.
  - repeat split.
  - destruct (id invoice =? docId)%string eqn:E; cbn; rewrite ?E;
      repeat split; f_equal; assumption.
Qed.

End InvoiceListProperties.

(** ** More on the layout *)

Section DrawingProperties.
Import Pdf Drawings.

Lemma adds_ret {A : Type} (P : Call -> Prop) (a : A) : adds P (ret a : Doc A).
Proof. intros st. exists []. split; [cbn; now rewrite app_nil_r | constructor]. Qed.

Lemma adds_call (P : Call -> Prop) (c : Call) : P c -> adds P (call c).
Proof.
  intros H st. exists [c]. split; [reflexivity | repeat constructor; exact H].
Qed.

Lemma adds_bind {A B : Type} (P : Call -> Prop) (m : Doc A) (k : A -> Doc B) :
  adds P m -> (forall a, adds P (k a)) -> adds P (bind m k).
Proof.
  intros Hm Hk st. rewrite execState_bind.
  destruct (Hm st) as (a1 & E1 & F1).
  destruct (Hk (evalState m st) (execState m st)) as (a2 & E2 & F2).
  exists (a1 ++ a2)%list. split.
  - rewrite E2, E1, app_assoc. reflexivity.
  - apply Forall_app. split; assumption.
Qed.

Lemma adds_getY (P : Call -> Prop) : adds P getY.
Proof. intros st. exists []. split; [cbn; now rewrite app_nil_r | constructor]. Qed.

Lemma adds_gets_last (P : Call -> Prop) : adds P (gets lastAutoTable : Doc _).
Proof. intros st. exists []. split; [cbn; now rewrite app_nil_r | constructor]. Qed.

Lemma adds_setY (P : Call -> Prop) (y : float) : adds P (setY y).
Proof. intros st. exists []. split; [cbn; now rewrite app_nil_r | constructor]. Qed.

Lemma adds_advance (P : Call -> Prop) (d : float) : adds P (advance d).
Proof. intros st. exists []. split; [cbn; now rewrite app_nil_r | constructor]. Qed.

Lemma adds_setLastAutoTable (P : Call -> Prop) (y : float) :
  adds P (setLastAutoTable y).
Proof. intros st. exists []. split; [cbn; now rewrite app_nil_r | constructor]. Qed.

Lemma adds_whenPresent (P : Call -> Prop) (o : option string)
    (k : string -> Doc unit) :
  (forall v, adds P (k v)) -> adds P (whenPresent o k).
Proof.
  intros H. unfold whenPresent. destruct o as [v |]; [| apply adds_ret].
  destruct (JS.truthy_str v); [apply H | apply adds_ret].
Qed.

(** One step of a block, chosen by the shape of the computation. *)
Ltac adds_step HP :=
  lazymatch goal with
  | |- adds _ (call _) => apply adds_call; apply HP; reflexivity
  | |- adds _ (whenPresent _ _) => apply adds_whenPresent; intros ?
  | |- adds _ getY => apply adds_getY
  | |- adds _ (setY _) => apply adds_setY
  | |- adds _ (advance _) => apply adds_advance
  | |- adds _ (setLastAutoTable _) => apply adds_setLastAutoTable
  | |- adds _ (gets lastAutoTable) => apply adds_gets_last
  | |- adds _ (ret _) => apply adds_ret
  | |- adds _ (bind _ _) => apply adds_bind; [| intros ?]
  end.

Lemma header_adds (P : Call -> Prop) (host : Host) (settings : option Settings) :
  (forall c, isSave c = false -> isAutoTable c = false -> P c) ->
  adds P (header host settings).
Proof.
  intros HP. unfold header.
  destruct (field settings logoUrl) as [[| c url] |];
    [| destruct (addImage_throws host (String c url)) |];
    repeat adds_step HP.
Qed.

Lemma companyDetails_adds (P : Call -> Prop) (host : Host)
    (settings : option Settings) :
  (forall c, isSave c = false -> isAutoTable c = false -> P c) ->
  adds P (companyDetails host settings).
Proof.
  intros HP. unfold companyDetails.
  repeat adds_step HP.
Qed.

Lemma invoiceDetails_adds (P : Call -> Prop) (host : Host) (invoice : Invoice)
    (settings : option Settings) :
  (forall c, isSave c = false -> isAutoTable c = false -> P c) ->
  adds P (invoiceDetails host invoice settings).
Proof.
  intros HP. unfold invoiceDetails.
  repeat adds_step HP.
Qed.

Lemma clientInformation_adds (P : Call -> Prop) (host : Host) (invoice : Invoice)
    (settings : option Settings) :
  (forall c, isSave c = false -> isAutoTable c = false -> P c) ->
  adds P (clientInformation host invoice settings).
Proof.
  intros HP. unfold clientInformation.
  repeat adds_step HP.
Qed.

Lemma summary_adds (P : Call -> Prop) (host : Host) (invoice : Invoice)
    (settings : option Settings) :
  (forall c, isSave c = false -> isAutoTable c = false -> P c) ->
  adds P (summary host invoice settings).
Proof.
  intros HP. unfold summary.
  repeat adds_step HP.
Qed.

Lemma notesBlock_adds (P : Call -> Prop) (host : Host) (invoice : Invoice)
    (settings : option Settings) :
  (forall c, isSave c = false -> isAutoTable c = false -> P c) ->
  adds P (notesBlock host invoice settings).
Proof.
  intros HP. unfold notesBlock.
  repeat adds_step HP.
Qed.

Lemma termsBlock_adds (P : Call -> Prop) (host : Host)
    (settings : option Settings) :
  (forall c, isSave c = false -> isAutoTable c = false -> P c) ->
  adds P (termsBlock host settings).
Proof.
  intros HP. unfold termsBlock.
  repeat adds_step HP.
Qed.

(** The table block adds no save; it adds no table either when the
    plug-in throws. *)
Lemma itemsTable_adds (P : Call -> Prop) (host : Host) (invoice : Invoice)
    (settings : option Settings) :
  (forall c, isSave c = false -> isAutoTable c = false -> P c) ->
  (forall y finalY,
     autoTable_finalY host (tableOptions invoice settings y) = Ok finalY ->
     P (autoTable (tableOptions invoice settings y))) ->
  adds P (itemsTable host invoice settings).
Proof.
  intros HP HT. unfold itemsTable.
  apply adds_bind; [apply adds_getY | intros y].
  apply adds_bind.
  - destruct (autoTable_finalY host (tableOptions invoice settings y))
      as [finalY | e] eqn:E.
    + apply adds_bind; [apply adds_call, (HT y finalY E) | intros ?].
      apply adds_setLastAutoTable.
    + repeat adds_step HP.
  - intros ?. repeat adds_step HP.
Qed.

(** The state after the table block. *)
Lemma itemsTable_run (host : Host) (invoice : Invoice)
    (settings : option Settings) (st : DocState) :
  execState (itemsTable host invoice settings) st
  = match autoTable_finalY host (tableOptions invoice settings (yPos st)) with
    | Ok finalY =>
        {| yPos := JS.or_else (finalY + 10)%float (yPos st + 50)%float;
           lastAutoTable := Some finalY;
           calls := (calls st
                     ++ [autoTable (tableOptions invoice settings (yPos st))])%list |}
    | Throw _ =>
        {| yPos :=
             JS.or_else
               (match lastAutoTable st with
                | Some finalY => finalY + 10
                | None => nan
                end)%float
               (yPos st + 10 + 20 + 50)%float;
           lastAutoTable := lastAutoTable st;
           calls :=
             (calls st
              ++ [text "Error generating table. Please check console for details."
                       margin (yPos st + 10)%float noOptions])%list |}
    end.
Proof.
  unfold itemsTable. destruct st as [y last cs].
  cbn [yPos lastAutoTable calls].
  rewrite execState_bind.
  change (evalState getY {| yPos := y; lastAutoTable := last; calls := cs |})
    with y.
  change (execState getY {| yPos := y; lastAutoTable := last; calls := cs |})
    with {| yPos := y; lastAutoTable := last; calls := cs |}.
  destruct (autoTable_finalY host (tableOptions invoice settings y));
    reflexivity.
Qed.

Lemma layout_adds (P : Call -> Prop) (host : Host) (invoice : Invoice)
    (settings : option Settings) :
  (forall c, isSave c = false -> isAutoTable c = false -> P c) ->
  (forall y finalY,
     autoTable_finalY host (tableOptions invoice settings y) = Ok finalY ->
     P (autoTable (tableOptions invoice settings y))) ->
  adds P (layout host invoice settings).
Proof.
  intros HP HT. unfold layout.
  apply adds_bind; [apply header_adds, HP | intros ?].
  apply adds_bind; [apply companyDetails_adds, HP | intros ?].
  apply adds_bind; [apply invoiceDetails_adds, HP | intros ?].
  apply adds_bind; [apply clientInformation_adds, HP | intros ?].
  apply adds_bind; [apply itemsTable_adds; assumption | intros ?].
  apply adds_bind; [apply summary_adds, HP | intros ?].
  apply adds_bind; [apply notesBlock_adds, HP | intros ?].
  apply termsBlock_adds, HP.
Qed.

(** The document is saved once, at the very end: every drawing is a
    sequence of calls none of which is a save, followed by the save under
    the name [Invoice-<number>-<AR or EN>.pdf], where the marker is [AR]
    exactly when the language of the settings is ["ar"]. *)
Theorem drawing_is_saved_once_at_the_end (host : Host) (now : Z)
    (invoice : Invoice) (settings : option Settings) :
  exists before,
    drawing host now invoice settings
    = (before
       ++ [ save ("Invoice-" ++ invoiceNumber invoice ++ "-"
                  ++ (if match field settings language with
                          | Some l => (l =? "ar")%string
                          | None => false
                          end
                      then "AR" else "EN") ++ ".pdf") ])%list
    /\ Forall (fun c => isSave c = false) before.
Proof.
  rewrite drawing_layout_footer.
  destruct (layout_adds (fun c => isSave c = false) host invoice settings
              (fun c H _ => H) (fun _ _ _ => eq_refl) newDocument)
    as (added & E & F).
  rewrite E. cbn [calls newDocument app].
  eexists. split.
  - change (?a ++ [?x; ?y; ?z])%list with (a ++ [x; y] ++ [z])%list.
    rewrite app_assoc. reflexivity.
  - apply Forall_app. split; [exact F | repeat constructor].
Qed.

(** *** The cursor and [doc.lastAutoTable] *)

Lemma keeps_ret {A : Type} (a : A) : keepsLastAutoTable (ret a : Doc A).
Proof. intros st. reflexivity. Qed.

Lemma keeps_call (c : Call) : keepsLastAutoTable (call c).
Proof. intros st. reflexivity. Qed.

Lemma keeps_getY : keepsLastAutoTable getY.
Proof. intros st. reflexivity. Qed.

Lemma keeps_setY (y : float) : keepsLastAutoTable (setY y).
Proof. intros st. reflexivity. Qed.

Lemma keeps_advance (d : float) : keepsLastAutoTable (advance d).
Proof. intros st. reflexivity. Qed.

Lemma keeps_bind {A B : Type} (m : Doc A) (k : A -> Doc B) :
  keepsLastAutoTable m -> (forall a, keepsLastAutoTable (k a)) ->
  keepsLastAutoTable (bind m k).
Proof.
  intros Hm Hk st. rewrite execState_bind, Hk, Hm. reflexivity.
Qed.

Lemma keeps_whenPresent (o : option string) (k : string -> Doc unit) :
  (forall v, keepsLastAutoTable (k v)) -> keepsLastAutoTable (whenPresent o k).
Proof.
  intros H. unfold whenPresent. destruct o as [v |]; [| apply keeps_ret].
  destruct (JS.truthy_str v); [apply H | apply keeps_ret].
Qed.

Ltac keeps_step :=
  lazymatch goal with
  | |- keepsLastAutoTable (call _) => apply keeps_call
  | |- keepsLastAutoTable (whenPresent _ _) => apply keeps_whenPresent; intros ?
  | |- keepsLastAutoTable getY => apply keeps_getY
  | |- keepsLastAutoTable (setY _) => apply keeps_setY
  | |- keepsLastAutoTable (advance _) => apply keeps_advance
  | |- keepsLastAutoTable (ret _) => apply keeps_ret
  | |- keepsLastAutoTable (bind _ _) => apply keeps_bind; [| intros ?]
  end.

(** No table has been drawn when the table block starts. *)
Lemma no_table_before_the_table (host : Host) (invoice : Invoice)
    (settings : option Settings) :
  lastAutoTable
    (execState (clientInformation host invoice settings)
       (execState (invoiceDetails host invoice settings)
          (execState (companyDetails host settings)
             (execState (header host settings) newDocument))))
  = None.
Proof.
  assert (H1 : keepsLastAutoTable (header host settings)).
  { unfold header.
    destruct (field settings logoUrl) as [[| c url] |];
      [| destruct (addImage_throws host (String c url)) |];
      repeat keeps_step. }
  assert (H2 : keepsLastAutoTable (companyDetails host settings))
    by (unfold companyDetails; repeat keeps_step).
  assert (H3 : keepsLastAutoTable (invoiceDetails host invoice settings))
    by (unfold invoiceDetails; repeat keeps_step).
  assert (H4 : keepsLastAutoTable (clientInformation host invoice settings))
    by (unfold clientInformation; repeat keeps_step).
  rewrite H4, H3, H2, H1. reflexivity.
Qed.

(** Calls are only ever appended. *)
Lemma adds_keeps (P : Call -> Prop) (c : Call) {A : Type} (m : Doc A)
    (st : DocState) :
  adds P m -> In c (calls st) -> In c (calls (execState m st)).
Proof.
  intros Hm Hin. destruct (Hm st) as (added & E & _).
  rewrite E. apply in_or_app. left. exact Hin.
Qed.

Lemma adds_Forall (P : Call -> Prop) {A : Type} (m : Doc A) (st : DocState) :
  adds P m -> Forall P (calls st) -> Forall P (calls (execState m st)).
Proof.
  intros Hm H. destruct (Hm st) as (added & E & F).
  rewrite E. apply Forall_app. split; assumption.
Qed.

(** The summary draws its box at the cursor. *)
Lemma summary_box (host : Host) (invoice : Invoice)
    (settings : option Settings) (st : DocState) :
  In (summaryBox host settings (yPos st))
     (calls (execState (summary host invoice settings) st)).
Proof.
  unfold summary. rewrite execState_bind. cbv beta.
  set (st1 := execState (call (setFillColor 240 240 240)) st).
  assert (Y : yPos st1 = yPos st) by reflexivity.
  rewrite <- Y. clearbody st1. clear Y.
  rewrite execState_bind.
  change (evalState getY st1) with (yPos st1).
  change (execState getY st1) with st1.
  rewrite execState_bind.
  assert (HP : forall c : Call,
              isSave c = false -> isAutoTable c = false -> isSave c = false)
    by auto.
  apply (adds_keeps (fun c => isSave c = false)).
  - repeat adds_step HP.
  - cbn [call]. apply in_or_app. right. left. reflexivity.
Qed.

(** Where the table ends decides where the summary starts.  The table is
    attempted at some height [y], below the client block.  When the plug-in
    succeeds, the drawing holds the table, and the box of the summary at
    [finalY + 10], or at [y + 50] when that is [0] or [NaN].  When the
    plug-in throws, the document is still produced: it holds no table, the
    line ["Error generating table. Please check console for details."] at
    [y + 10] instead, and the box of the summary 70 below it. *)
Theorem table_outcome_places_summary (host : Host) (now : Z)
    (invoice : Invoice) (settings : option Settings) :
  exists y,
    match autoTable_finalY host (tableOptions invoice settings y) with
    | Ok finalY =>
        In (autoTable (tableOptions invoice settings y))
           (drawing host now invoice settings)
        /\ In (summaryBox host settings
                 (JS.or_else (finalY + 10)%float (y + 50)%float))
              (drawing host now invoice settings)
    | Throw _ =>
        Forall (fun c => isAutoTable c = false)
               (drawing host now invoice settings)
        /\ In (tableError (y + 10)%float) (drawing host now invoice settings)
        /\ In (summaryBox host settings (y + 10 + 20 + 50)%float)
              (drawing host now invoice settings)
    end.
Proof.
  pose proof (no_table_before_the_table host invoice settings) as L.
  pose proof (drawing_layout_footer host now invoice settings) as D.
  unfold layout in D. repeat rewrite execState_bind in D. cbv beta in D.
  assert (B : Forall (fun c => isAutoTable c = false)
                (calls
                   (execState (clientInformation host invoice settings)
                      (execState (invoiceDetails host invoice settings)
                         (execState (companyDetails host settings)
                            (execState (header host settings) newDocument)))))).
  { apply adds_Forall; [apply clientInformation_adds; auto |].
    apply adds_Forall; [apply invoiceDetails_adds; auto |].
    apply adds_Forall; [apply companyDetails_adds; auto |].
    apply adds_Forall; [apply header_adds; auto | constructor]. }
  revert L B D.
  generalize (execState (clientInformation host invoice settings)
                (execState (invoiceDetails host invoice settings)
                   (execState (companyDetails host settings)
                      (execState (header host settings) newDocument)))).
  intros st4 L B D.
  assert (A : forall c,
             In c (calls (execState (summary host invoice settings)
                            (execState (itemsTable host invoice settings) st4)))
             -> In c (drawing host now invoice settings)).
  { intros c H. rewrite D. apply in_or_app. left.
    apply (adds_keeps (fun _ => True)); [apply termsBlock_adds; auto |].
    apply (adds_keeps (fun _ => True)); [apply notesBlock_adds; auto |]. exact H. }
  assert (S : forall st c,
             In c (calls st) ->
             In c (calls (execState (summary host invoice settings) st))).
  { intros st c H. apply (adds_keeps (fun _ => True)); [apply summary_adds; auto | exact H]. }
  exists (yPos st4).
  pose proof (itemsTable_run host invoice settings st4) as R.
  destruct (autoTable_finalY host (tableOptions invoice settings (yPos st4)))
    as [finalY | e].
  - split.
    + apply A, S. rewrite R. cbn [calls].
      apply in_or_app. right. left. reflexivity.
    + apply A.
      replace (JS.or_else (finalY + 10) (yPos st4 + 50))%float
        with (yPos (execState (itemsTable host invoice settings) st4))
        by (rewrite R; reflexivity).
      apply summary_box.
  - split; [| split].
    + rewrite D. apply Forall_app. split; [| repeat constructor].
      apply adds_Forall; [apply termsBlock_adds; auto |].
      apply adds_Forall; [apply notesBlock_adds; auto |].
      apply adds_Forall; [apply summary_adds; auto |].
      rewrite R. cbn [calls]. apply Forall_app. split; [exact B |].
      repeat constructor.
    + apply A, S. rewrite R. cbn [calls].
      apply in_or_app. right. left. reflexivity.
    + apply A.
      replace (yPos st4 + 10 + 20 + 50)%float
        with (yPos (execState (itemsTable host invoice settings) st4))
        by (rewrite R, L; reflexivity).
      apply summary_box.
Qed.

(** *** The company block *)

Lemma whenPresent_falsy (o : option string) (k : string -> Doc unit) :
  JS.truthy_opt o = false -> whenPresent o k = ret tt.
Proof.
  destruct o as [[| c s] |]; cbn; intros H; [reflexivity | discriminate H |
                                             reflexivity].
Qed.

Lemma whenPresent_truthy (o : option string) (k : string -> Doc unit) :
  JS.truthy_opt o = true -> exists v, whenPresent o k = k v.
Proof.
  destruct o as [[| c s] |]; cbn; intros H; try discriminate H.
  eexists. reflexivity.
Qed.

(** The company block leaves no gap for a missing detail: below the font
    size it draws one line of text for each of the address, the e-mail
    address, the phone number, the website and the tax number that is
    present, at the heights [y], [y + 5], [y + 5 + 5], ... from the
    cursor [y], and it leaves the cursor 10 below the last line. *)
Theorem company_details_leave_no_gap (host : Host)
    (settings : option Settings) (st : DocState) :
  exists lines,
    calls (execState (companyDetails host settings) st)
    = (calls st ++ setFontSize 10 :: lines)%list
    /\ map textY lines
       = map (fun i => Some (advanced i (yPos st)))
             (seq 0 (present (contactFields settings)))
    /\ yPos (execState (companyDetails host settings) st)
       = (advanced (present (contactFields settings)) (yPos st) + 10)%float.
Proof.
  unfold companyDetails, contactFields, present.
  cbn [filter].
  destruct st as [y last cs].
  destruct (JS.truthy_opt (field settings address)) eqn:E1;
    [destruct (whenPresent_truthy _
                 (fun v : string =>
                    y0 <- getY ;;
                    call (text v (bodyX host settings) y0
                               (aligned (textAlign settings))) ;;
                    advance 5) E1) as [v1 ->]
    | rewrite (whenPresent_falsy _ _ E1)];
  (destruct (JS.truthy_opt (field settings email)) eqn:E2;
    [destruct (whenPresent_truthy _
                 (fun v : string =>
                    y0 <- getY ;;
                    call (text ((if isArabic settings
                                 then "البريد الإلكتروني: " else "Email: ") ++ v)
                               (bodyX host settings) y0
                               (aligned (textAlign settings))) ;;
                    advance 5) E2) as [v2 ->]
    | rewrite (whenPresent_falsy _ _ E2)]);
  (destruct (JS.truthy_opt (field settings phone)) eqn:E3;
    [destruct (whenPresent_truthy _
                 (fun v : string =>
                    y0 <- getY ;;
                    call (text ((if isArabic settings
                                 then "الهاتف: " else "Phone: ") ++ v)
                               (bodyX host settings) y0
                               (aligned (textAlign settings))) ;;
                    advance 5) E3) as [v3 ->]
    | rewrite (whenPresent_falsy _ _ E3)]);
  (destruct (JS.truthy_opt (field settings website)) eqn:E4;
    [destruct (whenPresent_truthy _
                 (fun v : string =>
                    y0 <- getY ;;
                    call (text ((if isArabic settings
                                 then "الموقع الإلكتروني: " else "Website: ") ++ v)
                               (bodyX host settings) y0
                               (aligned (textAlign settings))) ;;
                    advance 5) E4) as [v4 ->]
    | rewrite (whenPresent_falsy _ _ E4)]);
  (destruct (JS.truthy_opt (field settings taxNumber)) eqn:E5;
    [destruct (whenPresent_truthy _
                 (fun v : string =>
                    y0 <- getY ;;
                    call (text ((if isArabic settings
                                 then "الرقم الضريبي: " else "Tax Number: ") ++ v)
                               (bodyX host settings) y0
                               (aligned (textAlign settings))) ;;
                    advance 5) E5) as [v5 ->]
    | rewrite (whenPresent_falsy _ _ E5)]);
  (cbn; rewrite <- ?app_assoc; cbn [app];
   eexists; split; [reflexivity | split; reflexivity]).
Qed.

End DrawingProperties.

(** ** The sequence of invoice numbers *)

Section NumberingProperties.
Import Firestore Helpers Numbering.

(** The number at the head of a list of invoices. *)
Lemma head_insert_desc (d : InvoiceData) (l : list InvoiceData) :
  option_map invoiceNumber (hd_error (insert_desc d l))
  = Some (match option_map invoiceNumber (hd_error l) with
          | Some h => if String.leb h (invoiceNumber d)
                      then invoiceNumber d else h
          | None => invoiceNumber d
          end).
Proof.
  destruct l as [| d' l']; cbn; [reflexivity |].
  destruct (String.leb (invoiceNumber d') (invoiceNumber d)); reflexivity.
Qed.

(** The greater of two numbers, the way [insert_desc] chooses it. *)
Lemma greater_assoc (a d m : string) :
  (if String.leb (if String.leb m d then d else m) a
   then a else if String.leb m d then d else m)
  = (if String.leb (if String.leb m a then a else m) d
     then d else if String.leb m a then a else m).
Proof.
  destruct (String.leb m d) eqn:Emd, (String.leb m a) eqn:Ema;
    destruct (String.leb d a) eqn:Eda, (String.leb a d) eqn:Ead;
    rewrite ?Emd, ?Ema, ?Eda, ?Ead; try reflexivity;
    try (apply String.leb_antisym; assumption);
    try (symmetry; apply String.leb_antisym; assumption).
  all: try (destruct (String.leb_total d a); congruence).
  all: try (pose proof (string_leb_trans _ _ _ Emd Eda); congruence).
  all: try (pose proof (string_leb_trans _ _ _ Ema Ead); congruence).
  all: try (destruct (String.leb_total m d); destruct (String.leb_total m a);
            try congruence).
Qed.

(** The highest number after one more invoice has been added. *)
Lemma head_orderBy_app (l : list InvoiceData) (d : InvoiceData) :
  option_map invoiceNumber
    (hd_error (orderBy_invoiceNumber_desc (l ++ [d])))
  = Some (match option_map invoiceNumber
                  (hd_error (orderBy_invoiceNumber_desc l)) with
          | Some m => if String.leb m (invoiceNumber d)
                      then invoiceNumber d else m
          | None => invoiceNumber d
          end).
Proof.
  unfold orderBy_invoiceNumber_desc.
  induction l as [| a l IH]; cbn [app fold_right]; [reflexivity |].
  rewrite !head_insert_desc, IH.
  destruct (option_map invoiceNumber (hd_error (fold_right insert_desc [] l)))
    as [m |]; f_equal.
  - apply greater_assoc.
  - destruct (String.leb (invoiceNumber d) (invoiceNumber a)) eqn:E1,
             (String.leb (invoiceNumber a) (invoiceNumber d)) eqn:E2;
      try reflexivity.
    + apply String.leb_antisym; assumption.
    + destruct (String.leb_total (invoiceNumber d) (invoiceNumber a));
        congruence.
Qed.

Lemma highest_head (db : Db) :
  highest db
  = option_map invoiceNumber
      (hd_error (orderBy_invoiceNumber_desc (invoices db))).
Proof.
  unfold highest.
  destruct (orderBy_invoiceNumber_desc (invoices db)); reflexivity.
Qed.

Lemma highest_onSubmit (db : Db) (number m : string) :
  unreachable db invoicesCollection = false ->
  highest db = Some m ->
  highest (Pages.onSubmit true {| invoiceNumber := number |} db)
  = Some (if String.leb m number then number else m).
Proof.
  intros Hi Hm. rewrite highest_head in *.
  unfold Pages.onSubmit, addDoc_invoice. rewrite Hi. cbn [invoices].
  rewrite head_orderBy_app, Hm. reflexivity.
Qed.

(** Without a stored counter, the allocator reads the highest number
    only. *)
Lemma scan_reads_highest (db : Db) (number : string) :
  unreachable db settingsCollection = false ->
  unreachable db invoicesCollection = false ->
  stored_counter (settings db) = None ->
  highest db = Some number ->
  getNextInvoiceNumber db = getNextInvoiceNumber (single number).
Proof.
  intros Hs Hi Hc Hh.
  unfold getNextInvoiceNumber, getNextInvoiceNumber_try, getDocs_settings.
  rewrite Hs. cbn [single settings unreachable reachable bind Monad_result
                     bind_result stored_counter].
  rewrite Hc.
  unfold getDocs_last_invoice. rewrite Hi.
  unfold highest in Hh.
  destruct (orderBy_invoiceNumber_desc (invoices db)) as [| d l];
    [discriminate |].
  injection Hh as Hh. cbn. rewrite Hh. reflexivity.
Qed.

(** What the allocator proposes after a single invoice. *)
Lemma scan_of_single (number : string) :
  getNextInvoiceNumber (single number)
  = if (JS.truthy_str number && JS.startsWith number "INV-")%bool then
      if negb (PrimFloat.is_nan (JS.parseInt (JS.replace number "INV-" "")))
      then format_number (JS.parseInt (JS.replace number "INV-" "") + 1)%float
      else "INV-0001"
    else "INV-0001".
Proof.
  unfold getNextInvoiceNumber, getNextInvoiceNumber_try, getDocs_settings,
    getDocs_last_invoice, single.
  cbn [settings invoices unreachable reachable stored_counter bind
       Monad_result bind_result orderBy_invoiceNumber_desc fold_right
       insert_desc firstn invoiceNumber].
  destruct (JS.truthy_str number && JS.startsWith number "INV-")%bool;
    [| reflexivity].
  destruct (negb (PrimFloat.is_nan (JS.parseInt (JS.replace number "INV-" ""))));
    reflexivity.
Qed.

Lemma continues_below_9999 : forallb continues (below 9999) = true.
Proof. vm_compute. reflexivity. Qed.

(** Without a stored counter the allocator continues the sequence: when
    the highest identifier of the collection is the one with the number
    [n], below 9999, it proposes the identifier with the number [n + 1]. *)
Theorem scanned_sequence_continues (db : Db) (n : Z) :
  (0 <= n < 9999)%Z ->
  unreachable db settingsCollection = false ->
  unreachable db invoicesCollection = false ->
  stored_counter (settings db) = None ->
  highest db = Some (identifier n) ->
  getNextInvoiceNumber db = identifier (n + 1).
Proof.
  intros Hn Hs Hi Hc Hh.
  rewrite (scan_reads_highest db _ Hs Hi Hc Hh), scan_of_single.
  pose proof continues_below_9999 as C.
  rewrite forallb_forall in C.
  assert (I : In n (below 9999)).
  { unfold below. apply in_map_iff. exists (Z.to_nat n). split; [lia |].
    apply in_seq. lia. }
  apply C in I. unfold continues in I.
  apply andb_prop in I as [I E]. apply andb_prop in I as [I N].
  rewrite I, N. apply String.eqb_eq, E.
Qed.

Lemma scanned_sequence_continues_witness :
  let db := {| settings := [ {| nextInvoiceNumber := Some 0%float |} ];
               invoices := [ {| invoiceNumber := "INV-0998" |};
                             {| invoiceNumber := "INV-0999" |};
                             {| invoiceNumber := "INV-0099" |} ];
               unreachable := reachable |} in
  highest db = Some "INV-0999" /\ getNextInvoiceNumber db = "INV-1000".
Proof.
  cbv zeta. split; [reflexivity |].
  apply (scanned_sequence_continues _ 999);
    [lia | reflexivity | reflexivity | reflexivity | vm_compute; reflexivity].
Defined.

(** The sequence stalls where the order of the identifiers is not the
    order of the numbers: the query sorts the identifiers as strings, so
    when the proposed identifier does not sort above the highest one (as
    [INV-10000] after [INV-9999]), the allocator proposes it again after
    the invoice has been created. *)
Theorem sequence_stalls_at_string_order (db : Db) (number : string) :
  unreachable db settingsCollection = false ->
  unreachable db invoicesCollection = false ->
  stored_counter (settings db) = None ->
  highest db = Some number ->
  String.leb (getNextInvoiceNumber db) number = true ->
  getNextInvoiceNumber
    (Pages.onSubmit true {| invoiceNumber := getNextInvoiceNumber db |} db)
  = getNextInvoiceNumber db.
Proof.
  intros Hs Hi Hc Hh Hl.
  set (next := getNextInvoiceNumber db) in *.
  assert (H' : highest (Pages.onSubmit true {| invoiceNumber := next |} db)
               = Some number).
  { rewrite (highest_onSubmit db next number Hi Hh).
    destruct (String.leb number next) eqn:E; [| reflexivity].
    f_equal. apply String.leb_antisym; assumption. }
  assert (U : forall c,
             unreachable (Pages.onSubmit true {| invoiceNumber := next |} db) c
             = unreachable db c).
  { intros c. unfold Pages.onSubmit, addDoc_invoice. rewrite Hi. reflexivity. }
  assert (S' : settings (Pages.onSubmit true {| invoiceNumber := next |} db)
               = settings db).
  { unfold Pages.onSubmit, addDoc_invoice. rewrite Hi. reflexivity. }
  rewrite (scan_reads_highest _ number); rewrite ?U, ?S'; try assumption.
  subst next. symmetry. apply scan_reads_highest; assumption.
Qed.

Lemma sequence_stalls_at_string_order_witness :
  let db := {| settings := [];
               invoices := [ {| invoiceNumber := "INV-9998" |};
                             {| invoiceNumber := "INV-9999" |} ];
               unreachable := reachable |} in
  getNextInvoiceNumber db = "INV-10000"
  /\ getNextInvoiceNumber
       (Pages.onSubmit true {| invoiceNumber := getNextInvoiceNumber db |} db)
     = getNextInvoiceNumber db.
Proof.
  cbv zeta. split; [vm_compute; reflexivity |].
  apply (sequence_stalls_at_string_order _ "INV-9999");
    try reflexivity; vm_compute; reflexivity.
Defined.

End NumberingProperties.

(** ** The dashboard *)

Section DashboardProperties.
Import Dashboard.

Lemma status_counts (invoices : list Invoice) :
  (List.length (filter (hasStatus "paid") invoices)
   + List.length (filter (hasStatus "pending") invoices)
   + List.length (filter otherStatus invoices)
   = List.length invoices)%nat
  /\ (List.length (filter (fun inv => (badge inv =? "Pending")%string) invoices)
      = List.length (filter (hasStatus "pending") invoices)
        + List.length (filter otherStatus invoices))%nat.
Proof.
  induction invoices as [| inv rest [IH1 IH2]]; [split; reflexivity |].
  cbn [filter List.length].
  unfold badge, otherStatus, hasStatus in *.
  destruct (status inv) as [v |].
  - destruct (String.eqb_spec v "paid") as [-> | Np].
    + cbn. split; [lia | exact IH2].
    + destruct (String.eqb_spec v "pending") as [-> | Nq]; cbn; split; lia.
  - cbn. split; lia.
Qed.

(** The counters of the dashboard: the paid, the pending and the other
    invoices (drafts, and documents without a status) add up to the
    total.  The recent list holds the first five invoices of the query, in
    their order (it is a prefix of the list, of length five, or all of it
    when there are fewer), and shows the badge ["Pending"] on every invoice
    that is not paid: on the pending ones and on the others as well,
    which the pending counter leaves out. *)
Theorem dashboard_counters (invoices : list Invoice) :
  (paidInvoices (calculateStats invoices)
   + pendingInvoices (calculateStats invoices)
   + List.length (filter otherStatus invoices)
   = totalInvoices (calculateStats invoices))%nat
  /\ (exists others, invoices = (recentInvoices invoices ++ others)%list)
  /\ List.length (recentInvoices invoices)
     = Nat.min 5 (totalInvoices (calculateStats invoices))
  /\ (List.length (filter (fun inv => (badge inv =? "Pending")%string)
                     (recentInvoices invoices))
      = List.length (filter (hasStatus "pending") (recentInvoices invoices))
        + List.length (filter otherStatus (recentInvoices invoices)))%nat.
Proof.
  unfold calculateStats. cbn [paidInvoices pendingInvoices totalInvoices].
  split; [apply status_counts | split; [| split]].
  - exists (skipn 5 invoices). unfold recentInvoices.
    symmetry. apply firstn_skipn.
  - unfold recentInvoices. apply length_firstn.
  - apply status_counts.
Qed.

End DashboardProperties.
